(** * Embedding / retrieval subsystem of the knowledge-brain application

    A shallow embedding of the TypeScript sources
    - [src/lib/embeddings.ts]            (company scope: client, store, search, chunker),
    - [src/lib/projectEmbeddings.ts]     (project scope: store, delete, search, chunker),
    - [supabase/functions/regenerate-embeddings]          (company batch job),
    - [supabase/functions/regenerate-project-embeddings]  (project batch job),
    followed by the properties of the specification that were checked on it.

    Conventions.  A JavaScript string is a [string]: a sequence of code units,
    here restricted to the 8-bit range.  A JavaScript [number] that is only
    stored or passed on (a vector component, a similarity score, a threshold)
    is a rational [Q]; sizes and counts are [Z].  A value that may be
    [undefined] or [null] is an [option]. *)

From Stdlib Require Import String Ascii List ZArith QArith Bool Lia DecimalString.
Import ListNotations.

Local Open Scope string_scope.
Local Open Scope list_scope.
Local Open Scope Z_scope.

(** String concatenation, the [+] of JavaScript; [++] is kept for lists. *)
Infix "+++" := String.append (at level 60, right associativity).

(* ================================================================== *)
(** * Part I: definitions *)
(* ================================================================== *)

(** ** JavaScript strings *)

Module Js.

(** The line feed, ['\n']. *)
Definition LF : ascii := "010"%char.

(** The paragraph separator ['\n\n']. *)
Definition LFLF : string := String LF (String LF EmptyString).

(** [if (s)] on a string: the empty string is the only falsy one. *)
Definition truthy (s : string) : bool :=
  match s with
  | EmptyString => false
  | String _ _ => true
  end.

(** [if (x)] on an optional string ([undefined] is falsy as well). *)
Definition truthy_opt (x : option string) : bool :=
  match x with
  | Some s => truthy s
  | None => false
  end.

(** White space and line terminators, as [String.prototype.trim] and the
    regular expression class [\s] understand them (code units below 256):
    TAB, LF, VT, FF, CR, SPACE and NBSP. *)
Definition is_whitespace (c : ascii) : bool :=
  let n := nat_of_ascii c in
  ((9 <=? n)%nat && (n <=? 13)%nat) || (n =? 32)%nat || (n =? 160)%nat.

Fixpoint trimStart (s : string) : string :=
  match s with
  | EmptyString => EmptyString
  | String c s' => if is_whitespace c then trimStart s' else s
  end.

Fixpoint trimEnd (s : string) : string :=
  match s with
  | EmptyString => EmptyString
  | String c s' =>
      match trimEnd s' with
      | EmptyString => if is_whitespace c then EmptyString else String c EmptyString
      | t => String c t
      end
  end.

(** [s.trim()] *)
Definition trim (s : string) : string := trimStart (trimEnd s).

(** [s.length], as the integer it is compared with. *)
Definition len (s : string) : Z := Z.of_nat (String.length s).

(** [parts.join(sep)] *)
Fixpoint join (sep : string) (parts : list string) : string :=
  match parts with
  | [] => EmptyString
  | [p] => p
  | p :: rest => p +++ sep +++ join sep rest
  end.

(** Prepends a character to the piece under construction (the head). *)
Definition cons_head (c : ascii) (pieces : list string) : list string :=
  match pieces with
  | [] => [String c EmptyString]
  | p :: ps => String c p :: ps
  end.

(** [text.split('\n\n')]: the pieces between the non-overlapping occurrences
    of the separator, scanned from the left.  Never empty: a text without
    separator is its own single piece. *)
Fixpoint split_LFLF (s : string) : list string :=
  match s with
  | EmptyString => [EmptyString]
  | String c1 s1 =>
      match s1 with
      | String c2 s2 =>
          if Ascii.eqb c1 LF && Ascii.eqb c2 LF
          then EmptyString :: split_LFLF s2
          else cons_head c1 (split_LFLF s1)
      | EmptyString => cons_head c1 (split_LFLF s1)
      end
  end.

(** The character class [[.!?]]. *)
Definition is_terminator (c : ascii) : bool :=
  Ascii.eqb c "."%char || Ascii.eqb c "!"%char || Ascii.eqb c "?"%char.

(** Length of the longest prefix whose characters satisfy [p] (a greedy
    [p+] or [p*]). *)
Fixpoint run_length (p : ascii -> bool) (s : string) : nat :=
  match s with
  | String c s' => if p c then S (run_length p s') else O
  | EmptyString => O
  end.

Fixpoint drop (n : nat) (s : string) : string :=
  match n, s with
  | S k, String _ s' => drop k s'
  | _, _ => s
  end.

(** Length of the match of [/[.!?]+\s+/] anchored at the start of [s], if
    there is one: the whole run of terminators, which must be followed by
    white space, and the whole run of white space. *)
Definition separator_at (s : string) : option nat :=
  let t := run_length is_terminator s in
  let w := run_length is_whitespace (drop t s) in
  match t, w with
  | S _, S _ => Some (t + w)%nat
  | _, _ => None
  end.

(** [text.split(/[.!?]+\s+/)], scanning from the left; [skip] counts the
    characters of the separator being consumed. *)
Fixpoint split_sentences_from (skip : nat) (s : string) : list string :=
  match s with
  | EmptyString => [EmptyString]
  | String c s' =>
      match skip with
      | S k => split_sentences_from k s'
      | O =>
          match separator_at s with
          | Some n => EmptyString :: split_sentences_from (Nat.pred n) s'
          | None => cons_head c (split_sentences_from O s')
          end
      end
  end.

Definition split_sentences (s : string) : list string :=
  split_sentences_from O s.

End Js.

(** ** The chunkers *)

Module Chunker.
Import Js.

(** State of the chunking loops: the chunks pushed so far and the buffer. *)
Definition LoopState : Type := (list string * string)%type.

(** *** Paragraph variant, [chunkText] of [src/lib/embeddings.ts]

    One iteration of [for (const paragraph of paragraphs)]. *)
Definition paragraph_step (maxChunkSize : Z) (st : LoopState) (paragraph : string)
  : LoopState :=
  let '(chunks, currentChunk) := st in
  let '(chunks, currentChunk) :=
    if (len currentChunk + len paragraph >? maxChunkSize) && truthy currentChunk
    then (chunks ++ [trim currentChunk], EmptyString)
    else (chunks, currentChunk) in
  (chunks, currentChunk +++ paragraph +++ LFLF).

(** The trailing [if (currentChunk.trim()) chunks.push(currentChunk.trim())]. *)
Definition paragraph_flush (st : LoopState) : list string :=
  let '(chunks, currentChunk) := st in
  if truthy (trim currentChunk) then chunks ++ [trim currentChunk] else chunks.

Definition chunk_paragraphs (maxChunkSize : Z) (paragraphs : list string) : list string :=
  paragraph_flush (fold_left (paragraph_step maxChunkSize) paragraphs ([], EmptyString)).

Definition default_maxChunkSize : Z := 1000.

Definition chunkText (text : string) (maxChunkSize : Z) : list string :=
  chunk_paragraphs maxChunkSize (split_LFLF text).

(** [chunkProjectText] of [src/lib/projectEmbeddings.ts] has the same body. *)
Definition chunkProjectText (text : string) (maxChunkSize : Z) : list string :=
  chunk_paragraphs maxChunkSize (split_LFLF text).

(** *** Sentence variant, [chunkText] of the regeneration functions *)

Definition period_space : string := ". ".

Definition sentence_step (maxLength : Z) (st : LoopState) (sentence : string)
  : LoopState :=
  let '(chunks, currentChunk) := st in
  if len (currentChunk +++ sentence) <=? maxLength
  then (chunks, currentChunk +++ sentence +++ period_space)
  else ((if truthy currentChunk then chunks ++ [trim currentChunk] else chunks),
        sentence +++ period_space).

Definition sentence_flush (st : LoopState) : list string :=
  let '(chunks, currentChunk) := st in
  if truthy currentChunk then chunks ++ [trim currentChunk] else chunks.

Definition chunkText_sentences (text : string) (maxLength : Z) : list string :=
  if len text <=? maxLength then [text]
  else sentence_flush
         (fold_left (sentence_step maxLength) (split_sentences text) ([], EmptyString)).

(** *** Predicates of the size bound

    What the specification allows a chunk to be: within the bound, or one
    paragraph that is itself over the bound. *)
Definition chunk_ok (maxChunkSize : Z) (paragraphs : list string) (c : string) : Prop :=
  len c <= maxChunkSize \/
  exists p, In p paragraphs /\ c = trim p /\ maxChunkSize < len p.

(** The buffer between two iterations: empty, or a body closed by a blank
    line, where the body is within the bound or is one oversized paragraph. *)
Definition buffer_ok (maxChunkSize : Z) (paragraphs : list string) (cur : string) : Prop :=
  cur = EmptyString \/
  exists body, cur = body +++ LFLF /\
               (len body <= maxChunkSize \/
                (In body paragraphs /\ maxChunkSize < len body)).

(** The bound the sentence variant does keep: a chunk is at most one longer
    than [maxLength], or it is one sentence, closed by a period, that is
    itself over the bound. *)
Definition sentence_chunk_ok (maxLength : Z) (sentences : list string) (c : string)
  : Prop :=
  len c <= maxLength + 1 \/
  exists s, In s sentences /\ c = trim (s +++ period_space) /\ maxLength < len s.

Definition sentence_buffer_ok (maxLength : Z) (sentences : list string) (cur : string)
  : Prop :=
  cur = EmptyString \/
  exists body, cur = body +++ period_space /\
               (len body <= maxLength \/
                (In body sentences /\ maxLength < len body)).

(** The buffer that holds the paragraphs [ps], each closed by a blank line. *)
Fixpoint buffer_of (ps : list string) : string :=
  match ps with
  | [] => EmptyString
  | p :: rest => p +++ LFLF +++ buffer_of rest
  end.

(** A paragraph that trimming leaves as it is, and that is not empty. *)
Definition tidy (p : string) : Prop := p <> EmptyString /\ trim p = p.

End Chunker.

(** ** Runtime: thrown values, completions and the effect monad *)

Module Runtime.

(** What a [catch (error)] clause can receive: an instance of [Error] with
    its message, or any other value. *)
Inductive JsThrown : Type :=
| ThrownError (message : string)
| ThrownOther.

(** [error instanceof Error ? error.message : 'Unknown error'] *)
Definition message_of (error : JsThrown) : string :=
  match error with
  | ThrownError message => message
  | ThrownOther => "Unknown error"
  end.

(** How the evaluation of a statement or of an awaited promise ends. *)
Inductive Completion (A : Type) : Type :=
| Normal (a : A)
| Throw (error : JsThrown).
Arguments Normal {A} a.
Arguments Throw {A} error.

(** A computation over a state [S] that returns or throws. *)
Definition M (S A : Type) : Type := S -> Completion A * S.

Definition ret {S A : Type} (a : A) : M S A := fun st => (Normal a, st).

Definition throw {S A : Type} (error : JsThrown) : M S A :=
  fun st => (Throw error, st).

Definition bind {S A B : Type} (m : M S A) (k : A -> M S B) : M S B :=
  fun st =>
    match m st with
    | (Normal a, st') => k a st'
    | (Throw error, st') => (Throw error, st')
    end.

(** [try { body } catch (error) { handler }] *)
Definition try_catch {S A : Type} (body : M S A) (handler : JsThrown -> M S A)
  : M S A :=
  fun st =>
    match body st with
    | (Normal a, st') => (Normal a, st')
    | (Throw error, st') => handler error st'
    end.

(** [for (const x of xs) { acc = body(acc, x) }]; a throwing iteration ends
    the loop. *)
Fixpoint for_of {S A B : Type} (xs : list A) (body : B -> A -> M S B) (acc : B)
  : M S B :=
  match xs with
  | [] => ret acc
  | x :: rest => bind (body acc x) (for_of rest body)
  end.

End Runtime.

Notation "x <- m ;; k" := (Runtime.bind m (fun x => k))
  (at level 61, m at next level, right associativity).
Notation "m ;; k" := (Runtime.bind m (fun _ => k))
  (at level 61, right associativity).

(** ** The database, the provider and the state of the world *)

Module Supabase.
Import Js Runtime.

Definition Vector : Type := list Q.

(** JSON values of the [metadata] bag, as far as the sources build them. *)
Inductive Json : Type :=
| JNull
| JString (s : string)
| JNumber (n : Z)
| JStrings (items : list string).

Definition Metadata : Type := list (string * Json).

(** The literals of the [content_type] columns of both tables. *)
Inductive ContentType : Type :=
| company_info
| document
| additional_context
| project_metadata
| document_chunk.

Definition ContentType_eqb (a b : ContentType) : bool :=
  match a, b with
  | company_info, company_info
  | document, document
  | additional_context, additional_context
  | project_metadata, project_metadata
  | document_chunk, document_chunk => true
  | _, _ => false
  end.

Definition opt_string_eqb (a : option string) (b : string) : bool :=
  match a with
  | Some s => String.eqb s b
  | None => false
  end.

(** The columns written to [company_brain_embeddings]; also the argument of
    [storeEmbedding] (interface [CompanyBrainEmbedding]). *)
Module CompanyBrainEmbedding.
Record t : Type := {
  user_id : string;
  content_type : ContentType;
  content_id : option string;
  content : string;
  metadata : option Metadata;
  embedding : option Vector
}.

(** A filter [.eq(column, value)] of the query builder. *)
Inductive Cond : Type :=
| eq_user_id (v : string)
| eq_content_type (v : ContentType)
| eq_content_id (v : string).

Definition holds (c : Cond) (r : t) : bool :=
  match c with
  | eq_user_id v => String.eqb (user_id r) v
  | eq_content_type v => ContentType_eqb (content_type r) v
  | eq_content_id v => opt_string_eqb (content_id r) v
  end.

Definition selected (conds : list Cond) (r : t) : bool :=
  forallb (fun c => holds c r) conds.

Definition with_embedding (r : t) (e : option Vector) : t :=
  {| user_id := user_id r; content_type := content_type r;
     content_id := content_id r; content := content r;
     metadata := metadata r; embedding := e |}.
End CompanyBrainEmbedding.

(** The columns written to [project_embeddings]; also the argument of
    [storeProjectEmbedding] (interface [ProjectEmbeddingData]). *)
Module ProjectEmbeddingData.
Record t : Type := {
  project_id : string;
  company_id : string;
  content_type : ContentType;
  content_id : option string;
  content : string;
  metadata : option Metadata;
  embedding : option Vector
}.

Inductive Cond : Type :=
| eq_project_id (v : string)
| eq_content_type (v : ContentType)
| eq_content_id (v : string).

Definition holds (c : Cond) (r : t) : bool :=
  match c with
  | eq_project_id v => String.eqb (project_id r) v
  | eq_content_type v => ContentType_eqb (content_type r) v
  | eq_content_id v => opt_string_eqb (content_id r) v
  end.

Definition selected (conds : list Cond) (r : t) : bool :=
  forallb (fun c => holds c r) conds.

Definition with_embedding (r : t) (e : option Vector) : t :=
  {| project_id := project_id r; company_id := company_id r;
     content_type := content_type r; content_id := content_id r;
     content := content r; metadata := metadata r; embedding := e |}.
End ProjectEmbeddingData.

(** Arguments of the ranking functions called through [supabase.rpc]. *)
Record RpcArgs : Type := {
  query_embedding : option Vector;
  scope : string;
  match_threshold : Q;
  match_count : Z
}.

(** Values printed by the console. *)
Inductive Printed : Type :=
| PString (s : string)
| PThrown (error : JsThrown).

(** Observable events, most recent last. *)
Inductive Event : Type :=
| console_log (args : list Printed)
| console_warn (args : list Printed)
| console_error (args : list Printed)
| fetch_call (text : string)
| rpc_call (fn : string) (args : RpcArgs).

Record State : Type := {
  company_brain_embeddings : list CompanyBrainEmbedding.t;
  project_embeddings : list ProjectEmbeddingData.t;
  events : list Event
}.

Definition printed_opt (x : option string) : Printed :=
  match x with
  | Some s => PString s
  | None => PString "undefined"
  end.

(** The state [st] after the events [evs] were appended to its trace. *)
Definition log (st : State) (evs : list Event) : State :=
  {| company_brain_embeddings := company_brain_embeddings st;
     project_embeddings := project_embeddings st;
     events := events st ++ evs |}.

Definition emit (e : Event) : M State unit :=
  fun st => (Normal tt, log st [e]).

(** *** The embedding provider *)

(** The parsed body, seen through [data.embedding.values]. *)
Inductive Payload : Type :=
| NoEmbedding (type_error : string)
    (* [data] or [data.embedding] is missing: the property read throws *)
| Values (values : option Vector).
    (* [data.embedding] exists; [values] is [undefined] when absent *)

Inductive JsonOutcome : Type :=
| JsonRejects (error : JsThrown)
| JsonResolves (data : Payload).

Inductive FetchOutcome : Type :=
| FetchRejects (error : JsThrown)
| FetchResponds (ok : bool) (status : nat) (statusText : string)
                (body : JsonOutcome).

(** *** Writes *)

Inductive DbOp : Type :=
| InsertCompany (row : CompanyBrainEmbedding.t)
| DeleteCompany (conds : list CompanyBrainEmbedding.Cond)
| InsertProject (row : ProjectEmbeddingData.t)
| DeleteProject (conds : list ProjectEmbeddingData.Cond)
| CallRpc (fn : string) (args : RpcArgs).

(** What the database makes of a request: it is carried out and the
    response has [error: null]; or nothing is done and the response carries
    an error object; or nothing is done and the awaited call throws. *)
Inductive DbOutcome : Type :=
| Applied
| Reported (error : JsThrown)
| Rejected (error : JsThrown).

(** Everything outside the program: the environment variables, the provider,
    the faults of the database and the similarity computed by its engine. *)
Record World : Type := {
  VITE_GEMINI_API_KEY : option string;
  GEMINI_API_KEY : option string;
  fetch : string -> FetchOutcome;
  db_outcome : DbOp -> DbOutcome;
  similarity : Vector -> Vector -> Q
}.

Definition apply_op (op : DbOp) (st : State) : State :=
  match op with
  | InsertCompany row =>
      {| company_brain_embeddings := company_brain_embeddings st ++ [row];
         project_embeddings := project_embeddings st;
         events := events st |}
  | DeleteCompany conds =>
      {| company_brain_embeddings :=
           filter (fun r => negb (CompanyBrainEmbedding.selected conds r))
                  (company_brain_embeddings st);
         project_embeddings := project_embeddings st;
         events := events st |}
  | InsertProject row =>
      {| company_brain_embeddings := company_brain_embeddings st;
         project_embeddings := project_embeddings st ++ [row];
         events := events st |}
  | DeleteProject conds =>
      {| company_brain_embeddings := company_brain_embeddings st;
         project_embeddings :=
           filter (fun r => negb (ProjectEmbeddingData.selected conds r))
                  (project_embeddings st);
         events := events st |}
  | CallRpc fn args =>
      {| company_brain_embeddings := company_brain_embeddings st;
         project_embeddings := project_embeddings st;
         events := events st ++ [rpc_call fn args] |}
  end.

(** [const { error } = await supabase.from(table).insert(..)] and
    [.delete().eq(..)]: the [error] of the response. *)
Definition write (w : World) (op : DbOp) : M State (option JsThrown) :=
  fun st =>
    match db_outcome w op with
    | Applied => (Normal None, apply_op op st)
    | Reported error => (Normal (Some error), st)
    | Rejected error => (Throw error, st)
    end.

(** [if (error) throw error] *)
Definition throw_if_error (error : option JsThrown) : M State unit :=
  match error with
  | Some e => throw e
  | None => ret tt
  end.

(** *** The ranking functions *)

Record Match (Row : Type) : Type := {
  row : Row;
  score : Q
}.
Arguments row {Row} m.
Arguments score {Row} m.

Fixpoint insert_by_score {Row : Type} (m : Match Row) (sorted : list (Match Row))
  : list (Match Row) :=
  match sorted with
  | [] => [m]
  | x :: rest =>
      if Qle_bool (score m) (score x)
      then x :: insert_by_score m rest
      else m :: sorted
  end.

(** Insertion sort, highest score first; among equal scores the row met
    first stays first. *)
Definition sort_by_score {Row : Type} (ms : list (Match Row)) : list (Match Row) :=
  fold_right insert_by_score [] (rev ms).

(** Modelled from the spec: the SQL functions [match_company_brain_documents]
    and [match_project_documents] behind [supabase.rpc] (their migrations are
    not among the sources).  Following section 4.4: the candidates are the
    rows of the tenant scope; each is scored by its similarity to the query
    vector; the candidates at or above the threshold are kept, sorted by
    descending score and truncated to the limit. *)
Definition rank {Row : Type} (w : World) (in_scope : Row -> bool)
  (vector_of : Row -> option Vector) (args : RpcArgs) (rows : list Row)
  : list (Match Row) :=
  match query_embedding args with
  | None => []
  | Some q =>
      let scored :=
        flat_map (fun r =>
                    match vector_of r with
                    | Some v =>
                        if in_scope r then [{| row := r; score := similarity w q v |}]
                        else []
                    | None => []
                    end) rows in
      let kept := filter (fun m => Qle_bool (match_threshold args) (score m)) scored in
      firstn (Z.to_nat (match_count args)) (sort_by_score kept)
  end.

(** Modelled from the spec: the SQL function [match_company_brain_documents]
    (migration not among the sources), the ranking of section 4.4 scoped by
    [match_user_id]. *)
Definition match_company_brain_documents (w : World) (args : RpcArgs) (st : State)
  : list (Match CompanyBrainEmbedding.t) :=
  rank w (fun r => String.eqb (CompanyBrainEmbedding.user_id r) (scope args))
       CompanyBrainEmbedding.embedding args (company_brain_embeddings st).

(** Modelled from the spec: the SQL function [match_project_documents]
    (migration not among the sources), the ranking of section 4.4 scoped by
    [p_project_id]. *)
Definition match_project_documents (w : World) (args : RpcArgs) (st : State)
  : list (Match ProjectEmbeddingData.t) :=
  rank w (fun r => String.eqb (ProjectEmbeddingData.project_id r) (scope args))
       ProjectEmbeddingData.embedding args (project_embeddings st).

(** [const { data, error } = await supabase.rpc(fn, args)], where [query]
    is the ranking function behind [fn]. *)
Definition rpc {Row : Type} (w : World) (fn : string) (args : RpcArgs)
  (query : World -> RpcArgs -> State -> list (Match Row))
  : M State (option (list (Match Row)) * option JsThrown) :=
  fun st =>
    match db_outcome w (CallRpc fn args) with
    | Applied =>
        (Normal (Some (query w args st), None), apply_op (CallRpc fn args) st)
    | Reported error => (Normal (None, Some error), apply_op (CallRpc fn args) st)
    | Rejected error => (Throw error, apply_op (CallRpc fn args) st)
    end.

End Supabase.

(** ** [src/lib/embeddings.ts]: the company scope *)

Module Embeddings.
Import Js Runtime Supabase.

(** [`${n}`] for a natural number. *)
Definition string_of_nat (n : nat) : string :=
  NilZero.string_of_uint (Nat.to_uint n).

Module EmbeddingResponse.
Record t : Type := {
  embedding : option Vector;
  error : option string
}.
End EmbeddingResponse.

(** [await fetch(url, ..)] *)
Definition do_fetch (w : World) (text : string) : M State FetchOutcome :=
  emit (fetch_call text) ;; ret (fetch w text).

(** [await response.json()] followed by [data.embedding.values]. *)
Definition read_values (body : JsonOutcome) : M State (option Vector) :=
  match body with
  | JsonRejects error => throw error
  | JsonResolves (NoEmbedding type_error) => throw (ThrownError type_error)
  | JsonResolves (Values values) => ret values
  end.

Definition generateEmbedding (w : World) (text : string)
  : M State EmbeddingResponse.t :=
  try_catch
    (if negb (truthy_opt (VITE_GEMINI_API_KEY w)) then
       emit (console_warn [PString "Gemini API key not configured"]) ;;
       ret {| EmbeddingResponse.embedding := Some [];
              EmbeddingResponse.error := Some "Gemini API key not configured" |}
     else
       response <- do_fetch w text ;;
       match response with
       | FetchRejects error => throw error
       | FetchResponds ok status _ body =>
           if negb ok then
             throw (ThrownError ("Gemini API error: " +++ string_of_nat status))
           else
             values <- read_values body ;;
             ret {| EmbeddingResponse.embedding := values;
                    EmbeddingResponse.error := None |}
       end)
    (fun error =>
       emit (console_error [PString "Error generating embedding:"; PThrown error]) ;;
       ret {| EmbeddingResponse.embedding := Some [];
              EmbeddingResponse.error := Some (message_of error) |}).

(** The result of the store and delete operations:
    [{ success: boolean; error?: string }]. *)
Record StoreResult : Type := {
  success : bool;
  error : option string
}.

Definition succeeded : StoreResult := {| success := true; error := None |}.

Definition failed (message : option string) : StoreResult :=
  {| success := false; error := message |}.

(** The common shape of the store and delete operations: a body that ends
    in [return { success: true }] and the [catch] that turns a thrown value
    into a failure result. *)
Definition guarded (label : string) (body : M State StoreResult)
  : M State StoreResult :=
  try_catch body
    (fun error =>
       emit (console_error [PString label; PThrown error]) ;;
       ret (failed (Some (message_of error)))).

(** The vector to store: [data.embedding] when given, else the one generated
    from [data.content]; [inr] carries the early [return] on a failed
    generation. *)
Definition resolve_embedding (w : World) (given : option Vector) (content : string)
  : M State (option Vector + StoreResult) :=
  match given with
  | Some embedding => ret (inl (Some embedding))
  | None =>
      result <- generateEmbedding w content ;;
      if truthy_opt (EmbeddingResponse.error result)
      then ret (inr (failed (EmbeddingResponse.error result)))
      else ret (inl (EmbeddingResponse.embedding result))
  end.

Definition storeEmbedding (w : World) (data : CompanyBrainEmbedding.t)
  : M State StoreResult :=
  guarded "Error storing embedding:"
    (resolved <- resolve_embedding w (CompanyBrainEmbedding.embedding data)
                                   (CompanyBrainEmbedding.content data) ;;
     match resolved with
     | inr early => ret early
     | inl embedding =>
         error <- write w (InsertCompany
                             (CompanyBrainEmbedding.with_embedding data embedding)) ;;
         throw_if_error error ;;
         ret succeeded
     end).

Definition default_threshold : Q := 78 # 100.
Definition default_limit : Z := 10.

(** [return data || []] after [if (error) throw error]. *)
Definition rows_or_empty {Row : Type}
  (response : option (list (Match Row)) * option JsThrown)
  : M State (list (Match Row)) :=
  throw_if_error (snd response) ;;
  ret (match fst response with Some data => data | None => [] end).

Definition searchSimilarContent (w : World) (userId query : string)
  (threshold : Q) (limit : Z) : M State (list (Match CompanyBrainEmbedding.t)) :=
  try_catch
    (result <- generateEmbedding w query ;;
     if truthy_opt (EmbeddingResponse.error result) then
       emit (console_error [PString "Error generating query embedding:";
                            printed_opt (EmbeddingResponse.error result)]) ;;
       ret []
     else
       response <- rpc w "match_company_brain_documents"
                     {| query_embedding := EmbeddingResponse.embedding result;
                        scope := userId;
                        match_threshold := threshold;
                        match_count := limit |}
                     match_company_brain_documents ;;
       rows_or_empty response)
    (fun error =>
       emit (console_error [PString "Error searching similar content:";
                            PThrown error]) ;;
       ret []).

End Embeddings.

(** ** [src/lib/projectEmbeddings.ts]: the project scope *)

Module ProjectEmbeddings.
Import Js Runtime Supabase.
Import Embeddings.

Definition storeProjectEmbedding (w : World) (data : ProjectEmbeddingData.t)
  : M State StoreResult :=
  guarded "Error storing project embedding:"
    (resolved <- resolve_embedding w (ProjectEmbeddingData.embedding data)
                                   (ProjectEmbeddingData.content data) ;;
     match resolved with
     | inr early => ret early
     | inl embedding =>
         error <- write w (InsertProject
                             (ProjectEmbeddingData.with_embedding data embedding)) ;;
         throw_if_error error ;;
         ret succeeded
     end).

Definition searchProjectContent (w : World) (projectId query : string)
  (threshold : Q) (limit : Z) : M State (list (Match ProjectEmbeddingData.t)) :=
  try_catch
    (result <- generateEmbedding w query ;;
     if truthy_opt (EmbeddingResponse.error result) then
       emit (console_error [PString "Error generating query embedding:";
                            printed_opt (EmbeddingResponse.error result)]) ;;
       ret []
     else
       response <- rpc w "match_project_documents"
                     {| query_embedding := EmbeddingResponse.embedding result;
                        scope := projectId;
                        match_threshold := threshold;
                        match_count := limit |}
                     match_project_documents ;;
       rows_or_empty response)
    (fun error =>
       emit (console_error [PString "Error searching project content:";
                            PThrown error]) ;;
       ret []).

Definition deleteProjectEmbeddings (w : World) (projectId : string)
  : M State StoreResult :=
  guarded "Error deleting project embeddings:"
    (error <- write w (DeleteProject [ProjectEmbeddingData.eq_project_id projectId]) ;;
     throw_if_error error ;;
     ret succeeded).

Definition deleteProjectEmbeddingsByType (w : World) (projectId : string)
  (contentType : ContentType) : M State StoreResult :=
  guarded "Error deleting project embeddings by type:"
    (error <- write w (DeleteProject
                         [ProjectEmbeddingData.eq_project_id projectId;
                          ProjectEmbeddingData.eq_content_type contentType]) ;;
     throw_if_error error ;;
     ret succeeded).

End ProjectEmbeddings.

(** ** The regeneration functions: what they share *)

Module Edge.
Import Js Runtime Supabase.

(** The response of a [select]: [{ data, error }]. *)
Record QueryResult (A : Type) : Type := {
  data : option A;
  error : option JsThrown
}.
Arguments data {A} q.
Arguments error {A} q.

(** What the handlers read of the request: the method and the
    [Authorization] header. *)
Record Request : Type := {
  method : string;
  authorization : option string
}.

(** [generateEmbedding(text, apiKey)] of the functions: it throws where the
    one of the library returns an error. *)
Definition generateEmbedding (w : World) (text : string) : M State (option Vector) :=
  response <- Embeddings.do_fetch w text ;;
  match response with
  | FetchRejects error => throw error
  | FetchResponds ok _ statusText body =>
      if negb ok then throw (ThrownError ("Gemini API error: " +++ statusText))
      else Embeddings.read_values body
  end.

(** [value ? `${label}${value}` : ''] *)
Definition line (label : string) (value : option string) : string :=
  match value with
  | Some v => if truthy v then label +++ v else EmptyString
  | None => EmptyString
  end.

(** [values?.length ? `${label}${values.join(', ')}` : ''] *)
Definition list_line (label : string) (values : option (list string)) : string :=
  match values with
  | Some (v :: rest) => label +++ join ", " (v :: rest)
  | _ => EmptyString
  end.

(** [lines.filter(Boolean).join('\n')] *)
Definition join_lines (lines : list string) : string :=
  join (String LF EmptyString) (filter truthy lines).

(** A nullable string inside a template literal or a metadata bag. *)
Definition template (value : option string) : string :=
  match value with
  | Some v => v
  | None => "null"
  end.

Definition json_string (value : option string) : Json :=
  match value with
  | Some v => JString v
  | None => JNull
  end.

Definition json_strings (value : option (list string)) : Json :=
  match value with
  | Some items => JStrings items
  | None => JNull
  end.

(** The text embedded for a document: its descriptive fields, with the
    project name in front in the project scope. *)
Definition document_content (heading : list string) (file_name file_type : string)
  (description category : option string) (tags : option (list string)) : string :=
  join_lines (heading ++
              ["File: " +++ file_name;
               line "Description: " description;
               line "Category: " category;
               list_line "Tags: " tags;
               "Type: " +++ file_type]).

(** [req.method === 'OPTIONS'], [!authHeader], [!geminiApiKey] *)
Definition is_preflight (req : Request) : bool := String.eqb (method req) "OPTIONS".

(** A request that gets past the preflight, authorization and key checks. *)
Definition admitted (w : World) (req : Request) : bool :=
  negb (is_preflight req) && truthy_opt (authorization req)
  && truthy_opt (GEMINI_API_KEY w).

End Edge.

(** ** [regenerate-project-embeddings]: the project batch job *)

Module RegenerateProjectEmbeddings.
Import Js Runtime Supabase Edge.

Module Project.
Record t : Type := {
  id : string;
  company_id : string;
  project_name : string;
  status : string
}.
End Project.

Module ProjectMetadata.
Record t : Type := {
  id : string;
  project_id : string;
  company_id : string;
  project_description : option string;
  project_goals : option string;
  target_audience : option string;
  budget_range : option string;
  timeline : option string;
  tech_stack : option (list string);
  key_features : option (list string);
  key_goals : option (list string);
  success_metrics : option string;
  constraints : option string;
  additional_notes : option string
}.
End ProjectMetadata.

Module ProjectDocument.
Record t : Type := {
  id : string;
  project_id : string;
  company_id : string;
  file_name : string;
  file_type : string;
  description : option string;
  tags : option (list string);
  category : option string;
  storage_url : string
}.
End ProjectDocument.

(** The source tables as the job reads them. *)
Record Sources : Type := {
  projects : QueryResult (list Project.t);
  project_metadata : string -> QueryResult ProjectMetadata.t;
  project_documents : string -> QueryResult (list ProjectDocument.t)
}.

Definition prepareProjectMetadataForEmbedding (metadata : ProjectMetadata.t)
  (projectName : string) : string :=
  join_lines
    ["Project: " +++ projectName;
     line "Description: " (ProjectMetadata.project_description metadata);
     line "Goals: " (ProjectMetadata.project_goals metadata);
     line "Target Audience: " (ProjectMetadata.target_audience metadata);
     line "Budget: " (ProjectMetadata.budget_range metadata);
     line "Timeline: " (ProjectMetadata.timeline metadata);
     list_line "Tech Stack: " (ProjectMetadata.tech_stack metadata);
     list_line "Key Features: " (ProjectMetadata.key_features metadata);
     list_line "Key Goals: " (ProjectMetadata.key_goals metadata);
     line "Success Metrics: " (ProjectMetadata.success_metrics metadata);
     line "Constraints: " (ProjectMetadata.constraints metadata);
     line "Additional Notes: " (ProjectMetadata.additional_notes metadata)].

(** [metadataCount] and [documentsCount]. *)
Definition Counts : Type := (Z * Z)%type.

Record Stats : Type := {
  projects_processed : Z;
  metadata_processed : Z;
  documents_processed : Z;
  total_embeddings : Z
}.

Inductive Body : Type :=
| NoBody
| ErrorBody (error : string)
| SuccessBody (message : string) (stats : Stats).

Record Response : Type := {
  status : Z;
  body : Body
}.

(** Step 1 of the loop body: the metadata embedding of one project.  (The
    check mark that starts the log lines of the source is left out.) *)
Definition regenerate_metadata (w : World) (src : Sources) (counts : Counts)
  (project : Project.t) : M State Counts :=
  let found := project_metadata src (Project.id project) in
  match error found, data found with
  | None, Some metadata =>
      write w (DeleteProject
                 [ProjectEmbeddingData.eq_project_id (Project.id project);
                  ProjectEmbeddingData.eq_content_type Supabase.project_metadata]) ;;
      let content :=
        prepareProjectMetadataForEmbedding metadata (Project.project_name project) in
      embedding <- generateEmbedding w content ;;
      write w (InsertProject
                 {| ProjectEmbeddingData.project_id := Project.id project;
                    ProjectEmbeddingData.company_id := Project.company_id project;
                    ProjectEmbeddingData.content_type := Supabase.project_metadata;
                    ProjectEmbeddingData.content_id := Some (Project.id project);
                    ProjectEmbeddingData.content := content;
                    ProjectEmbeddingData.metadata :=
                      Some [("source", JString "project_metadata_form");
                            ("project_name", JString (Project.project_name project));
                            ("status", JString (Project.status project))];
                    ProjectEmbeddingData.embedding := embedding |}) ;;
      emit (console_log [PString ("Regenerated metadata embedding for: "
                                  +++ Project.project_name project)]) ;;
      ret (fst counts + 1, snd counts)
  | _, _ => ret counts
  end.

(** The body of [for (const doc of documents)]. *)
Definition regenerate_document (w : World) (project : Project.t) (counts : Counts)
  (doc : ProjectDocument.t) : M State Counts :=
  write w (DeleteProject
             [ProjectEmbeddingData.eq_project_id (Project.id project);
              ProjectEmbeddingData.eq_content_type Supabase.document;
              ProjectEmbeddingData.eq_content_id (ProjectDocument.id doc)]) ;;
  let embeddingContent :=
    document_content ["Project: " +++ Project.project_name project]
      (ProjectDocument.file_name doc) (ProjectDocument.file_type doc)
      (ProjectDocument.description doc) (ProjectDocument.category doc)
      (ProjectDocument.tags doc) in
  embedding <- generateEmbedding w embeddingContent ;;
  write w (InsertProject
             {| ProjectEmbeddingData.project_id := Project.id project;
                ProjectEmbeddingData.company_id := Project.company_id project;
                ProjectEmbeddingData.content_type := Supabase.document;
                ProjectEmbeddingData.content_id := Some (ProjectDocument.id doc);
                ProjectEmbeddingData.content := embeddingContent;
                ProjectEmbeddingData.metadata :=
                  Some [("file_name", JString (ProjectDocument.file_name doc));
                        ("file_type", JString (ProjectDocument.file_type doc));
                        ("category", json_string (ProjectDocument.category doc));
                        ("tags", json_strings (ProjectDocument.tags doc));
                        ("storage_url", JString (ProjectDocument.storage_url doc));
                        ("project_name", JString (Project.project_name project))];
                ProjectEmbeddingData.embedding := embedding |}) ;;
  emit (console_log [PString ("Regenerated document embedding: "
                              +++ ProjectDocument.file_name doc)]) ;;
  ret (fst counts, snd counts + 1).

(** Step 2 of the loop body: the document embeddings of one project. *)
Definition regenerate_documents (w : World) (src : Sources) (counts : Counts)
  (project : Project.t) : M State Counts :=
  let found := project_documents src (Project.id project) in
  match error found, data found with
  | None, Some documents => for_of documents (regenerate_document w project) counts
  | _, _ => ret counts
  end.

(** The body of [for (const project of projects || [])]. *)
Definition regenerate_project (w : World) (src : Sources) (counts : Counts)
  (project : Project.t) : M State Counts :=
  emit (console_log [PString ("Processing project: "
                              +++ Project.project_name project)]) ;;
  counts <- regenerate_metadata w src counts project ;;
  regenerate_documents w src counts project.

Definition list_or_empty {A : Type} (x : option (list A)) : list A :=
  match x with
  | Some l => l
  | None => []
  end.

Definition success_response (n : Z) (counts : Counts) : Response :=
  {| status := 200;
     body := SuccessBody "Project embeddings regenerated successfully"
               {| projects_processed := n;
                  metadata_processed := fst counts;
                  documents_processed := snd counts;
                  total_embeddings := fst counts + snd counts |} |}.

Definition error_response (error : JsThrown) : Response :=
  {| status := 500; body := ErrorBody (message_of error) |}.

(** The state in which the sweep starts: the checks are passed and the
    start is logged. *)
Definition started (st : State) : State :=
  log st [console_log [PString "Starting project embedding regeneration..."]].

(** The handler passed to [Deno.serve]. *)
Definition serve (w : World) (src : Sources) (req : Request) : M State Response :=
  if is_preflight req then ret {| status := 204; body := NoBody |}
  else
    try_catch
      (if negb (truthy_opt (authorization req)) then
         ret {| status := 401; body := ErrorBody "Unauthorized" |}
       else
         (if negb (truthy_opt (GEMINI_API_KEY w))
          then throw (ThrownError "GEMINI_API_KEY not configured")
          else ret tt) ;;
         emit (console_log [PString "Starting project embedding regeneration..."]) ;;
         throw_if_error (error (projects src)) ;;
         counts <- for_of (list_or_empty (data (projects src)))
                          (regenerate_project w src) (0, 0) ;;
         ret (success_response
                (Z.of_nat (length (list_or_empty (data (projects src))))) counts))
      (fun error =>
         emit (console_error [PString "Error regenerating project embeddings:";
                              PThrown error]) ;;
         ret (error_response error)).

End RegenerateProjectEmbeddings.

(** ** [regenerate-embeddings]: the company batch job *)

Module RegenerateEmbeddings.
Import Js Runtime Supabase Edge.

Module CompanyBrain.
Record t : Type := {
  id : string;
  user_id : string;
  company_name : option string;
  industry : option string;
  company_size : option string;
  target_market : option string;
  key_products : option string;
  unique_value_prop : option string;
  additional_context : option string
}.
End CompanyBrain.

Module BrainDocument.
Record t : Type := {
  id : string;
  user_id : string;
  file_name : string;
  file_type : string;
  description : option string;
  tags : option (list string);
  category : option string;
  storage_url : string
}.
End BrainDocument.

Record Sources : Type := {
  company_brain : QueryResult (list CompanyBrain.t);
  brain_documents : QueryResult (list BrainDocument.t)
}.

(** The sentence chunker with its default [maxLength = 1000]. *)
Definition chunkText (text : string) : list string :=
  Chunker.chunkText_sentences text 1000.

Definition prepareCompanyInfoForEmbedding (brain : CompanyBrain.t) : string :=
  join_lines
    [line "Company: " (CompanyBrain.company_name brain);
     line "Industry: " (CompanyBrain.industry brain);
     line "Size: " (CompanyBrain.company_size brain);
     line "Target Market: " (CompanyBrain.target_market brain);
     line "Products: " (CompanyBrain.key_products brain);
     line "Value Proposition: " (CompanyBrain.unique_value_prop brain)].

(** The body of [for (let i = 0; i < chunks.length; i++)]; the accumulator
    is the index [i]. *)
Definition regenerate_chunk (w : World) (brain : CompanyBrain.t) (total : Z)
  (i : Z) (chunk : string) : M State Z :=
  chunkEmbedding <- generateEmbedding w chunk ;;
  write w (InsertCompany
             {| CompanyBrainEmbedding.user_id := CompanyBrain.user_id brain;
                CompanyBrainEmbedding.content_type := Supabase.additional_context;
                CompanyBrainEmbedding.content_id := Some (CompanyBrain.id brain);
                CompanyBrainEmbedding.content := chunk;
                CompanyBrainEmbedding.metadata :=
                  Some [("chunk_index", JNumber i); ("total_chunks", JNumber total)];
                CompanyBrainEmbedding.embedding := chunkEmbedding |}) ;;
  ret (i + 1).

(** Step 2 of the loop body: the chunks of [additional_context]. *)
Definition regenerate_context (w : World) (brain : CompanyBrain.t) : M State unit :=
  match CompanyBrain.additional_context brain with
  | Some context =>
      if truthy context then
        write w (DeleteCompany
                   [CompanyBrainEmbedding.eq_user_id (CompanyBrain.user_id brain);
                    CompanyBrainEmbedding.eq_content_type Supabase.additional_context]) ;;
        let chunks := chunkText context in
        for_of chunks (regenerate_chunk w brain (Z.of_nat (length chunks))) 0 ;;
        emit (console_log [PString ("Regenerated "
                                    +++ Embeddings.string_of_nat (length chunks)
                                    +++ " additional context chunks")])
      else ret tt
  | None => ret tt
  end.

(** The body of [for (const brain of companyBrains || [])]. *)
Definition regenerate_brain (w : World) (_ : unit) (brain : CompanyBrain.t)
  : M State unit :=
  write w (DeleteCompany
             [CompanyBrainEmbedding.eq_user_id (CompanyBrain.user_id brain);
              CompanyBrainEmbedding.eq_content_type Supabase.company_info]) ;;
  let content := prepareCompanyInfoForEmbedding brain in
  embedding <- generateEmbedding w content ;;
  write w (InsertCompany
             {| CompanyBrainEmbedding.user_id := CompanyBrain.user_id brain;
                CompanyBrainEmbedding.content_type := Supabase.company_info;
                CompanyBrainEmbedding.content_id := Some (CompanyBrain.id brain);
                CompanyBrainEmbedding.content := content;
                CompanyBrainEmbedding.metadata :=
                  Some [("company_name", json_string (CompanyBrain.company_name brain));
                        ("industry", json_string (CompanyBrain.industry brain));
                        ("company_size", json_string (CompanyBrain.company_size brain))];
                CompanyBrainEmbedding.embedding := embedding |}) ;;
  emit (console_log [PString ("Regenerated embedding for company: "
                              +++ template (CompanyBrain.company_name brain))]) ;;
  regenerate_context w brain.

(** The body of [for (const doc of documents || [])]. *)
Definition regenerate_document (w : World) (_ : unit) (doc : BrainDocument.t)
  : M State unit :=
  write w (DeleteCompany
             [CompanyBrainEmbedding.eq_user_id (BrainDocument.user_id doc);
              CompanyBrainEmbedding.eq_content_type Supabase.document;
              CompanyBrainEmbedding.eq_content_id (BrainDocument.id doc)]) ;;
  let embeddingContent :=
    document_content []
      (BrainDocument.file_name doc) (BrainDocument.file_type doc)
      (BrainDocument.description doc) (BrainDocument.category doc)
      (BrainDocument.tags doc) in
  embedding <- generateEmbedding w embeddingContent ;;
  write w (InsertCompany
             {| CompanyBrainEmbedding.user_id := BrainDocument.user_id doc;
                CompanyBrainEmbedding.content_type := Supabase.document;
                CompanyBrainEmbedding.content_id := Some (BrainDocument.id doc);
                CompanyBrainEmbedding.content := embeddingContent;
                CompanyBrainEmbedding.metadata :=
                  Some [("file_name", JString (BrainDocument.file_name doc));
                        ("file_type", JString (BrainDocument.file_type doc));
                        ("category", json_string (BrainDocument.category doc));
                        ("tags", json_strings (BrainDocument.tags doc));
                        ("storage_url", JString (BrainDocument.storage_url doc))];
                CompanyBrainEmbedding.embedding := embedding |}) ;;
  emit (console_log [PString ("Regenerated embedding for document: "
                              +++ BrainDocument.file_name doc)]).

Record Stats : Type := {
  company_brains_processed : Z;
  documents_processed : Z;
  total_processed : Z
}.

Inductive Body : Type :=
| NoBody
| ErrorBody (error : string)
| SuccessBody (message : string) (stats : Stats).

Record Response : Type := {
  status : Z;
  body : Body
}.

Definition list_or_empty {A : Type} (x : option (list A)) : list A :=
  match x with
  | Some l => l
  | None => []
  end.

Definition success_response (brains documents : Z) : Response :=
  {| status := 200;
     body := SuccessBody "Embeddings regenerated successfully"
               {| company_brains_processed := brains;
                  documents_processed := documents;
                  total_processed := brains + documents |} |}.

Definition error_response (error : JsThrown) : Response :=
  {| status := 500; body := ErrorBody (message_of error) |}.

(** The two sweeps of the handler, between the checks and the response. *)
Definition sweep (w : World) (src : Sources) : M State unit :=
  throw_if_error (error (company_brain src)) ;;
  for_of (list_or_empty (data (company_brain src))) (regenerate_brain w) tt ;;
  throw_if_error (error (brain_documents src)) ;;
  for_of (list_or_empty (data (brain_documents src))) (regenerate_document w) tt.

(** The state in which the sweeps start: the checks are passed and the
    start is logged. *)
Definition started (st : State) : State :=
  log st [console_log [PString "Starting embedding regeneration..."]].

(** The handler passed to [Deno.serve]. *)
Definition serve (w : World) (src : Sources) (req : Request) : M State Response :=
  if is_preflight req then ret {| status := 204; body := NoBody |}
  else
    try_catch
      (if negb (truthy_opt (authorization req)) then
         ret {| status := 401; body := ErrorBody "Unauthorized" |}
       else
         (if negb (truthy_opt (GEMINI_API_KEY w))
          then throw (ThrownError "GEMINI_API_KEY not configured")
          else ret tt) ;;
         emit (console_log [PString "Starting embedding regeneration..."]) ;;
         sweep w src ;;
         ret (success_response
                (Z.of_nat (length (list_or_empty (data (company_brain src)))))
                (Z.of_nat (length (list_or_empty (data (brain_documents src)))))))
      (fun error =>
         emit (console_error [PString "Error regenerating embeddings:";
                              PThrown error]) ;;
         ret (error_response error)).

End RegenerateEmbeddings.

(** ** Refreshing an embedding: delete by type, then store *)

Module Refresh.
Import Js Runtime Supabase Embeddings ProjectEmbeddings.



End Refresh.

(** ** Observations on a run *)

Module Observe.
Import Js Runtime Supabase Embeddings.

Definition same_tables (a b : State) : Prop :=
  company_brain_embeddings a = company_brain_embeddings b /\
  project_embeddings a = project_embeddings b.

Definition is_ranking_query (e : Event) : bool :=
  match e with
  | rpc_call _ _ => true
  | _ => false
  end.


(** The failures of the embedding client on [text] that the client reports
    to its caller, that is, those for which [generateEmbedding] returns a
    non-empty [error]: no API key; a non-success status; and a rejected
    request, an unparsable body or a body without [embedding] when the thrown
    [Error] carries a message.  The other ways in which no vector arrives
    are those of [SilentFailure] below; together they make up
    [ClientFails]. *)
Inductive ReportedFailure (w : World) (text : string) : Prop :=
| missing_api_key :
    truthy_opt (VITE_GEMINI_API_KEY w) = false ->
    ReportedFailure w text
| request_failed (error : JsThrown) :
    truthy_opt (VITE_GEMINI_API_KEY w) = true ->
    fetch w text = FetchRejects error ->
    truthy (message_of error) = true ->
    ReportedFailure w text
| http_status (status : nat) (statusText : string) (body : JsonOutcome) :
    truthy_opt (VITE_GEMINI_API_KEY w) = true ->
    fetch w text = FetchResponds false status statusText body ->
    ReportedFailure w text
| unparsable_body (status : nat) (statusText : string) (error : JsThrown) :
    truthy_opt (VITE_GEMINI_API_KEY w) = true ->
    fetch w text = FetchResponds true status statusText (JsonRejects error) ->
    truthy (message_of error) = true ->
    ReportedFailure w text
| embedding_missing (status : nat) (statusText type_error : string) :
    truthy_opt (VITE_GEMINI_API_KEY w) = true ->
    fetch w text =
      FetchResponds true status statusText (JsonResolves (NoEmbedding type_error)) ->
    truthy type_error = true ->
    ReportedFailure w text.

(** Every way in which the client ends without a vector from the provider:
    no API key; the request is rejected; the provider answers with a
    non-success status; the body cannot be parsed; the body holds no
    [embedding]; the [embedding] of the body holds no [values]. *)
Inductive ClientFails (w : World) (text : string) : Prop :=
| fails_without_key :
    truthy_opt (VITE_GEMINI_API_KEY w) = false ->
    ClientFails w text
| fails_on_request (error : JsThrown) :
    truthy_opt (VITE_GEMINI_API_KEY w) = true ->
    fetch w text = FetchRejects error ->
    ClientFails w text
| fails_on_status (status : nat) (statusText : string) (body : JsonOutcome) :
    truthy_opt (VITE_GEMINI_API_KEY w) = true ->
    fetch w text = FetchResponds false status statusText body ->
    ClientFails w text
| fails_on_body (status : nat) (statusText : string) (error : JsThrown) :
    truthy_opt (VITE_GEMINI_API_KEY w) = true ->
    fetch w text = FetchResponds true status statusText (JsonRejects error) ->
    ClientFails w text
| fails_without_embedding (status : nat) (statusText type_error : string) :
    truthy_opt (VITE_GEMINI_API_KEY w) = true ->
    fetch w text =
      FetchResponds true status statusText (JsonResolves (NoEmbedding type_error)) ->
    ClientFails w text
| fails_without_values (status : nat) (statusText : string) :
    truthy_opt (VITE_GEMINI_API_KEY w) = true ->
    fetch w text =
      FetchResponds true status statusText (JsonResolves (Values None)) ->
    ClientFails w text.

(** The failures that the client does not report: [generateEmbedding]
    returns without a non-empty [error], and its caller goes on with the
    vector [v] of the result.  A body whose [embedding] holds no [values]
    gives [undefined]; an [Error] with an empty message, caught by the
    client, gives the empty vector together with the error [""], which
    the callers' test [if (result.error)] takes for no error. *)
Inductive SilentFailure (w : World) (text : string) : option Vector -> Prop :=
| values_missing (status : nat) (statusText : string) :
    truthy_opt (VITE_GEMINI_API_KEY w) = true ->
    fetch w text =
      FetchResponds true status statusText (JsonResolves (Values None)) ->
    SilentFailure w text None
| request_failed_without_message (error : JsThrown) :
    truthy_opt (VITE_GEMINI_API_KEY w) = true ->
    fetch w text = FetchRejects error ->
    truthy (message_of error) = false ->
    SilentFailure w text (Some [])
| unparsable_body_without_message (status : nat) (statusText : string)
    (error : JsThrown) :
    truthy_opt (VITE_GEMINI_API_KEY w) = true ->
    fetch w text = FetchResponds true status statusText (JsonRejects error) ->
    truthy (message_of error) = false ->
    SilentFailure w text (Some [])
| embedding_missing_without_message (status : nat) (statusText type_error : string) :
    truthy_opt (VITE_GEMINI_API_KEY w) = true ->
    fetch w text =
      FetchResponds true status statusText (JsonResolves (NoEmbedding type_error)) ->
    truthy type_error = false ->
    SilentFailure w text (Some []).

(** What a store or delete operation reports: success together with the
    change [applied], or a failure with a message together with [unchanged]. *)
Definition reports (result : StoreResult) (applied unchanged : Prop) : Prop :=
  (result = succeeded /\ applied) \/
  (exists message, result = failed (Some message) /\ unchanged).

(** A database whose [embedding] columns are declared [vector(n)] and
    required: it carries out an insert only for a vector of length [n]. *)
Definition has_dimension (n : nat) (e : option Vector) : bool :=
  match e with
  | Some v => Nat.eqb (length v) n
  | None => false
  end.

Definition enforces_dimension (w : World) (n : nat) : Prop :=
  (forall row, db_outcome w (InsertCompany row) = Applied ->
               has_dimension n (CompanyBrainEmbedding.embedding row) = true) /\
  (forall row, db_outcome w (InsertProject row) = Applied ->
               has_dimension n (ProjectEmbeddingData.embedding row) = true).



End Observe.

(** ** Sample inputs *)

Module Samples.
Import Js.

(** Three short paragraphs separated by blank lines. *)
Definition para2 : string := "ab" +++ LFLF +++ "cd" +++ LFLF +++ "ef".

(** Three short sentences; the first two fit a buffer of five characters. *)
Definition three_sentences : string := "ab. c. d".

(** A browser and function environment in which everything works: the
    provider returns a two-dimensional vector, the database carries out
    every request, and similarity is the dot product. *)
Definition dot (a b : Supabase.Vector) : Q :=
  fold_right Qplus 0%Q (map (fun p => Qmult (fst p) (snd p)) (combine a b)).

Definition world_ok : Supabase.World :=
  {| Supabase.VITE_GEMINI_API_KEY := Some "key";
     Supabase.GEMINI_API_KEY := Some "key";
     Supabase.fetch := fun _ =>
       Supabase.FetchResponds true 200 "OK"
         (Supabase.JsonResolves (Supabase.Values (Some [1%Q; 0%Q])));
     Supabase.db_outcome := fun _ => Supabase.Applied;
     Supabase.similarity := dot |}.


(** The provider answers every request with status 500. *)
Definition world_http_500 : Supabase.World :=
  {| Supabase.VITE_GEMINI_API_KEY := Some "key";
     Supabase.GEMINI_API_KEY := Some "key";
     Supabase.fetch := fun _ =>
       Supabase.FetchResponds false 500 "Internal Server Error"
         (Supabase.JsonRejects Runtime.ThrownOther);
     Supabase.db_outcome := fun _ => Supabase.Applied;
     Supabase.similarity := dot |}.

Definition company_row (user content : string) (e : option Supabase.Vector)
  : Supabase.CompanyBrainEmbedding.t :=
  {| Supabase.CompanyBrainEmbedding.user_id := user;
     Supabase.CompanyBrainEmbedding.content_type := Supabase.company_info;
     Supabase.CompanyBrainEmbedding.content_id := Some "brain-1";
     Supabase.CompanyBrainEmbedding.content := content;
     Supabase.CompanyBrainEmbedding.metadata := None;
     Supabase.CompanyBrainEmbedding.embedding := e |}.

Definition project_row (project company content : string) (e : option Supabase.Vector)
  : Supabase.ProjectEmbeddingData.t :=
  {| Supabase.ProjectEmbeddingData.project_id := project;
     Supabase.ProjectEmbeddingData.company_id := company;
     Supabase.ProjectEmbeddingData.content_type := Supabase.project_metadata;
     Supabase.ProjectEmbeddingData.content_id := Some project;
     Supabase.ProjectEmbeddingData.content := content;
     Supabase.ProjectEmbeddingData.metadata := None;
     Supabase.ProjectEmbeddingData.embedding := e |}.

Definition empty_state : Supabase.State :=
  {| Supabase.company_brain_embeddings := [];
     Supabase.project_embeddings := [];
     Supabase.events := [] |}.

(** Two stale copies of the metadata embedding of project [p1], and a record
    of another tenant. *)
Definition crowded_state : Supabase.State :=
  {| Supabase.company_brain_embeddings :=
       [company_row "alice" "Company: Acme" (Some [1%Q; 0%Q]);
        company_row "bob" "Company: Bolt" (Some [1%Q; 0%Q])];
     Supabase.project_embeddings :=
       [project_row "p1" "acme" "Project: Old" (Some [1%Q; 0%Q]);
        project_row "p1" "acme" "Project: Older" (Some [0%Q; 1%Q]);
        project_row "p2" "bolt" "Project: Other" (Some [1%Q; 0%Q])];
     Supabase.events := [] |}.


(** The tenant that owns each sample project. *)
Definition project_owner (project : string) : string :=
  if String.eqb project "p1" then "acme" else "bolt".

(** *** A sweep in which one embedding call fails *)

Definition project_alpha : RegenerateProjectEmbeddings.Project.t :=
  {| RegenerateProjectEmbeddings.Project.id := "p1";
     RegenerateProjectEmbeddings.Project.company_id := "acme";
     RegenerateProjectEmbeddings.Project.project_name := "Alpha";
     RegenerateProjectEmbeddings.Project.status := "active" |}.

Definition project_beta : RegenerateProjectEmbeddings.Project.t :=
  {| RegenerateProjectEmbeddings.Project.id := "p2";
     RegenerateProjectEmbeddings.Project.company_id := "bolt";
     RegenerateProjectEmbeddings.Project.project_name := "Beta";
     RegenerateProjectEmbeddings.Project.status := "active" |}.

Definition bare_metadata (project company : string)
  : RegenerateProjectEmbeddings.ProjectMetadata.t :=
  {| RegenerateProjectEmbeddings.ProjectMetadata.id := "m-" +++ project;
     RegenerateProjectEmbeddings.ProjectMetadata.project_id := project;
     RegenerateProjectEmbeddings.ProjectMetadata.company_id := company;
     RegenerateProjectEmbeddings.ProjectMetadata.project_description := None;
     RegenerateProjectEmbeddings.ProjectMetadata.project_goals := None;
     RegenerateProjectEmbeddings.ProjectMetadata.target_audience := None;
     RegenerateProjectEmbeddings.ProjectMetadata.budget_range := None;
     RegenerateProjectEmbeddings.ProjectMetadata.timeline := None;
     RegenerateProjectEmbeddings.ProjectMetadata.tech_stack := None;
     RegenerateProjectEmbeddings.ProjectMetadata.key_features := None;
     RegenerateProjectEmbeddings.ProjectMetadata.key_goals := None;
     RegenerateProjectEmbeddings.ProjectMetadata.success_metrics := None;
     RegenerateProjectEmbeddings.ProjectMetadata.constraints := None;
     RegenerateProjectEmbeddings.ProjectMetadata.additional_notes := None |}.

(** Two projects, each with a metadata row and no document. *)
Definition project_sources : RegenerateProjectEmbeddings.Sources :=
  {| RegenerateProjectEmbeddings.projects :=
       {| Edge.data := Some [project_alpha; project_beta]; Edge.error := None |};
     RegenerateProjectEmbeddings.project_metadata := fun project =>
       {| Edge.data := Some (bare_metadata project "acme"); Edge.error := None |};
     RegenerateProjectEmbeddings.project_documents := fun _ =>
       {| Edge.data := Some []; Edge.error := None |} |}.

Definition brain_of (user name : string) : RegenerateEmbeddings.CompanyBrain.t :=
  {| RegenerateEmbeddings.CompanyBrain.id := "brain-" +++ user;
     RegenerateEmbeddings.CompanyBrain.user_id := user;
     RegenerateEmbeddings.CompanyBrain.company_name := Some name;
     RegenerateEmbeddings.CompanyBrain.industry := None;
     RegenerateEmbeddings.CompanyBrain.company_size := None;
     RegenerateEmbeddings.CompanyBrain.target_market := None;
     RegenerateEmbeddings.CompanyBrain.key_products := None;
     RegenerateEmbeddings.CompanyBrain.unique_value_prop := None;
     RegenerateEmbeddings.CompanyBrain.additional_context := None |}.

(** Two tenants with a company-brain row each, and no document. *)
Definition company_sources : RegenerateEmbeddings.Sources :=
  {| RegenerateEmbeddings.company_brain :=
       {| Edge.data := Some [brain_of "alice" "Alpha"; brain_of "bob" "Bolt"];
          Edge.error := None |};
     RegenerateEmbeddings.brain_documents :=
       {| Edge.data := Some []; Edge.error := None |} |}.

Definition cron_request : Edge.Request :=
  {| Edge.method := "POST"; Edge.authorization := Some "Bearer service-role" |}.

(** The provider answers 500 for the first entity of each sweep ([Alpha])
    and works for every other text. *)
Definition world_alpha_fails : Supabase.World :=
  {| Supabase.VITE_GEMINI_API_KEY := Some "key";
     Supabase.GEMINI_API_KEY := Some "key";
     Supabase.fetch := fun text =>
       if String.eqb text "Project: Alpha" || String.eqb text "Company: Alpha"
       then Supabase.FetchResponds false 500 "Internal Server Error"
              (Supabase.JsonRejects Runtime.ThrownOther)
       else Supabase.fetch world_ok text;
     Supabase.db_outcome := fun _ => Supabase.Applied;
     Supabase.similarity := dot |}.

(** A database whose embedding columns hold vectors of two dimensions and
    nothing else. *)
Definition world_two_dimensions : Supabase.World :=
  {| Supabase.VITE_GEMINI_API_KEY := Some "key";
     Supabase.GEMINI_API_KEY := Some "key";
     Supabase.fetch := Supabase.fetch world_ok;
     Supabase.db_outcome := fun op =>
       match op with
       | Supabase.InsertCompany r =>
           if Observe.has_dimension 2 (Supabase.CompanyBrainEmbedding.embedding r)
           then Supabase.Applied
           else Supabase.Reported (Runtime.ThrownError "expected 2 dimensions")
       | Supabase.InsertProject r =>
           if Observe.has_dimension 2 (Supabase.ProjectEmbeddingData.embedding r)
           then Supabase.Applied
           else Supabase.Reported (Runtime.ThrownError "expected 2 dimensions")
       | _ => Supabase.Applied
       end;
     Supabase.similarity := dot |}.

End Samples.

(** ** What a chunker keeps of a text *)

Module Content.
Import Js.

(** The characters of [s] that are not white space, in order. *)
Fixpoint visible (s : string) : string :=
  match s with
  | EmptyString => EmptyString
  | String c s' => if is_whitespace c then visible s' else String c (visible s')
  end.

(** The characters the sentence splitter can consume: white space and the
    terminators [.], [!] and [?]. *)
Definition is_punctuation (c : ascii) : bool := is_whitespace c || is_terminator c.

(** The characters of [s] that are neither white space nor terminators. *)
Fixpoint plain (s : string) : string :=
  match s with
  | EmptyString => EmptyString
  | String c s' => if is_punctuation c then plain s' else String c (plain s')
  end.

(** [chunks.join('')] *)
Definition concat_all (parts : list string) : string :=
  fold_right String.append EmptyString parts.

(** The first [n] characters of [s] (all of them if [s] is shorter) satisfy
    [p]. *)
Fixpoint prefix_all (p : ascii -> bool) (n : nat) (s : string) : bool :=
  match n, s with
  | S k, String c s' => p c && prefix_all p k s'
  | _, _ => true
  end.

End Content.

(** ** The rest of [src/lib/projectEmbeddings.ts] and [src/lib/embeddings.ts] *)

Module LibraryRest.
Import Js Runtime Supabase Embeddings.

(** Modelled from the spec: the SQL function [match_company_projects]
    (migration not among the sources), the ranking of section 4.4 over the
    project table, scoped by [p_company_id]. *)
Definition match_company_projects (w : World) (args : RpcArgs) (st : State)
  : list (Match ProjectEmbeddingData.t) :=
  rank w (fun r => String.eqb (ProjectEmbeddingData.company_id r) (scope args))
       ProjectEmbeddingData.embedding args (project_embeddings st).

Definition searchCompanyProjects (w : World) (companyId query : string)
  (threshold : Q) (limit : Z) : M State (list (Match ProjectEmbeddingData.t)) :=
  try_catch
    (result <- generateEmbedding w query ;;
     if truthy_opt (EmbeddingResponse.error result) then
       emit (console_error [PString "Error generating query embedding:";
                            printed_opt (EmbeddingResponse.error result)]) ;;
       ret []
     else
       response <- rpc w "match_company_projects"
                     {| query_embedding := EmbeddingResponse.embedding result;
                        scope := companyId;
                        match_threshold := threshold;
                        match_count := limit |}
                     match_company_projects ;;
       rows_or_empty response)
    (fun error =>
       emit (console_error [PString "Error searching company projects:";
                            PThrown error]) ;;
       ret []).

(** The fields of the metadata form that the embedding text is built from
    ([Partial<ProjectMetadata>]; the form keeps every one as text or as a
    list of texts). *)
Module ProjectMetadataForm.
Record t : Type := {
  domain : option string;
  industry : option string;
  project_type : option string;
  target_audience : option string;
  tech_stack : option (list string);
  key_goals : option (list string);
  requirements : option string;
  team_size : option string;
  budget_range : option string;
  priority_level : option string;
  additional_context : option string
}.
End ProjectMetadataForm.

(** [if (value) parts.push(`${label}${value}`)] *)
Definition push_field (label : string) (value : option string) (parts : list string)
  : list string :=
  match value with
  | Some v => if truthy v then parts ++ [label +++ v] else parts
  | None => parts
  end.

(** [if (values?.length) parts.push(`${label}${values.join(', ')}`)] *)
Definition push_list (label : string) (values : option (list string))
  (parts : list string) : list string :=
  match values with
  | Some (v :: rest) => parts ++ [label +++ join ", " (v :: rest)]
  | _ => parts
  end.

(** The array [parts] of [prepareProjectMetadataForEmbedding] before it is
    joined. *)
Definition project_parts (metadata : ProjectMetadataForm.t) (projectName : string)
  : list string :=
  let parts := [] in
  let parts := push_field "Project: " (Some projectName) parts in
  let parts := push_field "Domain: " (ProjectMetadataForm.domain metadata) parts in
  let parts := push_field "Industry: " (ProjectMetadataForm.industry metadata) parts in
  let parts := push_field "Type: " (ProjectMetadataForm.project_type metadata) parts in
  let parts := push_field "Target Audience: "
                 (ProjectMetadataForm.target_audience metadata) parts in
  let parts := push_list "Tech Stack: " (ProjectMetadataForm.tech_stack metadata) parts in
  let parts := push_list "Goals: " (ProjectMetadataForm.key_goals metadata) parts in
  let parts := push_field "Requirements: "
                 (ProjectMetadataForm.requirements metadata) parts in
  let parts := push_field "Team Size: " (ProjectMetadataForm.team_size metadata) parts in
  let parts := push_field "Budget: " (ProjectMetadataForm.budget_range metadata) parts in
  let parts := push_field "Priority: "
                 (ProjectMetadataForm.priority_level metadata) parts in
  let parts := push_field "Additional Context: "
                 (ProjectMetadataForm.additional_context metadata) parts in
  parts.

Definition prepareProjectMetadataForEmbedding (metadata : ProjectMetadataForm.t)
  (projectName : string) : string :=
  join (String LF EmptyString) (project_parts metadata projectName).

(** The fields of the company form read by [prepareCompanyInfoForEmbedding]
    ([companyBrain: any]). *)
Module CompanyBrainForm.
Record t : Type := {
  company_name : option string;
  company_tagline : option string;
  company_description : option string;
  industry : option string;
  mission_statement : option string;
  vision_statement : option string;
  core_values : option (list string);
  unique_selling_points : option (list string);
  target_audience : option string;
  key_features : option (list string);
  pricing_model : option string
}.
End CompanyBrainForm.

Definition company_parts (companyBrain : CompanyBrainForm.t) : list string :=
  let parts := [] in
  let parts := push_field "Company: " (CompanyBrainForm.company_name companyBrain) parts in
  let parts := push_field "Tagline: "
                 (CompanyBrainForm.company_tagline companyBrain) parts in
  let parts := push_field "Description: "
                 (CompanyBrainForm.company_description companyBrain) parts in
  let parts := push_field "Industry: " (CompanyBrainForm.industry companyBrain) parts in
  let parts := push_field "Mission: "
                 (CompanyBrainForm.mission_statement companyBrain) parts in
  let parts := push_field "Vision: "
                 (CompanyBrainForm.vision_statement companyBrain) parts in
  let parts := push_list "Values: " (CompanyBrainForm.core_values companyBrain) parts in
  let parts := push_list "USPs: "
                 (CompanyBrainForm.unique_selling_points companyBrain) parts in
  let parts := push_field "Target Audience: "
                 (CompanyBrainForm.target_audience companyBrain) parts in
  let parts := push_list "Features: " (CompanyBrainForm.key_features companyBrain) parts in
  let parts := push_field "Pricing: " (CompanyBrainForm.pricing_model companyBrain) parts in
  parts.

Definition prepareCompanyInfoForEmbedding (companyBrain : CompanyBrainForm.t) : string :=
  join (String LF EmptyString) (company_parts companyBrain).

(** A text field that counts as filled: neither absent nor empty. *)
Definition filled (value : option string) : bool := truthy_opt value.

(** A list field that counts as filled: present and not empty. *)
Definition filled_list (values : option (list string)) : bool :=
  match values with
  | Some (_ :: _) => true
  | _ => false
  end.

(** Which fields of the project form, the name first, are filled. *)
Definition project_filled (metadata : ProjectMetadataForm.t) (projectName : string)
  : list bool :=
  [truthy projectName;
   filled (ProjectMetadataForm.domain metadata);
   filled (ProjectMetadataForm.industry metadata);
   filled (ProjectMetadataForm.project_type metadata);
   filled (ProjectMetadataForm.target_audience metadata);
   filled_list (ProjectMetadataForm.tech_stack metadata);
   filled_list (ProjectMetadataForm.key_goals metadata);
   filled (ProjectMetadataForm.requirements metadata);
   filled (ProjectMetadataForm.team_size metadata);
   filled (ProjectMetadataForm.budget_range metadata);
   filled (ProjectMetadataForm.priority_level metadata);
   filled (ProjectMetadataForm.additional_context metadata)].

Definition company_filled (companyBrain : CompanyBrainForm.t) : list bool :=
  [filled (CompanyBrainForm.company_name companyBrain);
   filled (CompanyBrainForm.company_tagline companyBrain);
   filled (CompanyBrainForm.company_description companyBrain);
   filled (CompanyBrainForm.industry companyBrain);
   filled (CompanyBrainForm.mission_statement companyBrain);
   filled (CompanyBrainForm.vision_statement companyBrain);
   filled_list (CompanyBrainForm.core_values companyBrain);
   filled_list (CompanyBrainForm.unique_selling_points companyBrain);
   filled (CompanyBrainForm.target_audience companyBrain);
   filled_list (CompanyBrainForm.key_features companyBrain);
   filled (CompanyBrainForm.pricing_model companyBrain)].

(** The number of [true] among [bs]. *)
Definition count_true (bs : list bool) : nat := length (filter (fun b => b) bs).

(** The requests sent to the embedding provider so far. *)
Definition is_provider_call (e : Event) : bool :=
  match e with
  | fetch_call _ => true
  | _ => false
  end.

Definition provider_calls (st : State) : list Event :=
  filter is_provider_call (events st).

End LibraryRest.

(** ** More sample worlds *)

Module MoreSamples.
Import Supabase.

(** The ranking functions are not provisioned: every rpc reports an error. *)
Definition world_rpc_down : World :=
  {| VITE_GEMINI_API_KEY := Some "key";
     GEMINI_API_KEY := Some "key";
     fetch := fetch Samples.world_ok;
     db_outcome := fun op =>
       match op with
       | CallRpc _ _ =>
           Reported (Runtime.ThrownError "function match_documents does not exist")
       | _ => Applied
       end;
     similarity := Samples.dot |}.

(** The provider answers 200 with a body whose [embedding] holds no
    [values]. *)
Definition world_no_values : World :=
  {| VITE_GEMINI_API_KEY := Some "key";
     GEMINI_API_KEY := Some "key";
     fetch := fun _ => FetchResponds true 200 "OK" (JsonResolves (Values None));
     db_outcome := fun _ => Applied;
     similarity := Samples.dot |}.


(** A record of tenant [acme], with a vector, stored under the project [p2]
    of tenant [bolt]. *)
Definition stray_record : ProjectEmbeddingData.t :=
  Samples.project_row "p2" "acme" "Project: Stray" (Some [1%Q; 0%Q]).

(** The state after [storeProjectEmbedding] has stored [stray_record]. *)
Definition stray_state : State :=
  snd (ProjectEmbeddings.storeProjectEmbedding Samples.world_ok stray_record
         Samples.crowded_state).

End MoreSamples.

(** ** [generate-project-embedding]: the on-demand function *)

Module GenerateProjectEmbedding.
Import Js Runtime Supabase Edge.

Record RequestBody : Type := {
  type : string;
  project_id : string;
  company_id : string;
  document_id : option string
}.

(** [await req.json()] *)
Inductive JsonBody : Type :=
| BodyRejects (error : JsThrown)
| BodyParsed (body : RequestBody).

(** The answer of a read that ends in [.single()]: the row, or an error
    when the read fails or does not find exactly one row. *)
Inductive Single (A : Type) : Type :=
| Row (a : A)
| NoRow (error : JsThrown).
Arguments Row {A} a.
Arguments NoRow {A} error.

(** [select('project_name, status')] *)
Record ProjectInfo : Type := {
  project_name : string;
  status : string
}.

Module ProjectDocument.
Record t : Type := {
  file_name : string;
  file_type : string;
  description : option string;
  category : option string;
  tags : option (list string);
  storage_url : string
}.
End ProjectDocument.

(** What the handler reads: the body of the request and the source tables,
    by the ids the request names; whether the lookup of the existing
    embedding is answered; and what the database makes of an update. *)
Record Inputs : Type := {
  json : JsonBody;
  projects : string -> Single ProjectInfo;
  project_metadata : string -> Single LibraryRest.ProjectMetadataForm.t;
  project_documents : string -> Single ProjectDocument.t;
  lookup_answered : bool;
  update_outcome : DbOutcome
}.

(** [prepareProjectMetadataForEmbedding(metadata: any, projectName)] of this
    function. *)
Definition prepareProjectMetadataForEmbedding
  (metadata : LibraryRest.ProjectMetadataForm.t) (projectName : string) : string :=
  join_lines
    ["Project: " +++ projectName;
     line "Domain: " (LibraryRest.ProjectMetadataForm.domain metadata);
     line "Industry: " (LibraryRest.ProjectMetadataForm.industry metadata);
     line "Type: " (LibraryRest.ProjectMetadataForm.project_type metadata);
     line "Target Audience: " (LibraryRest.ProjectMetadataForm.target_audience metadata);
     line "Budget: " (LibraryRest.ProjectMetadataForm.budget_range metadata);
     list_line "Tech Stack: " (LibraryRest.ProjectMetadataForm.tech_stack metadata);
     list_line "Key Goals: " (LibraryRest.ProjectMetadataForm.key_goals metadata);
     line "Requirements: " (LibraryRest.ProjectMetadataForm.requirements metadata);
     line "Team Size: " (LibraryRest.ProjectMetadataForm.team_size metadata);
     line "Priority: " (LibraryRest.ProjectMetadataForm.priority_level metadata);
     line "Additional Context: "
          (LibraryRest.ProjectMetadataForm.additional_context metadata)].

Inductive Body : Type :=
| NoBody
| ErrorBody (error : string)
| SuccessBody (message : string) (name : string).

Record Response : Type := {
  response_status : Z;
  body : Body
}.

(** The positions, counted from [i], of the rows that satisfy [p]. *)
Fixpoint positions {A : Type} (p : A -> bool) (rows : list A) (i : nat) : list nat :=
  match rows with
  | [] => []
  | r :: rest => if p r then i :: positions p rest (S i) else positions p rest (S i)
  end.

(** [select('id')...maybeSingle()], whose [error] the handler does not read:
    the row found, by its position in the table, when exactly one row
    matches; [null] when none matches, when several match (the client then
    reports an error and no data) or when the read is not answered. *)
Definition maybeSingle (inp : Inputs) (conds : list ProjectEmbeddingData.Cond)
  : M State (option nat) :=
  fun st =>
    (Normal (if lookup_answered inp then
               match positions (ProjectEmbeddingData.selected conds)
                               (project_embeddings st) O with
               | [i] => Some i
               | _ => None
               end
             else None), st).

Fixpoint update_at {A : Type} (i : nat) (f : A -> A) (rows : list A) : list A :=
  match rows, i with
  | [], _ => []
  | r :: rest, O => f r :: rest
  | r :: rest, S k => r :: update_at k f rest
  end.

(** The columns set by [.update({ content, embedding, metadata })].  An
    [embedding] that is [undefined] is left out of the request, and the row
    keeps the vector it had. *)
Definition updated (content : string) (embedding : option Vector) (metadata : Metadata)
  (r : ProjectEmbeddingData.t) : ProjectEmbeddingData.t :=
  {| ProjectEmbeddingData.project_id := ProjectEmbeddingData.project_id r;
     ProjectEmbeddingData.company_id := ProjectEmbeddingData.company_id r;
     ProjectEmbeddingData.content_type := ProjectEmbeddingData.content_type r;
     ProjectEmbeddingData.content_id := ProjectEmbeddingData.content_id r;
     ProjectEmbeddingData.content := content;
     ProjectEmbeddingData.metadata := Some metadata;
     ProjectEmbeddingData.embedding :=
       match embedding with
       | Some v => Some v
       | None => ProjectEmbeddingData.embedding r
       end |}.

(** [await supabase.from('project_embeddings').update(..).eq('id', id)], the
    row being the one at position [i]; the response is not read. *)
Definition update (inp : Inputs) (i : nat)
  (f : ProjectEmbeddingData.t -> ProjectEmbeddingData.t) : M State unit :=
  fun st =>
    match update_outcome inp with
    | Applied =>
        (Normal tt,
         {| company_brain_embeddings := company_brain_embeddings st;
            project_embeddings := update_at i f (project_embeddings st);
            events := events st |})
    | Reported _ => (Normal tt, st)
    | Rejected error => (Throw error, st)
    end.

(** [if (error) throw error] after a read that ends in [.single()]. *)
Definition single {A : Type} (answer : Single A) : M State A :=
  match answer with
  | Row a => ret a
  | NoRow error => throw error
  end.

(** The branch [type === 'metadata']. *)
Definition metadata_branch (w : World) (inp : Inputs) (request : RequestBody)
  (project : ProjectInfo) : M State Response :=
  metadata <- single (project_metadata inp (project_id request)) ;;
  let content := prepareProjectMetadataForEmbedding metadata (project_name project) in
  embedding <- generateEmbedding w content ;;
  let bag := [("source", JString "project_metadata_form");
              ("project_name", JString (project_name project));
              ("status", JString (status project))] in
  existingEmbedding <- maybeSingle inp
                         [ProjectEmbeddingData.eq_project_id (project_id request);
                          ProjectEmbeddingData.eq_content_type Supabase.project_metadata] ;;
  match existingEmbedding with
  | Some i =>
      update inp i (updated content embedding bag) ;;
      emit (console_log [PString ("Updated metadata embedding for: "
                                  +++ project_name project)])
  | None =>
      write w (InsertProject
                 {| ProjectEmbeddingData.project_id := project_id request;
                    ProjectEmbeddingData.company_id := company_id request;
                    ProjectEmbeddingData.content_type := Supabase.project_metadata;
                    ProjectEmbeddingData.content_id := Some (project_id request);
                    ProjectEmbeddingData.content := content;
                    ProjectEmbeddingData.metadata := Some bag;
                    ProjectEmbeddingData.embedding := embedding |}) ;;
      emit (console_log [PString ("Generated metadata embedding for: "
                                  +++ project_name project)])
  end ;;
  ret {| response_status := 200;
         body := SuccessBody "Metadata embedding generated" (project_name project) |}.

(** The branch [type === 'document' && document_id]. *)
Definition document_branch (w : World) (inp : Inputs) (request : RequestBody)
  (project : ProjectInfo) (document_id : string) : M State Response :=
  doc <- single (project_documents inp document_id) ;;
  let embeddingContent :=
    document_content ["Project: " +++ project_name project]
      (ProjectDocument.file_name doc) (ProjectDocument.file_type doc)
      (ProjectDocument.description doc) (ProjectDocument.category doc)
      (ProjectDocument.tags doc) in
  embedding <- generateEmbedding w embeddingContent ;;
  let bag := [("file_name", JString (ProjectDocument.file_name doc));
              ("file_type", JString (ProjectDocument.file_type doc));
              ("category", json_string (ProjectDocument.category doc));
              ("tags", json_strings (ProjectDocument.tags doc));
              ("storage_url", JString (ProjectDocument.storage_url doc));
              ("project_name", JString (project_name project))] in
  existingEmbedding <- maybeSingle inp
                         [ProjectEmbeddingData.eq_content_id document_id;
                          ProjectEmbeddingData.eq_content_type Supabase.document] ;;
  match existingEmbedding with
  | Some i =>
      update inp i (updated embeddingContent embedding bag) ;;
      emit (console_log [PString ("Updated document embedding: "
                                  +++ ProjectDocument.file_name doc)])
  | None =>
      write w (InsertProject
                 {| ProjectEmbeddingData.project_id := project_id request;
                    ProjectEmbeddingData.company_id := company_id request;
                    ProjectEmbeddingData.content_type := Supabase.document;
                    ProjectEmbeddingData.content_id := Some document_id;
                    ProjectEmbeddingData.content := embeddingContent;
                    ProjectEmbeddingData.metadata := Some bag;
                    ProjectEmbeddingData.embedding := embedding |}) ;;
      emit (console_log [PString ("Generated document embedding: "
                                  +++ ProjectDocument.file_name doc)])
  end ;;
  ret {| response_status := 200;
         body := SuccessBody "Document embedding generated"
                   (ProjectDocument.file_name doc) |}.

(** [await req.json()] *)
Definition parse (inp : Inputs) : M State RequestBody :=
  match json inp with
  | BodyRejects error => throw error
  | BodyParsed request => ret request
  end.

(** The handler passed to [Deno.serve]. *)
Definition serve (w : World) (inp : Inputs) (req : Request) : M State Response :=
  if is_preflight req then ret {| response_status := 204; body := NoBody |}
  else
    try_catch
      (if negb (truthy_opt (authorization req)) then
         ret {| response_status := 401; body := ErrorBody "Unauthorized" |}
       else
         (if negb (truthy_opt (GEMINI_API_KEY w))
          then throw (ThrownError "GEMINI_API_KEY not configured")
          else ret tt) ;;
         request <- parse inp ;;
         project <- single (projects inp (project_id request)) ;;
         if String.eqb (type request) "metadata" then
           metadata_branch w inp request project
         else
           match document_id request with
           | Some id =>
               if String.eqb (type request) "document" && truthy id
               then document_branch w inp request project id
               else throw (ThrownError "Invalid request parameters")
           | None => throw (ThrownError "Invalid request parameters")
           end)
      (fun error =>
         emit (console_error [PString "Error generating embedding:"; PThrown error]) ;;
         ret {| response_status := 500; body := ErrorBody (message_of error) |}).

(** The records of the project table that hold the metadata embedding of the
    project [p]. *)
Definition metadata_records (p : string) (st : State) : list ProjectEmbeddingData.t :=
  filter (ProjectEmbeddingData.selected
            [ProjectEmbeddingData.eq_project_id p;
             ProjectEmbeddingData.eq_content_type Supabase.project_metadata])
         (project_embeddings st).

End GenerateProjectEmbedding.

(** ** Sample requests to the on-demand function *)

Module OnDemandSamples.
Import Supabase Edge GenerateProjectEmbedding.

Definition blank_form : LibraryRest.ProjectMetadataForm.t :=
  {| LibraryRest.ProjectMetadataForm.domain := Some "Health";
     LibraryRest.ProjectMetadataForm.industry := None;
     LibraryRest.ProjectMetadataForm.project_type := None;
     LibraryRest.ProjectMetadataForm.target_audience := None;
     LibraryRest.ProjectMetadataForm.tech_stack := Some ["React"; "Node"];
     LibraryRest.ProjectMetadataForm.key_goals := None;
     LibraryRest.ProjectMetadataForm.requirements := None;
     LibraryRest.ProjectMetadataForm.team_size := None;
     LibraryRest.ProjectMetadataForm.budget_range := None;
     LibraryRest.ProjectMetadataForm.priority_level := None;
     LibraryRest.ProjectMetadataForm.additional_context := None |}.

(** The same form with two goals. *)
Definition goals_form : LibraryRest.ProjectMetadataForm.t :=
  {| LibraryRest.ProjectMetadataForm.domain := Some "Health";
     LibraryRest.ProjectMetadataForm.industry := None;
     LibraryRest.ProjectMetadataForm.project_type := None;
     LibraryRest.ProjectMetadataForm.target_audience := None;
     LibraryRest.ProjectMetadataForm.tech_stack := Some ["React"; "Node"];
     LibraryRest.ProjectMetadataForm.key_goals := Some ["Launch"; "Grow"];
     LibraryRest.ProjectMetadataForm.requirements := None;
     LibraryRest.ProjectMetadataForm.team_size := None;
     LibraryRest.ProjectMetadataForm.budget_range := Some "10k";
     LibraryRest.ProjectMetadataForm.priority_level := None;
     LibraryRest.ProjectMetadataForm.additional_context := None |}.

(** A metadata request for project [p2], whose tables answer every read. *)
Definition metadata_request : Inputs :=
  {| json := BodyParsed {| type := "metadata"; project_id := "p2";
                           company_id := "bolt"; document_id := None |};
     projects := fun _ => Row {| project_name := "Beta"; status := "active" |};
     project_metadata := fun _ => Row blank_form;
     project_documents := fun _ => NoRow Runtime.ThrownOther;
     lookup_answered := true;
     update_outcome := Applied |}.

End OnDemandSamples.

(** ** Measuring a text built from lines *)

Module Lines.
Import Js.

(** What a line adds to the length of [lines.filter(Boolean).join('\n')]:
    itself and one separator, or nothing when it is empty. *)
Definition weight (l : string) : Z := if truthy l then len l + 1 else 0.

Definition total_weight (lines : list string) : Z :=
  fold_right (fun l acc => weight l + acc) 0 lines.

End Lines.

(** ** Store, then delete the project *)

Module StoreThenDelete.
Import Js Runtime Supabase Embeddings ProjectEmbeddings.

(** A record is stored and the project it belongs to is deleted afterwards,
    as on the deletion of a project. *)
Definition store_then_delete (w1 w2 : World) (data : ProjectEmbeddingData.t)
  : M State (StoreResult * StoreResult) :=
  stored <- storeProjectEmbedding w1 data ;;
  deleted <- deleteProjectEmbeddings w2 (ProjectEmbeddingData.project_id data) ;;
  ret (stored, deleted).

(** The records of project [p], and the records of the other projects. *)
Definition of_project (p : string) (st : State) : list ProjectEmbeddingData.t :=
  filter (fun r => String.eqb (ProjectEmbeddingData.project_id r) p)
         (project_embeddings st).

Definition of_other_projects (p : string) (st : State) : list ProjectEmbeddingData.t :=
  filter (fun r => negb (String.eqb (ProjectEmbeddingData.project_id r) p))
         (project_embeddings st).

End StoreThenDelete.

(** ** What the project job is expected to count *)

Module SweepCounts.
Import Js Runtime Supabase Edge RegenerateProjectEmbeddings.

(** The metadata row of a project as the job reads it, if the read gives
    one. *)
Definition readable_metadata (src : Sources) (p : Project.t)
  : option ProjectMetadata.t :=
  match error (project_metadata src (Project.id p)),
        data (project_metadata src (Project.id p)) with
  | None, Some metadata => Some metadata
  | _, _ => None
  end.

(** The documents of a project as the job reads them; none when the read
    fails. *)
Definition readable_documents (src : Sources) (p : Project.t)
  : list ProjectDocument.t :=
  match error (project_documents src (Project.id p)),
        data (project_documents src (Project.id p)) with
  | None, Some documents => documents
  | _, _ => []
  end.

(** The counts of a sweep over [ps] that starts from [counts]. *)
Fixpoint expected_counts (src : Sources) (ps : list Project.t) (counts : Counts)
  : Counts :=
  match ps with
  | [] => counts
  | p :: rest =>
      expected_counts src rest
        (fst counts + (match readable_metadata src p with Some _ => 1 | None => 0 end),
         snd counts + Z.of_nat (length (readable_documents src p)))
  end.

(** The test that picks the metadata embeddings of project [q]. *)
Definition is_metadata_of (q : string) (r : ProjectEmbeddingData.t) : bool :=
  ProjectEmbeddingData.selected
    [ProjectEmbeddingData.eq_project_id q;
     ProjectEmbeddingData.eq_content_type Supabase.project_metadata] r.

End SweepCounts.


(** ** A database that reports an error for every write *)

Module ReportingSamples.
Import Supabase.

(** The provider works; the database answers every write with an error in
    the response (as a missing permission does). *)
Definition world_db_reports : World :=
  {| VITE_GEMINI_API_KEY := Some "key";
     GEMINI_API_KEY := Some "key";
     fetch := fetch Samples.world_ok;
     db_outcome := fun _ => Reported (Runtime.ThrownError "permission denied");
     similarity := Samples.dot |}.

End ReportingSamples.


(** ** [src/components/ProjectBrainPage.tsx]: saving the metadata form *)

Module ProjectBrainPage.
Import Js Runtime Supabase Embeddings ProjectEmbeddings LibraryRest.

(** The argument of [toast]. *)
Record Toast : Type := {
  title : string;
  description : string;
  destructive : bool
}.

(** The component state that [handleSaveMetadata] writes, the toasts shown
    so far, and the backend the library functions talk to. *)
Record Page : Type := {
  isSaving : bool;
  isEditing : bool;
  isLoading : bool;
  toasts : list Toast;
  backend : State
}.

(** [useAuth().user] and the [project] of the component state, as far as
    the handler reads them. *)
Record User : Type := { id : string }.
Record Project : Type := { project_name : string }.

(** What the handler reads: the property [projectId], the signed-in user,
    the loaded project, the form, and what the database makes of the upsert
    into [project_metadata] (a table outside the two embedding tables). *)
Record Props : Type := {
  projectId : string;
  user : option User;
  project : option Project;
  metadata : ProjectMetadataForm.t;
  upsert_outcome : DbOutcome
}.

Definition with_backend (pg : Page) (st : State) : Page :=
  {| isSaving := isSaving pg; isEditing := isEditing pg; isLoading := isLoading pg;
     toasts := toasts pg; backend := st |}.

(** A call into the library, run on the backend of the page. *)
Definition lift {A : Type} (m : M State A) : M Page A :=
  fun pg =>
    match m (backend pg) with
    | (c, st) => (c, with_backend pg st)
    end.

Definition setIsSaving (b : bool) : M Page unit :=
  fun pg =>
    (Normal tt,
     {| isSaving := b; isEditing := isEditing pg; isLoading := isLoading pg;
        toasts := toasts pg; backend := backend pg |}).

Definition setIsEditing (b : bool) : M Page unit :=
  fun pg =>
    (Normal tt,
     {| isSaving := isSaving pg; isEditing := b; isLoading := isLoading pg;
        toasts := toasts pg; backend := backend pg |}).

Definition setIsLoading (b : bool) : M Page unit :=
  fun pg =>
    (Normal tt,
     {| isSaving := isSaving pg; isEditing := isEditing pg; isLoading := b;
        toasts := toasts pg; backend := backend pg |}).

Definition toast (t : Toast) : M Page unit :=
  fun pg =>
    (Normal tt,
     {| isSaving := isSaving pg; isEditing := isEditing pg; isLoading := isLoading pg;
        toasts := toasts pg ++ [t]; backend := backend pg |}).

(** [try { body } finally { cleanup }] *)
Definition try_finally {S A : Type} (body : M S A) (cleanup : M S unit) : M S A :=
  fun st =>
    match body st with
    | (c, st1) =>
        match cleanup st1 with
        | (Normal _, st2) => (c, st2)
        | (Throw e, st2) => (Throw e, st2)
        end
    end.

(** [await supabase.from('project_metadata').upsert({..})]: the [error] of
    the response. *)
Definition upsert_metadata (props : Props) : M Page (option JsThrown) :=
  fun pg =>
    match upsert_outcome props with
    | Applied => (Normal None, pg)
    | Reported e => (Normal (Some e), pg)
    | Rejected e => (Throw e, pg)
    end.

(** [loadProjectData()] called without [await]: the call runs up to its
    first [await], which for a signed-in user is [setIsLoading(true)]; the
    rest of it runs after the handler has finished. *)
Definition loadProjectData_started (props : Props) : M Page unit :=
  match user props with
  | Some _ => setIsLoading true
  | None => ret tt
  end.

Definition saved_toast : Toast :=
  {| title := "Success";
     description := "Project metadata saved successfully";
     destructive := false |}.

Definition save_failed_toast : Toast :=
  {| title := "Error";
     description := "Failed to save project metadata";
     destructive := true |}.

(** The record handed to [storeProjectEmbedding]. *)
Definition metadata_embedding (props : Props) (u : User) (p : Project)
  : ProjectEmbeddingData.t :=
  {| ProjectEmbeddingData.project_id := projectId props;
     ProjectEmbeddingData.company_id := id u;
     ProjectEmbeddingData.content_type := Supabase.project_metadata;
     ProjectEmbeddingData.content_id := Some (projectId props);
     ProjectEmbeddingData.content :=
       prepareProjectMetadataForEmbedding (metadata props) (project_name p);
     ProjectEmbeddingData.metadata := Some [("source", JString "project_metadata_form")];
     ProjectEmbeddingData.embedding := None |}.

Definition handleSaveMetadata (w : World) (props : Props) : M Page unit :=
  match user props, project props with
  | Some u, Some p =>
      try_finally
        (try_catch
           (setIsSaving true ;;
            error <- upsert_metadata props ;;
            lift (throw_if_error error) ;;
            try_catch
              (lift (deleteProjectEmbeddingsByType w (projectId props)
                       Supabase.project_metadata) ;;
               lift (storeProjectEmbedding w (metadata_embedding props u p)) ;;
               ret tt)
              (fun embeddingError =>
                 lift (emit (console_warn [PString "Failed to generate embeddings:";
                                           PThrown embeddingError]))) ;;
            toast saved_toast ;;
            setIsEditing false ;;
            loadProjectData_started props)
           (fun error =>
              lift (emit (console_error [PString "Error saving metadata:";
                                         PThrown error])) ;;
              toast save_failed_toast))
        (setIsSaving false)
  | _, _ => ret tt
  end.

(** The warnings of the inner [catch] of the handler. *)
Definition is_embedding_warning (e : Event) : bool :=
  match e with
  | console_warn (PString s :: _) => String.eqb s "Failed to generate embeddings:"
  | _ => false
  end.

(** The metadata embeddings of a project. *)
Definition metadata_embeddings (p : string) (st : State)
  : list ProjectEmbeddingData.t :=
  filter (ProjectEmbeddingData.selected
            [ProjectEmbeddingData.eq_project_id p;
             ProjectEmbeddingData.eq_content_type Supabase.project_metadata])
         (project_embeddings st).

(** The embeddings that are not metadata embeddings of the project. *)
Definition other_embeddings (p : string) (st : State)
  : list ProjectEmbeddingData.t :=
  filter (fun r => negb (ProjectEmbeddingData.selected
                           [ProjectEmbeddingData.eq_project_id p;
                            ProjectEmbeddingData.eq_content_type
                              Supabase.project_metadata] r))
         (project_embeddings st).

(** Events among which there is no warning of the inner [catch]. *)
Definition quiet (evs : list Event) : Prop :=
  Forall (fun e => is_embedding_warning e = false) evs.

(** The state that the two library calls of the handler leave. *)
Definition after_embedding (w : World) (props : Props) (u : User) (p : Project)
  (st : State) : State :=
  snd (storeProjectEmbedding w (metadata_embedding props u p)
         (snd (deleteProjectEmbeddingsByType w (projectId props)
                 Supabase.project_metadata st))).

End ProjectBrainPage.

(** ** Sample pages *)

Module PageSamples.
Import Supabase LibraryRest ProjectBrainPage.

Definition page_of (st : State) : Page :=
  {| isSaving := false; isEditing := true; isLoading := false;
     toasts := []; backend := st |}.

Definition props_of (outcome : DbOutcome) : Props :=
  {| projectId := "p1";
     user := Some {| id := "acme" |};
     project := Some {| project_name := "Alpha" |};
     metadata := OnDemandSamples.blank_form;
     upsert_outcome := outcome |}.

End PageSamples.


(** ** The checks at the door of the functions *)

Module Refusals.
Import Js Runtime Supabase Edge Observe LibraryRest.

(** The status with which the three functions answer a request that does
    not get past their checks. *)
Definition refusal (req : Request) : Z :=
  if is_preflight req then 204
  else if truthy_opt (authorization req) then 500
  else 401.

(** What a refusal leaves behind. *)
Definition untouched (st st' : State) : Prop :=
  same_tables st st' /\ provider_calls st' = provider_calls st.

End Refusals.

(** ** [match-documents]: the search function for external clients *)

Module MatchDocuments.
Import Js Runtime Supabase.

Local Set Warnings "-register-all".

(** A value of the parsed request body, which is untyped JSON. *)
Inductive JsValue : Type :=
| JsUndefined                  (* the field is absent *)
| JsNull
| JsBool (b : bool)
| JsNumber (n : Q)             (* a finite number, as the rational it denotes *)
| JsInfinity (negative : bool) (* a literal beyond the range of a double *)
| JsString (s : string)
| JsArray (items : list JsValue)
| JsObject (fields : list (string * JsValue)).

(** The fields that the handler takes from the body
    ([const { table, filter, match_count, query_embedding } = body]). *)
Record MatchDocumentsRequest : Type := {
  table : JsValue;
  filter : JsValue;
  match_count : JsValue;
  query_embedding : JsValue
}.

(** [await req.json()] followed by the destructuring: [BodyRejects] is a
    body that cannot be parsed, or the body [null], whose destructuring
    throws. *)
Inductive JsonBody : Type :=
| BodyRejects (error : JsThrown)
| BodyParsed (body : MatchDocumentsRequest).

Record Env : Type := {
  SUPABASE_URL : option string;
  SUPABASE_SERVICE_ROLE_KEY : option string
}.

(** The result of [ToNumber]. *)
Inductive Numeric : Type :=
| Finite (n : Q)
| Infinite (negative : bool)
| NaN.

(** The conversions of the language whose result depends on the text of a
    string or of a number, or on the properties of an object: [to_string]
    is [ToString] of a number, an array or an object, [to_numeric] is
    [ToNumber] of a string, an array or an object.  Both can throw: an
    object of the body can have properties [toString] and [valueOf] that are
    not functions. *)
Record Conversions : Type := {
  to_string : JsValue -> JsThrown + string;
  to_numeric : JsValue -> JsThrown + Numeric
}.

(** The value inside a template literal. *)
Definition text_of (c : Conversions) (v : JsValue) : JsThrown + string :=
  match v with
  | JsUndefined => inr "undefined"
  | JsNull => inr "null"
  | JsBool true => inr "true"
  | JsBool false => inr "false"
  | JsString s => inr s
  | JsInfinity false => inr "Infinity"
  | JsInfinity true => inr "-Infinity"
  | JsNumber _ | JsArray _ | JsObject _ => to_string c v
  end.

(** [ToNumber] *)
Definition number_of (c : Conversions) (v : JsValue) : JsThrown + Numeric :=
  match v with
  | JsUndefined => inr NaN
  | JsNull => inr (Finite 0)
  | JsBool true => inr (Finite 1)
  | JsBool false => inr (Finite 0)
  | JsNumber n => inr (Finite n)
  | JsInfinity negative => inr (Infinite negative)
  | JsString _ | JsArray _ | JsObject _ => to_numeric c v
  end.

(** [x < 1] for a number [x]; a comparison with [NaN] is false. *)
Definition below_one (x : Numeric) : bool :=
  match x with
  | Finite n => negb (Qle_bool 1 n)
  | Infinite negative => negative
  | NaN => false
  end.

(** The value as a condition: [!v] is its negation. *)
Definition truthy_value (v : JsValue) : bool :=
  match v with
  | JsUndefined | JsNull => false
  | JsBool b => b
  | JsNumber n => negb (Qeq_bool n 0)
  | JsInfinity _ => true
  | JsString s => truthy s
  | JsArray _ | JsObject _ => true
  end.

(** The columns that the function passes on (interface [MatchResult]). *)
Record MatchResult : Type := {
  id : string;
  project_id : option string;
  company_id : string;
  content_type : string;
  content_id : option string;
  content : string;
  metadata : option Metadata;
  similarity : Q
}.

(** A row returned by the database function: the columns passed on and the
    ones dropped. *)
Record Row : Type := {
  passed : MatchResult;
  dropped : Metadata
}.

(** The arguments of [supabase.rpc("match_documents", ..)]. *)
Record RpcArgs : Type := {
  p_table : JsValue;
  p_query_embedding : JsValue;
  p_match_count : JsValue;
  p_filter : JsValue
}.

(** The [error] of a database response. *)
Record PostgrestError : Type := { message : string }.

Inductive RpcAnswer : Type :=
| RpcRejects (error : JsThrown)
| RpcResponds (data : option (list Row)) (error : option PostgrestError).

(** What the function prints and sends, most recent last:
    [received] is the log line "Request received" with the texts of [table]
    and [match_count] and with [filter], [database_error] the line
    "Database error:", [found] the line "Found n matches" and [unexpected]
    the line "Unexpected error:". *)
Inductive Event : Type :=
| received (table match_count : string) (filter : JsValue)
| rpc_sent (args : RpcArgs)
| database_error (error : PostgrestError)
| found (n : nat)
| unexpected (error : JsThrown).

Definition Trace : Type := list Event.

Definition emit (e : Event) : M Trace unit :=
  fun tr => (Normal tt, tr ++ [e]).

(** A conversion as a step of the handler. *)
Definition converted {A : Type} (x : JsThrown + A) : M Trace A :=
  match x with
  | inl error => throw error
  | inr a => ret a
  end.

(** The bodies of the responses.  (Of the body built in the outer [catch]
    the field [type], the name of the constructor of the error, is left
    out.) *)
Inductive Body : Type :=
| OkText
| ErrorBody (error : string)
| MissingFunction (error details hint : string)
| DatabaseError (error : string)
| Unexpected (error : string)
| Matches (matches : list MatchResult).

Record Response : Type := {
  status : Z;
  body : Body
}.

(** [haystack.includes(needle)] *)
Fixpoint includes (needle haystack : string) : bool :=
  if String.prefix needle haystack then true
  else
    match haystack with
    | EmptyString => false
    | String _ rest => includes needle rest
    end.

Definition validTables : list string :=
  ["project_embeddings"; "company_brain_embeddings"].

(** [validTables.includes(table)]: only a string is equal to a string. *)
Definition is_valid_table (table : JsValue) : bool :=
  match table with
  | JsString name => existsb (String.eqb name) validTables
  | _ => false
  end.

Definition bad_request (error : string) : Response :=
  {| status := 400; body := ErrorBody error |}.

(** [supabase.rpc("match_documents", args)] *)
Definition rpc (db : RpcArgs -> RpcAnswer) (args : RpcArgs)
  : M Trace (option (list Row) * option PostgrestError) :=
  emit (rpc_sent args) ;;
  match db args with
  | RpcRejects error => throw error
  | RpcResponds data error => ret (data, error)
  end.

(** [error instanceof Error ? error.message : "Internal server error"] *)
Definition message_or_internal (error : JsThrown) : string :=
  match error with
  | ThrownError message => message
  | ThrownOther => "Internal server error"
  end.

(** The part of the handler after the validation. *)
Definition search (db : RpcArgs -> RpcAnswer) (args : RpcArgs) : M Trace Response :=
  answer <- rpc db args ;;
  match snd answer with
  | Some error =>
      emit (database_error error) ;;
      if includes "function" (message error)
         && includes "does not exist" (message error)
      then
        ret {| status := 500;
               body := MissingFunction
                         "Database function 'match_documents' not found. Please run the setup migration first."
                         (message error)
                         "See VECTOR_STORE_GUIDE.md for setup instructions" |}
      else ret {| status := 500; body := DatabaseError (message error) |}
  | None =>
      let matches :=
        map passed (match fst answer with Some rows => rows | None => [] end) in
      emit (found (length matches)) ;;
      ret {| status := 200; body := Matches matches |}
  end.

(** [!query_embedding || !Array.isArray(query_embedding) ||
    query_embedding.length === 0] *)
Definition no_query (query_embedding : JsValue) : bool :=
  match query_embedding with
  | JsArray (_ :: _) => false
  | _ => true
  end.

(** [!match_count || match_count < 1]; the comparison is evaluated only for
    a truthy value and converts it to a number. *)
Definition bad_count (c : Conversions) (match_count : JsValue) : M Trace bool :=
  if negb (truthy_value match_count) then ret true
  else
    number <- converted (number_of c match_count) ;;
    ret (below_one number).

(** The handler passed to [serve]. *)
Definition serve (c : Conversions) (env : Env) (json : JsonBody)
  (db : RpcArgs -> RpcAnswer) (method : string) : M Trace Response :=
  if String.eqb method "OPTIONS" then ret {| status := 200; body := OkText |}
  else
    try_catch
      ((if negb (truthy_opt (SUPABASE_URL env))
           || negb (truthy_opt (SUPABASE_SERVICE_ROLE_KEY env))
        then throw (ThrownError
                      "Missing SUPABASE_URL or SUPABASE_SERVICE_ROLE_KEY environment variables")
        else ret tt) ;;
       request <- match json with
                  | BodyRejects error => throw error
                  | BodyParsed request => ret request
                  end ;;
       table_text <- converted (text_of c (table request)) ;;
       count_text <- converted (text_of c (match_count request)) ;;
       emit (received table_text count_text (filter request)) ;;
       if negb (truthy_value (table request))
       then ret (bad_request "Missing required field: table")
       else if no_query (query_embedding request)
       then ret (bad_request "Missing or invalid query_embedding array")
       else
         rejected <- bad_count c (match_count request) ;;
         if rejected
         then ret (bad_request "match_count must be a positive integer")
         else if negb (is_valid_table (table request))
         then ret (bad_request
                     ("Invalid table name. Must be one of: "
                      +++ join ", " validTables))
         else
           search db
             {| p_table := table request;
                p_query_embedding := query_embedding request;
                p_match_count := match_count request;
                p_filter := if truthy_value (filter request)
                            then filter request
                            else JsObject [] |})
      (fun error =>
         emit (unexpected error) ;;
         ret {| status := 500; body := Unexpected (message_or_internal error) |}).

(** The database calls in a trace. *)
Definition sent (tr : Trace) : list RpcArgs :=
  flat_map (fun e => match e with rpc_sent args => [args] | _ => [] end) tr.

(** What the validation establishes of a call: one of the two table names,
    a non-empty array as query, and a count that is truthy and, if it is
    a number, at least 1. *)
Definition checked_args (args : RpcArgs) : Prop :=
  (exists name, p_table args = JsString name /\ In name validTables) /\
  (exists x xs, p_query_embedding args = JsArray (x :: xs)) /\
  truthy_value (p_match_count args) = true /\
  (forall n, p_match_count args = JsNumber n -> (1 <= n)%Q).

(** A run that answers, and calls the database at most once and only
    with checked arguments. *)
Definition answered (tr : Trace) (run : Completion Response * Trace) : Prop :=
  exists resp evs,
    run = (Normal resp, tr ++ evs) /\
    (status resp = 200 \/ status resp = 400 \/ status resp = 500) /\
    (sent evs = [] \/ exists args, sent evs = [args] /\ checked_args args) /\
    (status resp = 400 -> sent evs = []).

(** A request whose [match_count] is [true]. *)
Definition count_true_request (name : string) (x : JsValue) (xs : list JsValue)
  : MatchDocumentsRequest :=
  {| table := JsString name;
     filter := JsUndefined;
     match_count := JsBool true;
     query_embedding := JsArray (x :: xs) |}.

End MatchDocuments.


(** ** Parts of the state that an operation leaves alone *)

Module Frame.
Import Runtime Supabase.

(** The operation [m] never changes the part [f] of the state, however it
    ends. *)
Definition preserves {X A : Type} (f : State -> X) (m : M State A) : Prop :=
  forall st, f (snd (m st)) = f st.

End Frame.

(* ================================================================== *)
(** * Part II: properties *)
(* ================================================================== *)

Module ChunkerTests.
Import Js Chunker Samples.

Example split_para2 : split_LFLF para2 = ["ab"; "cd"; "ef"].
Proof. reflexivity. Qed.

Example chunk_para2_small : chunkText para2 3 = ["ab"; "cd"; "ef"].
Proof. reflexivity. Qed.

Example chunk_para2_mid : chunkText para2 6 = ["ab" +++ LFLF +++ "cd"; "ef"].
Proof. reflexivity. Qed.

Example split_sent : split_sentences "a.b. c?!  d. " = ["a.b"; "c"; "d"; ""].
Proof. reflexivity. Qed.

Example chunk_sent : chunkText_sentences three_sentences 5 = ["ab. c."; "d."].
Proof. reflexivity. Qed.

End ChunkerTests.

(** ** Facts about strings *)

Module JsFacts.
Import Js.

Lemma length_append (a b : string) :
  String.length (a +++ b) = (String.length a + String.length b)%nat.
Proof. induction a as [|c a IH]; simpl; [reflexivity | now rewrite IH]. Qed.

Lemma len_append (a b : string) : len (a +++ b) = len a + len b.
Proof. unfold len. rewrite length_append. lia. Qed.

Lemma len_nonneg (s : string) : 0 <= len s.
Proof. unfold len. lia. Qed.

Lemma len_LFLF : len LFLF = 2.
Proof. reflexivity. Qed.

Lemma append_assoc (a b c : string) : (a +++ b) +++ c = a +++ b +++ c.
Proof. induction a as [|x a IH]; simpl; [reflexivity | now rewrite IH]. Qed.

Lemma append_empty_r (a : string) : a +++ EmptyString = a.
Proof. induction a as [|x a IH]; simpl; [reflexivity | now rewrite IH]. Qed.

Lemma append_nonempty_l (a b : string) :
  a <> EmptyString -> a +++ b <> EmptyString.
Proof. destruct a; simpl; congruence. Qed.

Lemma append_nonempty_r (a b : string) :
  b <> EmptyString -> a +++ b <> EmptyString.
Proof. destruct a; simpl; congruence. Qed.

Lemma truthy_true_iff (s : string) : truthy s = true <-> s <> EmptyString.
Proof. destruct s; simpl; split; congruence. Qed.

Lemma truthy_false_iff (s : string) : truthy s = false <-> s = EmptyString.
Proof. destruct s; simpl; split; congruence. Qed.

Lemma length_trimStart_le (s : string) :
  (String.length (trimStart s) <= String.length s)%nat.
Proof.
  induction s as [|c s IH]; simpl; [lia|].
  destruct (is_whitespace c); simpl; lia.
Qed.

Lemma length_trimEnd_le (s : string) :
  (String.length (trimEnd s) <= String.length s)%nat.
Proof.
  induction s as [|c s IH]; simpl; [lia|].
  destruct (trimEnd s) as [|d t].
  - destruct (is_whitespace c); simpl; lia.
  - simpl in *. lia.
Qed.

Lemma len_trim_le (s : string) : len (trim s) <= len s.
Proof.
  unfold len, trim.
  pose proof (length_trimStart_le (trimEnd s)).
  pose proof (length_trimEnd_le s). lia.
Qed.

(** Trailing white space does not survive [trimEnd]. *)
Lemma trimEnd_append_whitespace (s : string) (c : ascii) :
  is_whitespace c = true ->
  trimEnd (s +++ String c EmptyString) = trimEnd s.
Proof.
  intros Hc. induction s as [|x s IH]; simpl.
  - now rewrite Hc.
  - now rewrite IH.
Qed.

Lemma trimEnd_append_LFLF (s : string) : trimEnd (s +++ LFLF) = trimEnd s.
Proof.
  change LFLF with (String LF EmptyString +++ String LF EmptyString).
  rewrite <- append_assoc.
  rewrite trimEnd_append_whitespace by reflexivity.
  now rewrite trimEnd_append_whitespace by reflexivity.
Qed.

Lemma trim_append_LFLF (s : string) : trim (s +++ LFLF) = trim s.
Proof. unfold trim. now rewrite trimEnd_append_LFLF. Qed.

(** In front of a suffix that keeps something, [trimEnd] keeps everything. *)
Lemma trimEnd_append_kept (a b : string) :
  trimEnd b <> EmptyString -> trimEnd (a +++ b) = a +++ trimEnd b.
Proof.
  intros Hb. induction a as [|x a IH]; simpl; [reflexivity|].
  rewrite IH. destruct (a +++ trimEnd b) eqn:E; [|reflexivity].
  destruct a; simpl in E; congruence.
Qed.

Lemma trimStart_fixed_or_shorter (s : string) :
  trimStart s = s \/ (String.length (trimStart s) < String.length s)%nat.
Proof.
  destruct s as [|c s]; simpl; [now left|].
  destruct (is_whitespace c); [right | now left].
  pose proof (length_trimStart_le s). lia.
Qed.

Lemma trimEnd_fixed_or_shorter (s : string) :
  trimEnd s = s \/ (String.length (trimEnd s) < String.length s)%nat.
Proof.
  induction s as [|c s IH]; simpl; [now left|].
  destruct IH as [IH | IH].
  - rewrite IH. destruct s as [|d s].
    + destruct (is_whitespace c); [right; simpl; lia | now left].
    + now left.
  - right. destruct (trimEnd s) as [|d t].
    + destruct (is_whitespace c); simpl in *; lia.
    + simpl in *. lia.
Qed.

(** A string that [trim] leaves alone is left alone by both halves. *)
Lemma trim_fixed (s : string) :
  trim s = s -> trimStart s = s /\ trimEnd s = s.
Proof.
  unfold trim. intros H.
  destruct (trimEnd_fixed_or_shorter s) as [E | E].
  - rewrite E in H. now split.
  - pose proof (length_trimStart_le (trimEnd s)) as L.
    rewrite H in L. lia.
Qed.

Lemma trimStart_append_kept (a b : string) :
  a <> EmptyString -> trimStart a = a -> trimStart (a +++ b) = a +++ b.
Proof.
  intros Hne Ha. destruct a as [|c a]; [congruence|].
  simpl in *. destruct (is_whitespace c) eqn:E; [|reflexivity].
  pose proof (length_trimStart_le a) as L. rewrite Ha in L. simpl in L. lia.
Qed.

Lemma join_cons (sep p : string) (rest : list string) :
  rest <> [] -> join sep (p :: rest) = p +++ sep +++ join sep rest.
Proof. destruct rest; [congruence | reflexivity]. Qed.

Lemma join_app (sep : string) (xs ys : list string) :
  xs <> [] -> ys <> [] ->
  join sep (xs ++ ys) = join sep xs +++ sep +++ join sep ys.
Proof.
  intros Hx Hy. induction xs as [|x xs IH]; [congruence|].
  destruct xs as [|x' xs].
  - simpl app. now rewrite join_cons.
  - change ((x :: x' :: xs) ++ ys) with (x :: ((x' :: xs) ++ ys)).
    rewrite join_cons by (simpl; congruence).
    rewrite IH by congruence.
    rewrite (join_cons sep x (x' :: xs)) by congruence.
    now rewrite !append_assoc.
Qed.

Lemma cons_head_nonempty (c : ascii) (l : list string) : cons_head c l <> [].
Proof. destruct l; simpl; congruence. Qed.

Lemma split_LFLF_nonempty (s : string) : split_LFLF s <> [].
Proof.
  destruct s as [|c1 [|c2 s2]]; simpl; try congruence.
  destruct (Ascii.eqb c1 LF && Ascii.eqb c2 LF);
    [congruence | apply cons_head_nonempty].
Qed.

Lemma join_cons_head (sep : string) (c : ascii) (l : list string) :
  l <> [] -> join sep (cons_head c l) = String c (join sep l).
Proof.
  destruct l as [|p [|q l]]; [congruence | reflexivity | reflexivity].
Qed.

Lemma split_LFLF_step (c1 c2 : ascii) (s2 : string) :
  split_LFLF (String c1 (String c2 s2)) =
  if Ascii.eqb c1 LF && Ascii.eqb c2 LF
  then EmptyString :: split_LFLF s2
  else cons_head c1 (split_LFLF (String c2 s2)).
Proof. reflexivity. Qed.

(** Splitting at the blank lines and joining again is the identity. *)
Lemma join_split_LFLF (s : string) : join LFLF (split_LFLF s) = s.
Proof.
  assert (H : forall n s, (String.length s <= n)%nat ->
                          join LFLF (split_LFLF s) = s).
  { clear s. induction n as [|n IH]; intros s Hs.
    - destruct s; [reflexivity | simpl in Hs; lia].
    - destruct s as [|c1 [|c2 s2]]; [reflexivity | reflexivity |].
      simpl in Hs. rewrite split_LFLF_step.
      destruct (Ascii.eqb c1 LF && Ascii.eqb c2 LF) eqn:E.
      + apply andb_true_iff in E. destruct E as [E1 E2].
        apply Ascii.eqb_eq in E1, E2. subst.
        rewrite join_cons by apply split_LFLF_nonempty.
        rewrite IH by lia. reflexivity.
      + rewrite join_cons_head by apply split_LFLF_nonempty.
        rewrite IH by (simpl; lia). reflexivity. }
  now apply (H (String.length s)).
Qed.

End JsFacts.

(** ** The chunkers: size bound *)

Module ChunkerBound.
Import Js Chunker JsFacts.

Section ParagraphBound.
Variable maxChunkSize : Z.
Variable paragraphs : list string.

Lemma buffer_chunk_ok (cur : string) :
  buffer_ok maxChunkSize paragraphs cur -> cur <> EmptyString ->
  chunk_ok maxChunkSize paragraphs (trim cur).
Proof.
  intros [E | (body & E & [Hle | [Hin Hgt]])] Hne; [congruence | |]; subst cur;
    rewrite trim_append_LFLF.
  - left. pose proof (len_trim_le body). lia.
  - right. now exists body.
Qed.

Lemma paragraph_step_ok (chunks : list string) (cur p : string) :
  Forall (chunk_ok maxChunkSize paragraphs) chunks ->
  buffer_ok maxChunkSize paragraphs cur ->
  In p paragraphs ->
  Forall (chunk_ok maxChunkSize paragraphs)
         (fst (paragraph_step maxChunkSize (chunks, cur) p)) /\
  buffer_ok maxChunkSize paragraphs (snd (paragraph_step maxChunkSize (chunks, cur) p)).
Proof.
  intros Hchunks Hcur Hp. unfold paragraph_step.
  destruct ((len cur + len p >? maxChunkSize) && truthy cur) eqn:Hflush; simpl.
  - apply andb_true_iff in Hflush. destruct Hflush as [_ Ht].
    apply truthy_true_iff in Ht. split.
    + apply Forall_app. split; [assumption|].
      constructor; [now apply buffer_chunk_ok | constructor].
    + right. exists p. split; [reflexivity|].
      destruct (Z_le_gt_dec (len p) maxChunkSize); [now left | right; split; [assumption | lia]].
  - split; [assumption|]. right.
    apply andb_false_iff in Hflush. destruct Hflush as [Hsize | Ht].
    + exists (cur +++ p). split; [now rewrite append_assoc|].
      left. rewrite len_append. lia.
    + apply truthy_false_iff in Ht. subst cur. exists p. split; [reflexivity|].
      destruct (Z_le_gt_dec (len p) maxChunkSize); [now left | right; split; [assumption | lia]].
Qed.

Lemma paragraph_loop_ok (ps : list string) (st : LoopState) :
  incl ps paragraphs ->
  Forall (chunk_ok maxChunkSize paragraphs) (fst st) ->
  buffer_ok maxChunkSize paragraphs (snd st) ->
  Forall (chunk_ok maxChunkSize paragraphs)
         (fst (fold_left (paragraph_step maxChunkSize) ps st)) /\
  buffer_ok maxChunkSize paragraphs (snd (fold_left (paragraph_step maxChunkSize) ps st)).
Proof.
  revert st. induction ps as [|p ps IH]; intros [chunks cur] Hincl Hc Hb; simpl.
  - now split.
  - assert (Hp : In p paragraphs) by (apply Hincl; now left).
    destruct (paragraph_step_ok chunks cur p Hc Hb Hp) as [Hc' Hb'].
    apply IH; [| assumption | assumption].
    intros x Hx. apply Hincl. now right.
Qed.

Lemma chunk_paragraphs_ok :
  Forall (chunk_ok maxChunkSize paragraphs) (chunk_paragraphs maxChunkSize paragraphs).
Proof.
  unfold chunk_paragraphs.
  destruct (paragraph_loop_ok paragraphs ([], EmptyString)) as [Hc Hb];
    [apply incl_refl | constructor | now left |].
  destruct (fold_left _ _ _) as [chunks cur]. simpl in *.
  destruct (truthy (trim cur)) eqn:Ht; [|assumption].
  apply Forall_app. split; [assumption|].
  constructor; [|constructor].
  apply buffer_chunk_ok; [assumption|].
  intros ->. discriminate.
Qed.

End ParagraphBound.

(** The paragraph chunker of [embeddings.ts] and its copy in
    [projectEmbeddings.ts] respect the bound of the specification: a chunk
    is at most [maxChunkSize] long unless it is one paragraph, trimmed, that
    is itself longer. *)
Lemma chunkText_bound (text : string) (maxChunkSize : Z) (c : string) :
  In c (chunkText text maxChunkSize) \/ In c (chunkProjectText text maxChunkSize) ->
  len c <= maxChunkSize \/
  exists p, In p (split_LFLF text) /\ c = trim p /\ maxChunkSize < len p.
Proof.
  intros H.
  assert (Hin : In c (chunk_paragraphs maxChunkSize (split_LFLF text)))
    by (destruct H; assumption).
  pose proof (chunk_paragraphs_ok maxChunkSize (split_LFLF text)) as Hall.
  rewrite Forall_forall in Hall. exact (Hall c Hin).
Qed.

End ChunkerBound.

(** ** The chunkers: rejoining the chunks *)

Module ChunkerRoundTrip.
Import Js Chunker JsFacts Samples.

Lemma buffer_of_snoc (g : list string) (p : string) :
  buffer_of (g ++ [p]) = buffer_of g +++ p +++ LFLF.
Proof.
  induction g as [|q g IH]; cbn [buffer_of app].
  - now rewrite append_empty_r.
  - now rewrite IH, !append_assoc.
Qed.

Lemma buffer_of_join (g : list string) :
  g <> [] -> buffer_of g = join LFLF g +++ LFLF.
Proof.
  induction g as [|p g IH]; [congruence|]. intros _.
  destruct g as [|q g].
  - cbn [buffer_of join]. now rewrite append_empty_r.
  - rewrite join_cons by congruence.
    cbn [buffer_of] in *. rewrite IH by congruence.
    now rewrite !append_assoc.
Qed.

Lemma tidy_halves (p : string) :
  tidy p -> p <> EmptyString /\ trimStart p = p /\ trimEnd p = p.
Proof. intros [Hne Ht]. split; [assumption | now apply trim_fixed]. Qed.

(** Tidy paragraphs joined by blank lines make a text that trimming leaves
    as it is. *)
Lemma join_tidy (g : list string) :
  Forall tidy g -> g <> [] ->
  join LFLF g <> EmptyString /\
  trimStart (join LFLF g) = join LFLF g /\
  trimEnd (join LFLF g) = join LFLF g.
Proof.
  induction g as [|p g IH]; [congruence|]. intros Hall _.
  inversion Hall as [|? ? Hp Hg]; subst.
  destruct (tidy_halves p Hp) as (Hne & Hs & He).
  destruct g as [|q g]; [simpl; auto|].
  destruct (IH Hg ltac:(congruence)) as (Jne & Js & Je).
  rewrite join_cons by congruence.
  split; [now apply append_nonempty_l|].
  split; [now apply trimStart_append_kept|].
  rewrite trimEnd_append_kept.
  - f_equal. rewrite trimEnd_append_kept by congruence. now rewrite Je.
  - rewrite trimEnd_append_kept by congruence. rewrite Je.
    now apply append_nonempty_r.
Qed.

Lemma trim_join_tidy (g : list string) :
  Forall tidy g -> g <> [] -> trim (join LFLF g) = join LFLF g.
Proof.
  intros Hall Hne. destruct (join_tidy g Hall Hne) as (_ & Hs & He).
  unfold trim. now rewrite He.
Qed.

Lemma trim_buffer_of_tidy (g : list string) :
  Forall tidy g -> g <> [] -> trim (buffer_of g) = join LFLF g.
Proof.
  intros Hall Hne. rewrite buffer_of_join by assumption.
  rewrite trim_append_LFLF. now apply trim_join_tidy.
Qed.

Lemma buffer_of_nonempty (g : list string) :
  g <> [] -> buffer_of g <> EmptyString.
Proof.
  intros Hne. rewrite buffer_of_join by assumption.
  apply append_nonempty_r. discriminate.
Qed.

(** The loop cuts the tidy paragraphs into consecutive groups and returns
    each group joined by blank lines. *)
Lemma paragraph_loop_groups (maxChunkSize : Z) (ps : list string) :
  forall (chunks g : list string),
    Forall tidy (g ++ ps) -> g <> [] ->
    exists groups,
      Forall (fun x => x <> []) groups /\
      Forall (Forall tidy) groups /\
      groups <> [] /\
      concat groups = g ++ ps /\
      paragraph_flush
        (fold_left (paragraph_step maxChunkSize) ps (chunks, buffer_of g)) =
      chunks ++ map (join LFLF) groups.
Proof.
  induction ps as [|p ps IH]; intros chunks g Hall Hg.
  - exists [g]. rewrite app_nil_r in *. simpl.
    repeat split; try (repeat constructor; assumption); try congruence.
    + now rewrite app_nil_r.
    + rewrite trim_buffer_of_tidy by assumption.
      destruct (join_tidy g Hall Hg) as (Jne & _).
      apply truthy_true_iff in Jne. now rewrite Jne.
  - cbn [fold_left]. unfold paragraph_step at 2.
    assert (Ht : truthy (buffer_of g) = true)
      by (apply truthy_true_iff; now apply buffer_of_nonempty).
    rewrite Ht, andb_true_r.
    assert (Hgt : Forall tidy g) by (apply Forall_app in Hall; tauto).
    destruct (len (buffer_of g) + len p >? maxChunkSize).
    + rewrite trim_buffer_of_tidy by assumption.
      change (EmptyString +++ p +++ LFLF) with (buffer_of [p]).
      destruct (IH (chunks ++ [join LFLF g]) [p]) as (groups & G1 & G2 & G3 & G4 & G5);
        [apply Forall_app in Hall; tauto | congruence |].
      exists (g :: groups).
      repeat split; try (constructor; assumption); try congruence.
      * simpl. now rewrite G4.
      * rewrite G5. simpl. now rewrite <- app_assoc.
    + rewrite <- buffer_of_snoc.
      destruct (IH chunks (g ++ [p])) as (groups & G1 & G2 & G3 & G4 & G5);
        [now rewrite <- app_assoc | now destruct g |].
      exists groups. repeat split; try assumption.
      now rewrite G4, <- app_assoc.
Qed.

Lemma join_groups (sep : string) (groups : list (list string)) :
  Forall (fun x => x <> []) groups -> groups <> [] ->
  join sep (map (join sep) groups) = join sep (concat groups).
Proof.
  induction groups as [|g groups IH]; [congruence|]. intros Hall _.
  inversion Hall as [|? ? Hg Hgs]; subst.
  destruct groups as [|g' groups].
  - simpl. now rewrite app_nil_r.
  - change (map (join sep) (g :: g' :: groups))
      with (join sep g :: map (join sep) (g' :: groups)).
    rewrite join_cons by (simpl; congruence).
    rewrite IH by (assumption || congruence).
    change (concat (g :: g' :: groups)) with (g ++ concat (g' :: groups)).
    rewrite join_app; [reflexivity | assumption |].
    inversion Hgs as [|? ? Hg' _]; subst. simpl. now destruct g'.
Qed.

Lemma chunk_paragraphs_groups (maxChunkSize : Z) (paragraphs : list string) :
  Forall tidy paragraphs -> paragraphs <> [] ->
  exists groups,
    Forall (fun x => x <> []) groups /\ Forall (Forall tidy) groups /\
    groups <> [] /\ concat groups = paragraphs /\
    chunk_paragraphs maxChunkSize paragraphs = map (join LFLF) groups.
Proof.
  intros Hall Hne. destruct paragraphs as [|p ps]; [congruence|].
  unfold chunk_paragraphs. cbn [fold_left]. unfold paragraph_step at 2.
  cbn [truthy andb]. rewrite andb_false_r.
  change (EmptyString +++ p +++ LFLF) with (buffer_of [p]).
  destruct (paragraph_loop_groups maxChunkSize ps [] [p] Hall ltac:(congruence))
    as (groups & G1 & G2 & G3 & G4 & G5).
  exists groups. now repeat split.
Qed.

Lemma chunk_paragraphs_roundtrip (maxChunkSize : Z) (text : string) :
  Forall tidy (split_LFLF text) ->
  join LFLF (map trim (chunk_paragraphs maxChunkSize (split_LFLF text))) = text.
Proof.
  intros Hall.
  destruct (chunk_paragraphs_groups maxChunkSize (split_LFLF text) Hall
              (split_LFLF_nonempty text)) as (groups & G1 & G2 & G3 & G4 & G5).
  rewrite G5, map_map.
  rewrite (map_ext_in _ (join LFLF)).
  - rewrite join_groups by assumption. rewrite G4. apply join_split_LFLF.
  - intros g Hg. rewrite Forall_forall in G1, G2.
    apply trim_join_tidy; [now apply G2 | now apply G1].
Qed.

(** C7, as stated, fails: a text that starts with a space is not what the
    rejoined chunks give back, because every chunk is trimmed. *)
Lemma chunkText_roundtrip_counterexample :
  ~ (forall (text : string) (maxChunkSize : Z),
        join LFLF (map trim (chunkText text maxChunkSize)) = text).
Proof.
  intros H. specialize (H " a" default_maxChunkSize).
  vm_compute in H. discriminate H.
Qed.

(** C7, amended: for every input text whose paragraphs (the pieces between
    blank lines) are not empty and carry no leading or trailing white space,
    and for every [maxChunkSize], the chunks returned by [chunkText] and by
    [chunkProjectText], each trimmed and rejoined with the separator of two
    line feeds, reproduce the text. *)
Theorem chunkText_roundtrip_tidy (text : string) (maxChunkSize : Z) :
  Forall tidy (split_LFLF text) ->
  join LFLF (map trim (chunkText text maxChunkSize)) = text /\
  join LFLF (map trim (chunkProjectText text maxChunkSize)) = text.
Proof.
  intros Hall. split; now apply chunk_paragraphs_roundtrip.
Qed.

Lemma chunkText_roundtrip_tidy_witness :
  join LFLF (map trim (chunkText para2 3)) = para2 /\
  join LFLF (map trim (chunkProjectText para2 3)) = para2.
Proof.
  apply (chunkText_roundtrip_tidy para2 3).
  repeat constructor; discriminate.
Defined.

End ChunkerRoundTrip.

(** ** The chunkers: the sentence variant and the empty text *)

Module ChunkerVariants.
Import Js Chunker JsFacts Samples.

Lemma append_nonempty_r_period (a : string) :
  a +++ period_space <> EmptyString.
Proof. apply append_nonempty_r. discriminate. Qed.

Lemma split_sentences_from_nonempty (s : string) :
  forall skip, split_sentences_from skip s <> [].
Proof.
  induction s as [|c s IH]; intros skip; simpl; [congruence|].
  destruct skip as [|k]; [|apply IH].
  destruct (separator_at (String c s)); [congruence | apply cons_head_nonempty].
Qed.

(** Every iteration of the sentence loop leaves a buffer that ends with a
    period and a space. *)
Lemma sentence_step_buffer (maxLength : Z) (st : LoopState) (sentence : string) :
  snd (sentence_step maxLength st sentence) <> EmptyString.
Proof.
  destruct st as [chunks cur]. unfold sentence_step.
  destruct (len (cur +++ sentence) <=? maxLength); simpl.
  - rewrite <- append_assoc. apply append_nonempty_r_period.
  - apply append_nonempty_r_period.
Qed.

Lemma sentence_loop_buffer (maxLength : Z) (sentences : list string) :
  forall st, snd st <> EmptyString \/ sentences <> [] ->
             snd (fold_left (sentence_step maxLength) sentences st) <> EmptyString.
Proof.
  induction sentences as [|s rest IH]; intros st H; simpl.
  - destruct H; congruence.
  - apply IH. left. apply sentence_step_buffer.
Qed.

Lemma chunkText_sentences_nonempty (text : string) (maxLength : Z) :
  chunkText_sentences text maxLength <> [].
Proof.
  unfold chunkText_sentences.
  destruct (len text <=? maxLength); [congruence|].
  pose proof (sentence_loop_buffer maxLength (split_sentences text) ([], EmptyString)
                (or_intror (split_sentences_from_nonempty text O))) as H.
  destruct (fold_left _ _ _) as [chunks cur]. simpl in *.
  apply truthy_true_iff in H. rewrite H.
  destruct chunks; simpl; congruence.
Qed.

(** *** The bound of the sentence variant *)

Lemma len_trim_period_space (body : string) :
  len (trim (body +++ period_space)) <= len body + 1.
Proof.
  change period_space with ("." +++ " ").
  rewrite <- append_assoc. unfold trim.
  rewrite trimEnd_append_whitespace by reflexivity.
  pose proof (length_trimStart_le (trimEnd (body +++ "."))) as H1.
  pose proof (length_trimEnd_le (body +++ ".")) as H2.
  rewrite length_append in H2. simpl in H2. unfold len. lia.
Qed.

Lemma sentence_buffer_chunk_ok (maxLength : Z) (sentences : list string) (cur : string) :
  sentence_buffer_ok maxLength sentences cur -> cur <> EmptyString ->
  sentence_chunk_ok maxLength sentences (trim cur).
Proof.
  intros [E | (body & E & [Hle | [Hin Hgt]])] Hne; [congruence | |]; subst cur.
  - left. pose proof (len_trim_period_space body). lia.
  - right. now exists body.
Qed.

Lemma sentence_step_ok (maxLength : Z) (sentences chunks : list string)
  (cur s : string) :
  Forall (sentence_chunk_ok maxLength sentences) chunks ->
  sentence_buffer_ok maxLength sentences cur ->
  In s sentences ->
  Forall (sentence_chunk_ok maxLength sentences)
         (fst (sentence_step maxLength (chunks, cur) s)) /\
  sentence_buffer_ok maxLength sentences (snd (sentence_step maxLength (chunks, cur) s)).
Proof.
  intros Hchunks Hcur Hs. unfold sentence_step.
  destruct (len (cur +++ s) <=? maxLength) eqn:Hfit; simpl.
  - split; [assumption|]. right. exists (cur +++ s).
    split; [now rewrite append_assoc | left; lia].
  - split.
    + destruct (truthy cur) eqn:Ht; [|assumption].
      apply Forall_app. split; [assumption|].
      constructor; [|constructor].
      apply sentence_buffer_chunk_ok; [assumption | now apply truthy_true_iff].
    + right. exists s. split; [reflexivity|].
      destruct (Z_le_gt_dec (len s) maxLength);
        [now left | right; split; [assumption | lia]].
Qed.

Lemma sentence_loop_ok (maxLength : Z) (sentences ss : list string) (st : LoopState) :
  incl ss sentences ->
  Forall (sentence_chunk_ok maxLength sentences) (fst st) ->
  sentence_buffer_ok maxLength sentences (snd st) ->
  Forall (sentence_chunk_ok maxLength sentences)
         (fst (fold_left (sentence_step maxLength) ss st)) /\
  sentence_buffer_ok maxLength sentences
                     (snd (fold_left (sentence_step maxLength) ss st)).
Proof.
  revert st. induction ss as [|s ss IH]; intros [chunks cur] Hincl Hc Hb; simpl.
  - now split.
  - assert (Hs : In s sentences) by (apply Hincl; now left).
    destruct (sentence_step_ok maxLength sentences chunks cur s Hc Hb Hs) as [Hc' Hb'].
    apply IH; [| assumption | assumption].
    intros x Hx. apply Hincl. now right.
Qed.

(** The sentence chunker exceeds [maxLength] by at most the period it
    appends, unless the chunk is one oversized sentence. *)
Lemma chunkText_sentences_bound (text : string) (maxLength : Z) :
  Forall (sentence_chunk_ok maxLength (split_sentences text))
         (chunkText_sentences text maxLength).
Proof.
  unfold chunkText_sentences.
  destruct (len text <=? maxLength) eqn:Hshort.
  - constructor; [|constructor]. left. lia.
  - destruct (sentence_loop_ok maxLength (split_sentences text) (split_sentences text)
                ([], EmptyString)) as [Hc Hb];
      [apply incl_refl | constructor | now left |].
    destruct (fold_left _ _ _) as [chunks cur]. simpl in *.
    destruct (truthy cur) eqn:Ht; [|assumption].
    apply Forall_app. split; [assumption|].
    constructor; [|constructor].
    apply sentence_buffer_chunk_ok; [assumption | now apply truthy_true_iff].
Qed.

(** C6 at its failing input.  With [maxLength = 5] the sentence chunker of
    the regeneration job returns a first chunk of six characters made of two
    sentences, although no sentence of the text is longer than five: the
    period and space appended to the buffer are not counted by the test
    [(currentChunk + sentence).length <= maxLength]. *)
Theorem chunkText_sentences_exceeds_maxLength :
  split_sentences three_sentences = ["ab"; "c"; "d"] /\
  chunkText_sentences three_sentences 5 = ["ab. c."; "d."] /\
  len "ab. c." = 6 /\
  Forall (fun sentence => len sentence <= 5) (split_sentences three_sentences).
Proof.
  repeat split; try reflexivity.
  repeat constructor; discriminate.
Qed.

(** C8, as stated, fails: the sentence variant answers the empty text with
    one chunk, the empty string. *)
Lemma chunk_empty_counterexample :
  ~ (forall maxChunkSize : Z,
        chunkText EmptyString maxChunkSize = [] /\
        chunkText_sentences EmptyString maxChunkSize = []).
Proof.
  intros H. destruct (H default_maxChunkSize) as [_ H2].
  vm_compute in H2. discriminate H2.
Qed.

(** C8, amended: for every [maxChunkSize] the paragraph chunkers
    ([chunkText], [chunkProjectText]) return no chunk for the empty string;
    the sentence chunker never returns an empty sequence, and for the empty
    string it returns the single chunk [""] when [maxLength] is not negative
    and the single chunk ["."] when it is. *)
Theorem chunk_empty_text :
  (forall maxChunkSize : Z,
      chunkText EmptyString maxChunkSize = [] /\
      chunkProjectText EmptyString maxChunkSize = [] /\
      chunkText_sentences EmptyString maxChunkSize =
        if 0 <=? maxChunkSize then [EmptyString] else ["."]) /\
  (forall (text : string) (maxLength : Z),
      chunkText_sentences text maxLength <> []).
Proof.
  split; [|apply chunkText_sentences_nonempty].
  intros m.
  assert (Hp : chunk_paragraphs m (split_LFLF EmptyString) = []).
  { unfold chunk_paragraphs. cbn [split_LFLF fold_left]. unfold paragraph_step.
    cbn [truthy]. rewrite andb_false_r. reflexivity. }
  repeat split; try exact Hp.
  unfold chunkText_sentences. change (len EmptyString) with 0.
  destruct (0 <=? m) eqn:E; [reflexivity|].
  cbn [split_sentences split_sentences_from fold_left]. unfold sentence_step.
  change (len (EmptyString +++ EmptyString)) with 0. rewrite E. reflexivity.
Qed.

End ChunkerVariants.

(** ** The embedding client *)

Module ClientFacts.
Import Js Runtime Supabase Embeddings Observe JsFacts.

Lemma log_log (st : State) (a b : list Event) :
  log (log st a) b = log st (a ++ b).
Proof. unfold log; simpl. now rewrite app_assoc. Qed.

Lemma log_nil (st : State) : log st [] = st.
Proof. destruct st. unfold log; simpl. now rewrite app_nil_r. Qed.

Lemma emit_log (e : Event) (st : State) : emit e st = (Normal tt, log st [e]).
Proof. reflexivity. Qed.

Lemma same_tables_log (st : State) (evs : list Event) : same_tables st (log st evs).
Proof. now split. Qed.

Lemma same_tables_refl (st : State) : same_tables st st.
Proof. now split. Qed.


(** What a call of [generateEmbedding] amounts to: it returns, the tables are
    untouched, no ranking query is sent, and a failure of the kind
    [ReportedFailure] shows in the [error] field with a message. *)
Lemma generateEmbedding_run (w : World) (text : string) (st : State) :
  exists result evs,
    generateEmbedding w text st = (Normal result, log st evs) /\
    Forall (fun e => is_ranking_query e = false) evs /\
    (ReportedFailure w text ->
     exists message,
       EmbeddingResponse.error result = Some message /\ truthy message = true).
Proof.
  unfold generateEmbedding, try_catch, do_fetch, bind.
  destruct (truthy_opt (VITE_GEMINI_API_KEY w)) eqn:Hkey; cbn [negb].
  - rewrite emit_log. cbn [ret].
    destruct (fetch w text) as [e | [|] status statusText [e | [type_error | values]]]
      eqn:Hfetch;
      cbn [throw ret read_values negb]; rewrite ?emit_log; cbn [ret];
      rewrite ?log_log;
      (eexists; eexists; split; [reflexivity|]; split; [repeat constructor|]);
      intros F; cbn [EmbeddingResponse.error];
      try (eexists; split; [reflexivity|]);
      destruct F; try congruence; try reflexivity;
      match goal with
      | H : fetch w text = _ |- _ => rewrite Hfetch in H; inversion H; subst
      end; assumption.
  - rewrite emit_log. cbn [ret].
    eexists; eexists; split; [reflexivity|]. split; [repeat constructor|].
    intros _. eexists. split; reflexivity.
Qed.

(** Either the client reports the failure, or it does not: no way of ending
    without a vector is left out. *)
Lemma client_fails_cases (w : World) (text : string) :
  ClientFails w text <->
  ReportedFailure w text \/ exists v, SilentFailure w text v.
Proof.
  split.
  - intros [Hk | e Hk Hf | status statusText body Hk Hf
            | status statusText e Hk Hf | status statusText t Hk Hf
            | status statusText Hk Hf].
    + left. now apply missing_api_key.
    + destruct (truthy (message_of e)) eqn:Hm.
      * left. now apply (request_failed w text e).
      * right. exists (Some []). now apply (request_failed_without_message w text e).
    + left. now apply (http_status w text status statusText body).
    + destruct (truthy (message_of e)) eqn:Hm.
      * left. now apply (unparsable_body w text status statusText e).
      * right. exists (Some []).
        now apply (unparsable_body_without_message w text status statusText e).
    + destruct (truthy t) eqn:Hm.
      * left. now apply (embedding_missing w text status statusText t).
      * right. exists (Some []).
        now apply (embedding_missing_without_message w text status statusText t).
    + right. exists None. now apply (values_missing w text status statusText).
  - intros [[Hk | e Hk Hf _ | status statusText body Hk Hf
             | status statusText e Hk Hf _ | status statusText t Hk Hf _]
            | [v [status statusText Hk Hf | e Hk Hf _
                  | status statusText e Hk Hf _ | status statusText t Hk Hf _]]].
    + now apply fails_without_key.
    + now apply (fails_on_request w text e).
    + now apply (fails_on_status w text status statusText body).
    + now apply (fails_on_body w text status statusText e).
    + now apply (fails_without_embedding w text status statusText t).
    + now apply (fails_without_values w text status statusText).
    + now apply (fails_on_request w text e).
    + now apply (fails_on_body w text status statusText e).
    + now apply (fails_without_embedding w text status statusText t).
Qed.

(** On a failure that is not reported the client returns the vector [v]
    and no error that its callers would see. *)
Lemma generateEmbedding_silent (w : World) (text : string) (st : State)
  (v : option Vector) :
  SilentFailure w text v ->
  exists error evs,
    generateEmbedding w text st
    = (Normal {| EmbeddingResponse.embedding := v;
                 EmbeddingResponse.error := error |}, log st evs) /\
    truthy_opt error = false /\
    Forall (fun e => is_ranking_query e = false) evs.
Proof.
  intros F. unfold generateEmbedding, try_catch, do_fetch, bind.
  destruct F as [status statusText Hk Hf | e Hk Hf Hm
                 | status statusText e Hk Hf Hm | status statusText t Hk Hf Hm];
    rewrite Hk; cbn [negb]; rewrite emit_log; cbn [ret]; rewrite Hf;
    cbn [throw ret read_values negb]; rewrite ?emit_log; cbn [ret];
    rewrite ?log_log; eexists; eexists;
    (split; [reflexivity|]); (split; [|repeat constructor]);
    cbn [truthy_opt message_of]; try reflexivity; assumption.
Qed.

End ClientFacts.

(** ** Store and delete *)

Module StoreFacts.
Import Js Runtime Supabase Embeddings ProjectEmbeddings Observe JsFacts ClientFacts.

(** The body shared by [storeEmbedding] and [storeProjectEmbedding], for the
    insert [op e] of the row that carries the vector [e]. *)
Lemma guarded_insert_run (label : string) (w : World) (given : option Vector)
  (content : string) (op : option Vector -> DbOp) (st : State) :
  exists result st' evs,
    guarded label
      (resolved <- resolve_embedding w given content ;;
       match resolved with
       | inr early => ret early
       | inl embedding =>
           error <- write w (op embedding) ;;
           throw_if_error error ;;
           ret succeeded
       end) st = (Normal result, st') /\
    Forall (fun e => is_ranking_query e = false) evs /\
    reports result
      (exists e, st' = apply_op (op e) (log st evs) /\
                 db_outcome w (op e) = Applied /\
                 (forall v, given = Some v -> e = Some v) /\
                 (given = None ->
                  exists r st0, generateEmbedding w content st = (Normal r, st0) /\
                                e = EmbeddingResponse.embedding r))
      (st' = log st evs) /\
    (given = None -> ReportedFailure w content ->
     exists message,
       result = failed (Some message) /\ truthy message = true /\ st' = log st evs).
Proof.
  unfold guarded, try_catch, resolve_embedding, bind.
  destruct given as [v|].
  - cbn [ret]. unfold write.
    destruct (db_outcome w (op (Some v))) as [|e|e] eqn:Hdb;
      cbn [throw_if_error ret throw]; rewrite ?emit_log; cbn [ret].
    + exists succeeded, (apply_op (op (Some v)) st), [].
      rewrite log_nil. split; [reflexivity|]. split; [constructor|].
      split; [|discriminate]. left. split; [reflexivity|].
      exists (Some v). split; [reflexivity|]. split; [assumption|].
      split; [congruence | discriminate].
    + eexists; eexists; exists [console_error [PString label; PThrown e]].
      split; [reflexivity|]. split; [repeat constructor|].
      split; [|discriminate]. right. eexists. split; reflexivity.
    + eexists; eexists; exists [console_error [PString label; PThrown e]].
      split; [reflexivity|]. split; [repeat constructor|].
      split; [|discriminate]. right. eexists. split; reflexivity.
  - destruct (generateEmbedding_run w content st) as (r & evs & Hrun & Hevs & Hfail).
    rewrite Hrun.
    destruct (truthy_opt (EmbeddingResponse.error r)) eqn:Herr; cbn [ret].
    + destruct (EmbeddingResponse.error r) as [m|] eqn:Hm; [|discriminate].
      exists (failed (Some m)), (log st evs), evs.
      split; [reflexivity|]. split; [assumption|].
      split; [right; exists m; now split|].
      intros _ _. exists m. now repeat split.
    + assert (Hnofail : ~ ReportedFailure w content).
      { intros F. destruct (Hfail F) as (m & Hm & Ht).
        rewrite Hm in Herr. simpl in Herr. congruence. }
      unfold write.
      destruct (db_outcome w (op (EmbeddingResponse.embedding r))) as [|e|e] eqn:Hdb;
        cbn [throw_if_error ret throw]; rewrite ?emit_log; cbn [ret];
        rewrite ?log_log.
      * exists succeeded, (apply_op (op (EmbeddingResponse.embedding r)) (log st evs)), evs.
        split; [reflexivity|]. split; [assumption|].
        split; [|intros _ F; contradiction].
        left. split; [reflexivity|].
        exists (EmbeddingResponse.embedding r). split; [reflexivity|].
        split; [assumption|]. split; [discriminate|]. intros _. eauto.
      * eexists; eexists; exists (evs ++ [console_error [PString label; PThrown e]]).
        split; [reflexivity|].
        split; [apply Forall_app; split; [assumption | repeat constructor]|].
        split; [|intros _ F; contradiction].
        right. eexists. split; reflexivity.
      * eexists; eexists; exists (evs ++ [console_error [PString label; PThrown e]]).
        split; [reflexivity|].
        split; [apply Forall_app; split; [assumption | repeat constructor]|].
        split; [|intros _ F; contradiction].
        right. eexists. split; reflexivity.
Qed.

(** The body shared by the delete operations. *)
Lemma guarded_write_run (label : string) (w : World) (op : DbOp) (st : State) :
  exists result st',
    guarded label (error <- write w op ;; throw_if_error error ;; ret succeeded) st
    = (Normal result, st') /\
    reports result (st' = apply_op op st /\ db_outcome w op = Applied)
                   (same_tables st st').
Proof.
  unfold guarded, try_catch, bind, write.
  destruct (db_outcome w op) as [|e|e]; cbn [throw_if_error ret throw];
    rewrite ?emit_log; cbn [ret].
  - eexists; eexists. split; [reflexivity|]. left. now repeat split.
  - eexists; eexists. split; [reflexivity|]. right.
    eexists. split; [reflexivity | apply same_tables_log].
  - eexists; eexists. split; [reflexivity|]. right.
    eexists. split; [reflexivity | apply same_tables_log].
Qed.

(** The shared body on a failure that is not reported: the insert is
    attempted with the vector of the result. *)
Lemma guarded_insert_silent (label : string) (w : World) (content : string)
  (op : option Vector -> DbOp) (st : State) (v : option Vector) :
  SilentFailure w content v ->
  db_outcome w (op v) = Applied ->
  exists evs,
    guarded label
      (resolved <- resolve_embedding w None content ;;
       match resolved with
       | inr early => ret early
       | inl embedding =>
           error <- write w (op embedding) ;;
           throw_if_error error ;;
           ret succeeded
       end) st = (Normal succeeded, apply_op (op v) (log st evs)).
Proof.
  intros F Hdb.
  destruct (generateEmbedding_silent w content st v F) as (error & evs & Hrun & Herr & _).
  exists evs. unfold guarded, try_catch, resolve_embedding, bind.
  rewrite Hrun. cbn [EmbeddingResponse.error EmbeddingResponse.embedding].
  rewrite Herr. cbn [ret]. unfold write. rewrite Hdb.
  reflexivity.
Qed.

End StoreFacts.

(** ** Properties of store and delete *)

Module StoreSpec.
Import Js Runtime Supabase Embeddings ProjectEmbeddings Refresh Observe.
Import JsFacts ClientFacts StoreFacts Samples.

Lemma reports_weaken (result : StoreResult) (A A' U U' : Prop) :
  reports result A U -> (A -> A') -> (U -> U') -> reports result A' U'.
Proof.
  intros [[E HA] | (m & E & HU)] HA' HU'; [left | right]; eauto.
Qed.

Lemma reports_success (result : StoreResult) (A U : Prop) :
  reports result A U -> success result = true -> A.
Proof.
  intros [[_ HA] | (m & E & _)] Hs; [assumption|].
  subst result. discriminate Hs.
Qed.


Lemma ContentType_eqb_eq (a b : ContentType) : ContentType_eqb a b = true -> a = b.
Proof. destruct a, b; simpl; congruence. Qed.




(** C10: in every state of the outside world the four operations return
    normally, never by a throw.  The result is [{ success: true }], and then
    the insert or delete was carried out, or it is [{ success: false, error }]
    with a message, and then both embedding tables are as before. *)
Theorem store_and_delete_never_throw (w : World) (st : State) :
  (forall data : CompanyBrainEmbedding.t,
      exists result st',
        storeEmbedding w data st = (Normal result, st') /\
        reports result
          (exists e,
              company_brain_embeddings st' =
                company_brain_embeddings st ++ [CompanyBrainEmbedding.with_embedding data e]
              /\ project_embeddings st' = project_embeddings st)
          (same_tables st st')) /\
  (forall data : ProjectEmbeddingData.t,
      exists result st',
        storeProjectEmbedding w data st = (Normal result, st') /\
        reports result
          (exists e,
              project_embeddings st' =
                project_embeddings st ++ [ProjectEmbeddingData.with_embedding data e]
              /\ company_brain_embeddings st' = company_brain_embeddings st)
          (same_tables st st')) /\
  (forall projectId : string,
      exists result st',
        deleteProjectEmbeddings w projectId st = (Normal result, st') /\
        reports result
          (project_embeddings st' =
             filter (fun r => negb (String.eqb (ProjectEmbeddingData.project_id r) projectId))
                    (project_embeddings st)
           /\ company_brain_embeddings st' = company_brain_embeddings st)
          (same_tables st st')) /\
  (forall (projectId : string) (contentType : ContentType),
      exists result st',
        deleteProjectEmbeddingsByType w projectId contentType st = (Normal result, st') /\
        reports result
          (project_embeddings st' =
             filter (fun r =>
                       negb (String.eqb (ProjectEmbeddingData.project_id r) projectId
                             && ContentType_eqb (ProjectEmbeddingData.content_type r)
                                                contentType))
                    (project_embeddings st)
           /\ company_brain_embeddings st' = company_brain_embeddings st)
          (same_tables st st')).
Proof.
  repeat split.
  - intros data.
    destruct (guarded_insert_run "Error storing embedding:" w
                (CompanyBrainEmbedding.embedding data)
                (CompanyBrainEmbedding.content data)
                (fun e => InsertCompany (CompanyBrainEmbedding.with_embedding data e)) st)
      as (result & st' & evs & Hrun & _ & Hrep & _).
    exists result, st'. split; [exact Hrun|].
    apply (reports_weaken _ _ _ _ _ Hrep).
    + intros (e & -> & _). exists e. now split.
    + intros ->. apply same_tables_log.
  - intros data.
    destruct (guarded_insert_run "Error storing project embedding:" w
                (ProjectEmbeddingData.embedding data)
                (ProjectEmbeddingData.content data)
                (fun e => InsertProject (ProjectEmbeddingData.with_embedding data e)) st)
      as (result & st' & evs & Hrun & _ & Hrep & _).
    exists result, st'. split; [exact Hrun|].
    apply (reports_weaken _ _ _ _ _ Hrep).
    + intros (e & -> & _). exists e. now split.
    + intros ->. apply same_tables_log.
  - intros projectId.
    destruct (guarded_write_run "Error deleting project embeddings:" w
                (DeleteProject [ProjectEmbeddingData.eq_project_id projectId]) st)
      as (result & st' & Hrun & Hrep).
    exists result, st'. split; [exact Hrun|].
    apply (reports_weaken _ _ _ _ _ Hrep); [|tauto].
    intros [-> _]. split; [|reflexivity]. simpl.
    apply filter_ext. intros r. now rewrite andb_true_r.
  - intros projectId contentType.
    destruct (guarded_write_run "Error deleting project embeddings by type:" w
                (DeleteProject [ProjectEmbeddingData.eq_project_id projectId;
                                ProjectEmbeddingData.eq_content_type contentType]) st)
      as (result & st' & Hrun & Hrep).
    exists result, st'. split; [exact Hrun|].
    apply (reports_weaken _ _ _ _ _ Hrep); [|tauto].
    intros [-> _]. split; [|reflexivity]. simpl.
    apply filter_ext. intros r. now rewrite andb_true_r.
Qed.

End StoreSpec.

(** ** Uniqueness and dimensionality *)

Module StoreInvariants.
Import Js Runtime Supabase Embeddings ProjectEmbeddings Refresh Observe.
Import JsFacts ClientFacts StoreFacts StoreSpec Samples.








(** C9, as stated, fails: for no dimensionality does the store refuse a
    vector of another length; given a vector one longer than the configured
    length, [storeEmbedding] inserts the record as it is. *)
Lemma store_enforces_no_dimension :
  ~ (exists dimension : nat,
        forall (w : World) (data : CompanyBrainEmbedding.t) (v : Vector)
               (st st' : State) (result : StoreResult),
          CompanyBrainEmbedding.embedding data = Some v ->
          length v <> dimension ->
          storeEmbedding w data st = (Normal result, st') ->
          ~ In data (company_brain_embeddings st')).
Proof.
  intros [dimension H].
  set (v := repeat 0%Q (S dimension)).
  apply (H world_ok (company_row "alice" "Company: Acme" (Some v)) v
           empty_state
           (apply_op (InsertCompany (company_row "alice" "Company: Acme" (Some v)))
                     empty_state)
           succeeded).
  - reflexivity.
  - unfold v. rewrite repeat_length. lia.
  - reflexivity.
  - simpl. now left.
Qed.

(** Vectors of different lengths end up side by side in one table. *)
Example mixed_lengths_coexist :
  company_brain_embeddings
    (snd ((storeEmbedding world_ok (company_row "alice" "Company: Acme" (Some [1%Q])) ;;
           storeEmbedding world_ok
             (company_row "alice" "Company: Acme" (Some [1%Q; 2%Q; 3%Q])))
            empty_state))
  = [company_row "alice" "Company: Acme" (Some [1%Q]);
     company_row "alice" "Company: Acme" (Some [1%Q; 2%Q; 3%Q])].
Proof. reflexivity. Qed.

Lemma with_embedding_same_company (data : CompanyBrainEmbedding.t) (v : Vector) :
  CompanyBrainEmbedding.embedding data = Some v ->
  CompanyBrainEmbedding.with_embedding data (Some v) = data.
Proof. destruct data; simpl; intros ->; reflexivity. Qed.

Lemma with_embedding_same_project (data : ProjectEmbeddingData.t) (v : Vector) :
  ProjectEmbeddingData.embedding data = Some v ->
  ProjectEmbeddingData.with_embedding data (Some v) = data.
Proof. destruct data; simpl; intros ->; reflexivity. Qed.

(** C9, amended: the store operations make no check of the length of the
    vector.  A vector given by the caller, whatever its length, is handed to
    the insert unchanged and is stored as it is whenever the database carries
    the insert out; a vector generated by the embedding client is stored as
    the client returned it.  A record whose vector has another length than
    the configured one is kept out only by the database: where it enforces
    the dimension, the insert fails, the store returns
    [{ success: false, error }] and the tables stay as they were. *)
Theorem store_inserts_vector_unchecked (w : World) (st : State) :
  (forall (data : CompanyBrainEmbedding.t) (v : Vector),
      CompanyBrainEmbedding.embedding data = Some v ->
      db_outcome w (InsertCompany data) = Applied ->
      storeEmbedding w data st = (Normal succeeded, apply_op (InsertCompany data) st)) /\
  (forall (data : ProjectEmbeddingData.t) (v : Vector),
      ProjectEmbeddingData.embedding data = Some v ->
      db_outcome w (InsertProject data) = Applied ->
      storeProjectEmbedding w data st
      = (Normal succeeded, apply_op (InsertProject data) st)) /\
  (forall (data : CompanyBrainEmbedding.t) (r : EmbeddingResponse.t) (st0 : State),
      CompanyBrainEmbedding.embedding data = None ->
      generateEmbedding w (CompanyBrainEmbedding.content data) st = (Normal r, st0) ->
      truthy_opt (EmbeddingResponse.error r) = false ->
      db_outcome w (InsertCompany
                      (CompanyBrainEmbedding.with_embedding data
                         (EmbeddingResponse.embedding r))) = Applied ->
      storeEmbedding w data st
      = (Normal succeeded,
         apply_op (InsertCompany
                     (CompanyBrainEmbedding.with_embedding data
                        (EmbeddingResponse.embedding r))) st0)) /\
  (forall (data : ProjectEmbeddingData.t) (r : EmbeddingResponse.t) (st0 : State),
      ProjectEmbeddingData.embedding data = None ->
      generateEmbedding w (ProjectEmbeddingData.content data) st = (Normal r, st0) ->
      truthy_opt (EmbeddingResponse.error r) = false ->
      db_outcome w (InsertProject
                      (ProjectEmbeddingData.with_embedding data
                         (EmbeddingResponse.embedding r))) = Applied ->
      storeProjectEmbedding w data st
      = (Normal succeeded,
         apply_op (InsertProject
                     (ProjectEmbeddingData.with_embedding data
                        (EmbeddingResponse.embedding r))) st0)) /\
  (forall (n : nat) (data : CompanyBrainEmbedding.t) (v : Vector),
      enforces_dimension w n ->
      CompanyBrainEmbedding.embedding data = Some v ->
      length v <> n ->
      exists message st',
        storeEmbedding w data st = (Normal (failed (Some message)), st') /\
        same_tables st st') /\
  (forall (n : nat) (data : ProjectEmbeddingData.t) (v : Vector),
      enforces_dimension w n ->
      ProjectEmbeddingData.embedding data = Some v ->
      length v <> n ->
      exists message st',
        storeProjectEmbedding w data st = (Normal (failed (Some message)), st') /\
        same_tables st st').
Proof.
  split; [|split; [|split; [|split; [|split]]]].
  - intros data v Hv Hdb.
    unfold storeEmbedding, guarded, try_catch, resolve_embedding, bind, write.
    rewrite Hv. cbn [ret].
    rewrite (with_embedding_same_company data v Hv), Hdb. reflexivity.
  - intros data v Hv Hdb.
    unfold storeProjectEmbedding, guarded, try_catch, resolve_embedding, bind, write.
    rewrite Hv. cbn [ret].
    rewrite (with_embedding_same_project data v Hv), Hdb. reflexivity.
  - intros data r st0 Hnone Hgen Herr Hdb.
    unfold storeEmbedding, guarded, try_catch, resolve_embedding, bind, write.
    rewrite Hnone, Hgen, Herr. cbn [ret]. rewrite Hdb. reflexivity.
  - intros data r st0 Hnone Hgen Herr Hdb.
    unfold storeProjectEmbedding, guarded, try_catch, resolve_embedding, bind, write.
    rewrite Hnone, Hgen, Herr. cbn [ret]. rewrite Hdb. reflexivity.
  - intros n data v [Henf _] Hv Hlen.
    destruct (guarded_insert_run "Error storing embedding:" w
                (CompanyBrainEmbedding.embedding data)
                (CompanyBrainEmbedding.content data)
                (fun e => InsertCompany (CompanyBrainEmbedding.with_embedding data e)) st)
      as (result & st' & evs & Hrun & _ & [[_ (e & _ & Hdb & He & _)] | (m & -> & ->)] & _).
    + apply Henf in Hdb. rewrite (He v Hv) in Hdb. simpl in Hdb.
      apply Nat.eqb_eq in Hdb. contradiction.
    + exists m, (log st evs). split; [exact Hrun | apply same_tables_log].
  - intros n data v [_ Henf] Hv Hlen.
    destruct (guarded_insert_run "Error storing project embedding:" w
                (ProjectEmbeddingData.embedding data)
                (ProjectEmbeddingData.content data)
                (fun e => InsertProject (ProjectEmbeddingData.with_embedding data e)) st)
      as (result & st' & evs & Hrun & _ & [[_ (e & _ & Hdb & He & _)] | (m & -> & ->)] & _).
    + apply Henf in Hdb. rewrite (He v Hv) in Hdb. simpl in Hdb.
      apply Nat.eqb_eq in Hdb. contradiction.
    + exists m, (log st evs). split; [exact Hrun | apply same_tables_log].
Qed.

Lemma world_two_dimensions_enforces : enforces_dimension world_two_dimensions 2.
Proof.
  split; intros r; simpl.
  - destruct (has_dimension 2 (CompanyBrainEmbedding.embedding r)); congruence.
  - destruct (has_dimension 2 (ProjectEmbeddingData.embedding r)); congruence.
Defined.

Lemma store_inserts_vector_unchecked_witness :
  storeEmbedding world_ok (company_row "alice" "Company: Acme" (Some [1%Q])) crowded_state
  = (Normal succeeded,
     apply_op (InsertCompany (company_row "alice" "Company: Acme" (Some [1%Q])))
              crowded_state) /\
  storeProjectEmbedding world_ok
    (project_row "p1" "acme" "Project: New" (Some [1%Q; 2%Q; 3%Q])) crowded_state
  = (Normal succeeded,
     apply_op (InsertProject (project_row "p1" "acme" "Project: New" (Some [1%Q; 2%Q; 3%Q])))
              crowded_state) /\
  (exists message st',
      storeEmbedding world_two_dimensions
        (company_row "alice" "Company: Acme" (Some [1%Q])) crowded_state
      = (Normal (failed (Some message)), st') /\
      same_tables crowded_state st').
Proof.
  split; [|split].
  - apply (proj1 (store_inserts_vector_unchecked world_ok crowded_state)
             (company_row "alice" "Company: Acme" (Some [1%Q])) [1%Q]);
      reflexivity.
  - apply (proj1 (proj2 (store_inserts_vector_unchecked world_ok crowded_state))
             (project_row "p1" "acme" "Project: New" (Some [1%Q; 2%Q; 3%Q]))
             [1%Q; 2%Q; 3%Q]);
      reflexivity.
  - apply (proj1 (proj2 (proj2 (proj2 (proj2
             (store_inserts_vector_unchecked world_two_dimensions crowded_state)))))
             2%nat (company_row "alice" "Company: Acme" (Some [1%Q])) [1%Q]);
      [exact world_two_dimensions_enforces | reflexivity | simpl; lia].
Defined.

End StoreInvariants.

(** ** Search *)

Module SearchSpec.
Import Js Runtime Supabase Embeddings ProjectEmbeddings Observe.
Import JsFacts ClientFacts Samples.

Lemma In_insert_by_score {Row : Type} (m x : Match Row) (sorted : list (Match Row)) :
  In x (insert_by_score m sorted) -> x = m \/ In x sorted.
Proof.
  induction sorted as [|y rest IH]; simpl.
  - intros [H | []]; now left.
  - destruct (Qle_bool (score m) (score y)); simpl.
    + intros [H | H]; [right; now left|].
      destruct (IH H); [now left | right; now right].
    + intros [H | [H | H]]; [now left | right; now left | right; now right].
Qed.

Lemma In_fold_insert {Row : Type} (x : Match Row) (ms : list (Match Row)) :
  In x (fold_right insert_by_score [] ms) -> In x ms.
Proof.
  induction ms as [|m ms IH]; simpl; [tauto|].
  intros H. apply In_insert_by_score in H. destruct H; [now left | right; auto].
Qed.

Lemma In_sort_by_score {Row : Type} (x : Match Row) (ms : list (Match Row)) :
  In x (sort_by_score ms) -> In x ms.
Proof.
  unfold sort_by_score. intros H. apply In_fold_insert in H.
  now apply In_rev in H.
Qed.

Lemma firstn_In {A : Type} (n : nat) (l : list A) (x : A) :
  In x (firstn n l) -> In x l.
Proof.
  revert l. induction n as [|n IH]; intros [|y l]; simpl; try tauto.
  intros [H | H]; [now left | right; auto].
Qed.

(** The ranking returns only rows of the scope it was asked for. *)
Lemma rank_in_scope {Row : Type} (w : World) (in_scope : Row -> bool)
  (vector_of : Row -> option Vector) (args : RpcArgs) (rows : list Row)
  (x : Match Row) :
  In x (rank w in_scope vector_of args rows) ->
  in_scope (row x) = true /\ In (row x) rows.
Proof.
  unfold rank. destruct (query_embedding args) as [q|]; [|intros []].
  intros H. apply firstn_In, In_sort_by_score, filter_In in H.
  destruct H as [H _]. apply in_flat_map in H. destruct H as (r & Hr & Hx).
  destruct (vector_of r); [|destruct Hx].
  destruct (in_scope r) eqn:Hs; [|destruct Hx].
  destruct Hx as [<- | []]. now split.
Qed.

Lemma apply_rpc_log (fn : string) (args : RpcArgs) (st : State) :
  apply_op (CallRpc fn args) st = log st [rpc_call fn args].
Proof. reflexivity. Qed.

(** The body shared by [searchSimilarContent] and [searchProjectContent]. *)
Lemma search_run {Row : Type} (w : World) (fn label scope_id text : string)
  (ranking : World -> RpcArgs -> State -> list (Match Row))
  (threshold : Q) (limit : Z) (st : State) :
  exists results evs,
    try_catch
      (result <- generateEmbedding w text ;;
       if truthy_opt (EmbeddingResponse.error result) then
         emit (console_error [PString "Error generating query embedding:";
                              printed_opt (EmbeddingResponse.error result)]) ;;
         ret []
       else
         response <- rpc w fn
                       {| query_embedding := EmbeddingResponse.embedding result;
                          scope := scope_id;
                          match_threshold := threshold;
                          match_count := limit |}
                       ranking ;;
         rows_or_empty response)
      (fun error =>
         emit (console_error [PString label; PThrown error]) ;;
         ret []) st
    = (Normal results, log st evs) /\
    (forall x, In x results ->
               exists e evs0,
                 In x (ranking w {| query_embedding := e;
                                    scope := scope_id;
                                    match_threshold := threshold;
                                    match_count := limit |} (log st evs0))) /\
    (ReportedFailure w text ->
     results = [] /\
     Forall (fun e => is_ranking_query e = false) evs /\
     exists evs0 message,
       evs = evs0 ++ [console_error [PString "Error generating query embedding:";
                                     PString message]]).
Proof.
  unfold try_catch, bind.
  destruct (generateEmbedding_run w text st) as (r & evs0 & Hrun & Hevs & Hfail).
  rewrite Hrun.
  destruct (truthy_opt (EmbeddingResponse.error r)) eqn:Herr.
  - rewrite emit_log. cbn [ret]. rewrite log_log.
    eexists; eexists. split; [reflexivity|]. split; [intros x []|].
    intros _. split; [reflexivity|].
    destruct (EmbeddingResponse.error r) as [m|]; [|discriminate].
    split; [apply Forall_app; split; [assumption | repeat constructor]|].
    now exists evs0, m.
  - assert (Hno : ~ ReportedFailure w text).
    { intros F. destruct (Hfail F) as (m & Hm & Ht).
      rewrite Hm in Herr. simpl in Herr. congruence. }
    unfold rpc.
    destruct (db_outcome w _) as [|e|e]; unfold rows_or_empty, bind;
      cbn [snd fst throw_if_error ret throw]; rewrite apply_rpc_log, ?emit_log;
      cbn [ret]; rewrite ?log_log;
      (eexists; eexists; split; [reflexivity|]; split; [|intros F; contradiction]).
    + intros x Hx. eauto.
    + intros x [].
    + intros x [].
Qed.





(** C4, as stated, fails for the project scope: [searchProjectContent]
    passes the project id and no tenant, and [storeProjectEmbedding] accepts
    any pair of project and company.  A record of tenant [acme] that was
    stored under the project [p2] of tenant [bolt] is returned by the search
    that [bolt] issues for its project [p2]. *)
Lemma search_by_project_crosses_tenants :
  ~ (forall (w : World) (st : State) (query : string) (threshold : Q) (limit : Z)
            (owner : string -> string) (A B projectId : string)
            (r : ProjectEmbeddingData.t),
        A <> B ->
        In r (project_embeddings st) ->
        ProjectEmbeddingData.company_id r = A ->
        owner projectId = B ->
        exists results st',
          searchProjectContent w projectId query threshold limit st
          = (Normal results, st') /\
          ~ In r (map row results)).
Proof.
  intros H.
  destruct (H world_ok MoreSamples.stray_state "What industry is Acme in?"
              default_threshold default_limit project_owner "acme" "bolt" "p2"
              MoreSamples.stray_record)
    as (results & st' & Hrun & Hnot).
  - discriminate.
  - vm_compute. right; right; right; now left.
  - reflexivity.
  - reflexivity.
  - assert (E : map row
                  (match fst (searchProjectContent world_ok "p2"
                                "What industry is Acme in?" default_threshold
                                default_limit MoreSamples.stray_state) with
                   | Normal results => results
                   | Throw _ => []
                   end)
                = [project_row "p2" "bolt" "Project: Other" (Some [1%Q; 0%Q]);
                   MoreSamples.stray_record])
      by (vm_compute; reflexivity).
    rewrite Hrun in E. cbn [fst] in E. apply Hnot. rewrite E. right; now left.
Qed.

(** C4, amended: a search is scoped by the id it passes.  For tenants A and
    B with A different from B, [searchSimilarContent] with the user id B
    never returns a record whose [user_id] is A.  [searchProjectContent]
    returns only stored records whose [project_id] is the id searched for,
    whatever their [company_id]; so it never returns a record of tenant A
    provided every record stored under that project belongs to tenant B,
    which nothing in the store or the search enforces.  Both searches
    return normally, whatever the similarity the engine computes. *)
Theorem search_scoped_by_user_and_project
  (w : World) (st : State) (query : string) (threshold : Q) (limit : Z)
  (A B : string) :
  A <> B ->
  (forall r : CompanyBrainEmbedding.t,
      In r (company_brain_embeddings st) ->
      CompanyBrainEmbedding.user_id r = A ->
      exists results st',
        searchSimilarContent w B query threshold limit st = (Normal results, st') /\
        ~ In r (map row results)) /\
  (forall projectId : string,
      exists results st',
        searchProjectContent w projectId query threshold limit st
        = (Normal results, st') /\
        (forall r, In r (map row results) ->
                   In r (project_embeddings st) /\
                   ProjectEmbeddingData.project_id r = projectId) /\
        ((forall r, In r (project_embeddings st) ->
                    ProjectEmbeddingData.project_id r = projectId ->
                    ProjectEmbeddingData.company_id r = B) ->
         forall r, ProjectEmbeddingData.company_id r = A ->
                   ~ In r (map row results))).
Proof.
  intros HAB. split.
  - intros r _ Hr.
    destruct (search_run w "match_company_brain_documents"
                "Error searching similar content:" B query
                match_company_brain_documents threshold limit st)
      as (results & evs & Hrun & Hin & _).
    exists results, (log st evs). split; [exact Hrun|].
    intros Hr'. apply in_map_iff in Hr'. destruct Hr' as (x & Hx & Hxin).
    destruct (Hin x Hxin) as (e & evs0 & Hrank).
    apply rank_in_scope in Hrank. destruct Hrank as [Hscope _].
    simpl in Hscope. apply String.eqb_eq in Hscope. congruence.
  - intros projectId.
    destruct (search_run w "match_project_documents"
                "Error searching project content:" projectId query
                match_project_documents threshold limit st)
      as (results & evs & Hrun & Hin & _).
    exists results, (log st evs). split; [exact Hrun|].
    assert (Hscope : forall r, In r (map row results) ->
                               In r (project_embeddings st) /\
                               ProjectEmbeddingData.project_id r = projectId).
    { intros r Hr. apply in_map_iff in Hr. destruct Hr as (x & <- & Hxin).
      destruct (Hin x Hxin) as (e & evs0 & Hrank).
      apply rank_in_scope in Hrank. destruct Hrank as [Hs Hstored].
      simpl in Hs. apply String.eqb_eq in Hs. now split. }
    split; [exact Hscope|].
    intros Hconsistent r HrA Hr.
    destruct (Hscope r Hr) as [Hstored Hp].
    specialize (Hconsistent r Hstored Hp). congruence.
Qed.

Lemma search_scoped_by_user_and_project_witness :
  (exists results st',
      searchSimilarContent world_ok "bob" "What industry is Acme in?"
        default_threshold default_limit crowded_state = (Normal results, st') /\
      ~ In (company_row "alice" "Company: Acme" (Some [1%Q; 0%Q])) (map row results)) /\
  (exists results st',
      searchProjectContent world_ok "p2" "What industry is Acme in?"
        default_threshold default_limit crowded_state = (Normal results, st') /\
      (forall r, In r (map row results) ->
                 In r (project_embeddings crowded_state) /\
                 ProjectEmbeddingData.project_id r = "p2") /\
      ~ In (project_row "p1" "acme" "Project: Old" (Some [1%Q; 0%Q])) (map row results)).
Proof.
  assert (Hne : "acme" <> "bolt") by discriminate.
  assert (Hne' : "alice" <> "bob") by discriminate.
  split.
  - apply (proj1 (search_scoped_by_user_and_project world_ok crowded_state
                    "What industry is Acme in?" default_threshold default_limit
                    "alice" "bob" Hne'));
      [simpl; auto | reflexivity].
  - destruct (proj2 (search_scoped_by_user_and_project world_ok crowded_state
                       "What industry is Acme in?" default_threshold default_limit
                       "acme" "bolt" Hne) "p2")
      as (results & st' & Hrun & Hscope & Htenant).
    exists results, st'. split; [exact Hrun|]. split; [exact Hscope|].
    apply Htenant; [|reflexivity].
    intros r Hin Hp. simpl in Hin.
    destruct Hin as [<- | [<- | [<- | []]]]; simpl in Hp |- *;
      solve [discriminate Hp | reflexivity].
Defined.

(** The searches do return the records of their own scope. *)
Example search_own_scope :
  fst (searchSimilarContent world_ok "bob" "What industry is Acme in?"
         default_threshold default_limit crowded_state)
  = Normal [{| row := company_row "bob" "Company: Bolt" (Some [1%Q; 0%Q]);
               score := dot [1%Q; 0%Q] [1%Q; 0%Q] |}] /\
  fst (searchProjectContent world_ok "p1" "What industry is Acme in?"
         (1 # 2) 1 crowded_state)
  = Normal [{| row := project_row "p1" "acme" "Project: Old" (Some [1%Q; 0%Q]);
               score := dot [1%Q; 0%Q] [1%Q; 0%Q] |}].
Proof. split; reflexivity. Qed.

End SearchSpec.

(** ** The batch jobs *)

Module BatchSpec.
Import Js Runtime Supabase Edge Observe JsFacts ClientFacts Samples.

Lemma for_of_app {S A B : Type} (xs ys : list A) (body : B -> A -> M S B)
  (acc : B) (st : S) :
  for_of (xs ++ ys) body acc st =
  match for_of xs body acc st with
  | (Normal a, st') => for_of ys body a st'
  | (Throw e, st') => (Throw e, st')
  end.
Proof.
  revert acc st. induction xs as [|x xs IH]; intros acc st; simpl.
  - reflexivity.
  - unfold bind. destruct (body acc x st) as [[a | e] st'].
    + apply IH.
    + reflexivity.
Qed.

(** A loop whose iteration on [x] throws ends there: what comes after [x]
    plays no part. *)
Lemma for_of_aborts {S A B : Type} (before after : list A) (x : A)
  (body : B -> A -> M S B) (acc a : B) (st st1 st2 : S) (e : JsThrown) :
  for_of before body acc st = (Normal a, st1) ->
  body a x st1 = (Throw e, st2) ->
  for_of (before ++ x :: after) body acc st = (Throw e, st2).
Proof.
  intros Hbefore Hx. rewrite for_of_app, Hbefore.
  simpl. unfold bind. now rewrite Hx.
Qed.

Lemma admitted_checks (w : World) (req : Request) :
  admitted w req = true ->
  is_preflight req = false /\ truthy_opt (authorization req) = true /\
  truthy_opt (GEMINI_API_KEY w) = true.
Proof.
  unfold admitted. intros H.
  apply andb_true_iff in H. destruct H as [H Hk].
  apply andb_true_iff in H. destruct H as [Hp Ha].
  apply negb_true_iff in Hp. now repeat split.
Qed.

(** A non-success answer of the provider makes the embedding call of the
    functions throw. *)
Lemma generateEmbedding_throws (w : World) (text : string) (st : State)
  (status : nat) (statusText : string) (body : JsonOutcome) :
  fetch w text = FetchResponds false status statusText body ->
  Edge.generateEmbedding w text st
  = (Throw (ThrownError ("Gemini API error: " +++ statusText)),
     log st [fetch_call text]).
Proof.
  intros H. unfold Edge.generateEmbedding, Embeddings.do_fetch, bind.
  rewrite emit_log. cbn [ret]. now rewrite H.
Qed.

(** *** The project job *)

Section ProjectJob.
Import RegenerateProjectEmbeddings.
Variable w : World.
Variable src : Sources.

Lemma project_serve_aborts (req : Request) (st st1 st2 : State)
  (before after : list Project.t) (p : Project.t) (counts : Counts) (e : JsThrown) :
  admitted w req = true ->
  projects src = {| data := Some (before ++ p :: after); error := None |} ->
  for_of before (regenerate_project w src) (0, 0) (started st)
  = (Normal counts, st1) ->
  regenerate_project w src counts p st1 = (Throw e, st2) ->
  serve w src req st
  = (Normal (error_response e),
     log st2 [console_error [PString "Error regenerating project embeddings:";
                             PThrown e]]).
Proof.
  intros Hadm Hsrc Hbefore Hp.
  destruct (admitted_checks w req Hadm) as (Hpre & Hauth & Hkey).
  unfold serve. rewrite Hpre, Hauth, Hkey, Hsrc. cbn [negb data error].
  unfold try_catch, bind. cbn [ret throw_if_error list_or_empty].
  rewrite emit_log. fold (started st).
  rewrite (for_of_aborts before after p _ _ counts _ st1 st2 e Hbefore Hp).
  rewrite emit_log. reflexivity.
Qed.

Lemma project_serve_completes (req : Request) (st st1 : State) (counts : Counts) :
  admitted w req = true ->
  error (projects src) = None ->
  for_of (list_or_empty (data (projects src))) (regenerate_project w src) (0, 0)
         (started st)
  = (Normal counts, st1) ->
  serve w src req st
  = (Normal (success_response
               (Z.of_nat (length (list_or_empty (data (projects src))))) counts),
     st1).
Proof.
  intros Hadm Herr Hall.
  destruct (admitted_checks w req Hadm) as (Hpre & Hauth & Hkey).
  unfold serve. rewrite Hpre, Hauth, Hkey, Herr. cbn [negb].
  unfold try_catch, bind. cbn [ret throw_if_error].
  rewrite emit_log. fold (started st). rewrite Hall. reflexivity.
Qed.

Lemma project_read_failures_skipped (p : Project.t) (counts : Counts) (st : State)
  (e : JsThrown) :
  (error (project_metadata src (Project.id p)) = Some e ->
   regenerate_metadata w src counts p st = (Normal counts, st)) /\
  (error (project_documents src (Project.id p)) = Some e ->
   regenerate_documents w src counts p st = (Normal counts, st)).
Proof.
  split; intros H.
  - unfold regenerate_metadata. now rewrite H.
  - unfold regenerate_documents. now rewrite H.
Qed.

Lemma project_embedding_failure_throws (p : Project.t) (counts : Counts) (st : State)
  (metadata : ProjectMetadata.t) (status : nat) (statusText : string)
  (body : JsonOutcome) :
  project_metadata src (Project.id p) = {| data := Some metadata; error := None |} ->
  db_outcome w (DeleteProject
                  [ProjectEmbeddingData.eq_project_id (Project.id p);
                   ProjectEmbeddingData.eq_content_type Supabase.project_metadata])
  = Applied ->
  fetch w (prepareProjectMetadataForEmbedding metadata (Project.project_name p))
  = FetchResponds false status statusText body ->
  exists st',
    regenerate_project w src counts p st
    = (Throw (ThrownError ("Gemini API error: " +++ statusText)), st') /\
    project_embeddings st' =
      filter (fun r =>
                negb (String.eqb (ProjectEmbeddingData.project_id r) (Project.id p)
                      && ContentType_eqb (ProjectEmbeddingData.content_type r)
                                         Supabase.project_metadata))
             (project_embeddings st).
Proof.
  intros Hm Hdel Hfetch.
  unfold regenerate_project, regenerate_metadata, bind.
  rewrite emit_log, Hm. cbn [data error]. unfold bind, write. rewrite Hdel.
  rewrite (generateEmbedding_throws w _ _ status statusText body Hfetch).
  eexists. split; [reflexivity|]. simpl.
  apply filter_ext. intros r. now rewrite andb_true_r.
Qed.

End ProjectJob.

(** *** The company job *)

Section CompanyJob.
Import RegenerateEmbeddings.
Variable w : World.
Variable src : Sources.

Lemma company_serve_aborts (req : Request) (st st1 st2 : State)
  (before after : list CompanyBrain.t) (b : CompanyBrain.t) (e : JsThrown) :
  admitted w req = true ->
  company_brain src = {| data := Some (before ++ b :: after); error := None |} ->
  for_of before (regenerate_brain w) tt (started st) = (Normal tt, st1) ->
  regenerate_brain w tt b st1 = (Throw e, st2) ->
  serve w src req st
  = (Normal (error_response e),
     log st2 [console_error [PString "Error regenerating embeddings:"; PThrown e]]).
Proof.
  intros Hadm Hsrc Hbefore Hb.
  destruct (admitted_checks w req Hadm) as (Hpre & Hauth & Hkey).
  unfold serve, sweep. rewrite Hpre, Hauth, Hkey, Hsrc. cbn [negb data error].
  unfold try_catch, bind. cbn [ret throw_if_error list_or_empty].
  rewrite emit_log. fold (started st).
  rewrite (for_of_aborts before after b _ _ tt _ st1 st2 e Hbefore Hb).
  rewrite emit_log. reflexivity.
Qed.

Lemma company_serve_aborts_on_document (req : Request) (st st0 st1 st2 : State)
  (before after : list BrainDocument.t) (d : BrainDocument.t) (e : JsThrown) :
  admitted w req = true ->
  error (company_brain src) = None ->
  for_of (list_or_empty (data (company_brain src))) (regenerate_brain w) tt
         (started st) = (Normal tt, st0) ->
  brain_documents src = {| data := Some (before ++ d :: after); error := None |} ->
  for_of before (regenerate_document w) tt st0 = (Normal tt, st1) ->
  regenerate_document w tt d st1 = (Throw e, st2) ->
  serve w src req st
  = (Normal (error_response e),
     log st2 [console_error [PString "Error regenerating embeddings:"; PThrown e]]).
Proof.
  intros Hadm Herr Hbrains Hsrc Hbefore Hd.
  destruct (admitted_checks w req Hadm) as (Hpre & Hauth & Hkey).
  unfold serve, sweep. rewrite Hpre, Hauth, Hkey, Herr, Hsrc. cbn [negb data error].
  unfold try_catch, bind. cbn [ret throw_if_error list_or_empty].
  rewrite emit_log. fold (started st). rewrite Hbrains.
  rewrite (for_of_aborts before after d _ _ tt _ st1 st2 e Hbefore Hd).
  rewrite emit_log. reflexivity.
Qed.

Lemma company_serve_completes (req : Request) (st st1 : State) :
  admitted w req = true ->
  sweep w src (started st) = (Normal tt, st1) ->
  serve w src req st
  = (Normal (success_response
               (Z.of_nat (length (list_or_empty (data (company_brain src)))))
               (Z.of_nat (length (list_or_empty (data (brain_documents src)))))),
     st1).
Proof.
  intros Hadm Hsweep.
  destruct (admitted_checks w req Hadm) as (Hpre & Hauth & Hkey).
  unfold serve. rewrite Hpre, Hauth, Hkey. cbn [negb].
  unfold try_catch, bind at 1 2 3. cbn [ret].
  rewrite emit_log. fold (started st). rewrite Hsweep. reflexivity.
Qed.

Lemma company_embedding_failure_throws (b : CompanyBrain.t) (st : State)
  (status : nat) (statusText : string) (body : JsonOutcome) :
  db_outcome w (DeleteCompany
                  [CompanyBrainEmbedding.eq_user_id (CompanyBrain.user_id b);
                   CompanyBrainEmbedding.eq_content_type Supabase.company_info])
  = Applied ->
  fetch w (prepareCompanyInfoForEmbedding b)
  = FetchResponds false status statusText body ->
  exists st',
    regenerate_brain w tt b st
    = (Throw (ThrownError ("Gemini API error: " +++ statusText)), st') /\
    company_brain_embeddings st' =
      filter (fun r =>
                negb (String.eqb (CompanyBrainEmbedding.user_id r) (CompanyBrain.user_id b)
                      && ContentType_eqb (CompanyBrainEmbedding.content_type r)
                                         Supabase.company_info))
             (company_brain_embeddings st).
Proof.
  intros Hdel Hfetch.
  unfold regenerate_brain, bind, write. rewrite Hdel.
  rewrite (generateEmbedding_throws w _ _ status statusText body Hfetch).
  eexists. split; [reflexivity|]. simpl.
  apply filter_ext. intros r. now rewrite andb_true_r.
Qed.

End CompanyJob.

Module P := RegenerateProjectEmbeddings.
Module C := RegenerateEmbeddings.

(** C5, as stated, fails: with two projects, of which the first meets a
    provider that answers 500, the project job does not return its counts
    and does not go on to the second project; it answers 500. *)
Lemma regenerate_not_failure_tolerant :
  ~ (forall (w : World) (src : P.Sources) (req : Request) (st : State),
        admitted w req = true ->
        error (P.projects src) = None ->
        exists counts st',
          P.serve w src req st
          = (Normal (P.success_response
                       (Z.of_nat (length (P.list_or_empty (data (P.projects src)))))
                       counts), st') /\
          forall p, In p (P.list_or_empty (data (P.projects src))) ->
                    In (console_log [PString ("Processing project: "
                                              +++ P.Project.project_name p)])
                       (events st')).
Proof.
  intros H.
  destruct (H world_alpha_fails project_sources cron_request crowded_state
              eq_refl eq_refl) as (counts & st' & Hrun & _).
  vm_compute in Hrun. discriminate Hrun.
Qed.

(** C5, amended: the batch jobs have no catch per entity.  In the project
    job a failed read of the metadata or of the documents of one project is
    skipped and the sweep goes on.  An exception raised while one entity is
    processed, as a non-success answer of the embedding provider raises after
    the old embedding was deleted, ends the sweep: the entities after it are
    not processed and the job answers 500 with the message of the error
    instead of its counts.  The job answers 200 with its aggregate counts
    when no entity raises. *)
Theorem sweep_ends_at_first_exception (w : World) :
  (* project job: an exception in one project ends the sweep *)
  (forall (src : P.Sources) (req : Request) (st st1 st2 : State)
          (before after : list P.Project.t) (p : P.Project.t)
          (counts : P.Counts) (e : JsThrown),
      admitted w req = true ->
      P.projects src = {| data := Some (before ++ p :: after); error := None |} ->
      for_of before (P.regenerate_project w src) (0, 0) (P.started st)
      = (Normal counts, st1) ->
      P.regenerate_project w src counts p st1 = (Throw e, st2) ->
      P.serve w src req st
      = (Normal (P.error_response e),
         log st2 [console_error [PString "Error regenerating project embeddings:";
                                 PThrown e]])) /\
  (* project job: a failed embedding call is such an exception *)
  (forall (src : P.Sources) (p : P.Project.t) (counts : P.Counts) (st : State)
          (metadata : P.ProjectMetadata.t) (status : nat) (statusText : string)
          (body : JsonOutcome),
      P.project_metadata src (P.Project.id p)
      = {| data := Some metadata; error := None |} ->
      db_outcome w (DeleteProject
                      [ProjectEmbeddingData.eq_project_id (P.Project.id p);
                       ProjectEmbeddingData.eq_content_type Supabase.project_metadata])
      = Applied ->
      fetch w (P.prepareProjectMetadataForEmbedding metadata (P.Project.project_name p))
      = FetchResponds false status statusText body ->
      exists st',
        P.regenerate_project w src counts p st
        = (Throw (ThrownError ("Gemini API error: " +++ statusText)), st') /\
        project_embeddings st' =
          filter (fun r =>
                    negb (String.eqb (ProjectEmbeddingData.project_id r) (P.Project.id p)
                          && ContentType_eqb (ProjectEmbeddingData.content_type r)
                                             Supabase.project_metadata))
                 (project_embeddings st)) /\
  (* project job: failed reads are skipped *)
  (forall (src : P.Sources) (p : P.Project.t) (counts : P.Counts) (st : State)
          (e : JsThrown),
      (error (P.project_metadata src (P.Project.id p)) = Some e ->
       P.regenerate_metadata w src counts p st = (Normal counts, st)) /\
      (error (P.project_documents src (P.Project.id p)) = Some e ->
       P.regenerate_documents w src counts p st = (Normal counts, st))) /\
  (* project job: without exception the counts are returned *)
  (forall (src : P.Sources) (req : Request) (st st1 : State) (counts : P.Counts),
      admitted w req = true ->
      error (P.projects src) = None ->
      for_of (P.list_or_empty (data (P.projects src))) (P.regenerate_project w src)
             (0, 0) (P.started st)
      = (Normal counts, st1) ->
      P.serve w src req st
      = (Normal (P.success_response
                   (Z.of_nat (length (P.list_or_empty (data (P.projects src)))))
                   counts), st1)) /\
  (* company job: an exception in one company brain ends the sweep *)
  (forall (src : C.Sources) (req : Request) (st st1 st2 : State)
          (before after : list C.CompanyBrain.t) (b : C.CompanyBrain.t)
          (e : JsThrown),
      admitted w req = true ->
      C.company_brain src = {| data := Some (before ++ b :: after); error := None |} ->
      for_of before (C.regenerate_brain w) tt (C.started st) = (Normal tt, st1) ->
      C.regenerate_brain w tt b st1 = (Throw e, st2) ->
      C.serve w src req st
      = (Normal (C.error_response e),
         log st2 [console_error [PString "Error regenerating embeddings:";
                                 PThrown e]])) /\
  (* company job: an exception in one document ends the sweep *)
  (forall (src : C.Sources) (req : Request) (st st0 st1 st2 : State)
          (before after : list C.BrainDocument.t) (d : C.BrainDocument.t)
          (e : JsThrown),
      admitted w req = true ->
      error (C.company_brain src) = None ->
      for_of (C.list_or_empty (data (C.company_brain src))) (C.regenerate_brain w) tt
             (C.started st) = (Normal tt, st0) ->
      C.brain_documents src = {| data := Some (before ++ d :: after); error := None |} ->
      for_of before (C.regenerate_document w) tt st0 = (Normal tt, st1) ->
      C.regenerate_document w tt d st1 = (Throw e, st2) ->
      C.serve w src req st
      = (Normal (C.error_response e),
         log st2 [console_error [PString "Error regenerating embeddings:";
                                 PThrown e]])) /\
  (* company job: a failed embedding call is such an exception *)
  (forall (b : C.CompanyBrain.t) (st : State) (status : nat) (statusText : string)
          (body : JsonOutcome),
      db_outcome w (DeleteCompany
                      [CompanyBrainEmbedding.eq_user_id (C.CompanyBrain.user_id b);
                       CompanyBrainEmbedding.eq_content_type Supabase.company_info])
      = Applied ->
      fetch w (C.prepareCompanyInfoForEmbedding b)
      = FetchResponds false status statusText body ->
      exists st',
        C.regenerate_brain w tt b st
        = (Throw (ThrownError ("Gemini API error: " +++ statusText)), st') /\
        company_brain_embeddings st' =
          filter (fun r =>
                    negb (String.eqb (CompanyBrainEmbedding.user_id r)
                                     (C.CompanyBrain.user_id b)
                          && ContentType_eqb (CompanyBrainEmbedding.content_type r)
                                             Supabase.company_info))
                 (company_brain_embeddings st)) /\
  (* company job: without exception the counts are returned *)
  (forall (src : C.Sources) (req : Request) (st st1 : State),
      admitted w req = true ->
      C.sweep w src (C.started st) = (Normal tt, st1) ->
      C.serve w src req st
      = (Normal (C.success_response
                   (Z.of_nat (length (C.list_or_empty (data (C.company_brain src)))))
                   (Z.of_nat (length (C.list_or_empty (data (C.brain_documents src)))))),
         st1)).
Proof.
  split; [exact (project_serve_aborts w)|].
  split; [exact (project_embedding_failure_throws w)|].
  split; [exact (project_read_failures_skipped w)|].
  split; [exact (project_serve_completes w)|].
  split; [exact (company_serve_aborts w)|].
  split; [exact (company_serve_aborts_on_document w)|].
  split; [exact (company_embedding_failure_throws w)|].
  exact (company_serve_completes w).
Qed.

Lemma sweep_ends_at_first_exception_witness :
  P.serve world_alpha_fails project_sources cron_request crowded_state
  = (Normal {| P.status := 500;
               P.body := P.ErrorBody "Gemini API error: Internal Server Error" |},
     log (snd (P.regenerate_project world_alpha_fails project_sources (0, 0)
                 project_alpha (P.started crowded_state)))
         [console_error
            [PString "Error regenerating project embeddings:";
             PThrown (ThrownError "Gemini API error: Internal Server Error")]]) /\
  C.serve world_alpha_fails company_sources cron_request crowded_state
  = (Normal {| C.status := 500;
               C.body := C.ErrorBody "Gemini API error: Internal Server Error" |},
     log (snd (C.regenerate_brain world_alpha_fails tt (brain_of "alice" "Alpha")
                 (C.started crowded_state)))
         [console_error
            [PString "Error regenerating embeddings:";
             PThrown (ThrownError "Gemini API error: Internal Server Error")]]).
Proof.
  split.
  - apply (proj1 (sweep_ends_at_first_exception world_alpha_fails)
             project_sources cron_request crowded_state (P.started crowded_state)
             _ [] [project_beta] project_alpha (0, 0)
             (ThrownError "Gemini API error: Internal Server Error"));
      reflexivity.
  - apply (proj1 (proj2 (proj2 (proj2 (proj2
                   (sweep_ends_at_first_exception world_alpha_fails)))))
             company_sources cron_request crowded_state (C.started crowded_state)
             _ [] [brain_of "bob" "Bolt"] (brain_of "alice" "Alpha")
             (ThrownError "Gemini API error: Internal Server Error"));
      reflexivity.
Defined.

(** What the failing sweep leaves behind: the stale metadata embeddings of
    the first project are deleted and not replaced, and the second project is
    never visited. *)
Example failing_sweep_state :
  project_embeddings
    (snd (P.serve world_alpha_fails project_sources cron_request crowded_state))
  = [project_row "p2" "bolt" "Project: Other" (Some [1%Q; 0%Q])] /\
  ~ In (console_log [PString "Processing project: Beta"])
       (events (snd (P.serve world_alpha_fails project_sources cron_request
                       crowded_state))).
Proof.
  split; [reflexivity|].
  vm_compute. intros H.
  repeat (destruct H as [H | H]; [discriminate H|]). exact H.
Qed.

(** With a working provider the same sweep visits both projects and returns
    its counts. *)
Example working_sweep_counts :
  fst (P.serve world_ok project_sources cron_request crowded_state)
  = Normal (P.success_response 2 (2, 0)).
Proof. reflexivity. Qed.

End BatchSpec.

(* ================================================================== *)
(** * Part III: further properties of the code *)
(* ================================================================== *)

(** ** What the chunkers keep *)

Module ChunkerContent.
Import Js Chunker Content JsFacts.

Lemma visible_append (a b : string) : visible (a +++ b) = visible a +++ visible b.
Proof.
  induction a as [|c a IH]; simpl; [reflexivity|].
  destruct (is_whitespace c); simpl; now rewrite IH.
Qed.

Lemma visible_trimStart (s : string) : visible (trimStart s) = visible s.
Proof.
  induction s as [|c s IH]; simpl; [reflexivity|].
  destruct (is_whitespace c) eqn:E; [exact IH|]. simpl. now rewrite E.
Qed.

Lemma visible_trimEnd (s : string) : visible (trimEnd s) = visible s.
Proof.
  induction s as [|c s IH]; simpl; [reflexivity|].
  destruct (trimEnd s) as [|d t] eqn:E.
  - simpl in IH. destruct (is_whitespace c) eqn:Ec; simpl; rewrite ?Ec; now rewrite <- IH.
  - remember (String d t) as u. simpl. now rewrite IH.
Qed.

Lemma visible_trim (s : string) : visible (trim s) = visible s.
Proof. unfold trim. now rewrite visible_trimStart, visible_trimEnd. Qed.

Lemma concat_all_app (xs ys : list string) :
  concat_all (xs ++ ys) = concat_all xs +++ concat_all ys.
Proof.
  induction xs as [|x xs IH]; simpl; [reflexivity|].
  now rewrite IH, append_assoc.
Qed.

Lemma visible_join_LFLF (ps : list string) :
  visible (join LFLF ps) = concat_all (map visible ps).
Proof.
  induction ps as [|p ps IH]; [reflexivity|].
  destruct ps as [|q ps].
  - simpl. now rewrite append_empty_r.
  - rewrite join_cons by congruence.
    rewrite !visible_append, IH. reflexivity.
Qed.

(** The loop keeps, in chunks and buffer together, the visible characters
    of the paragraphs met so far. *)
Lemma paragraph_loop_visible (maxChunkSize : Z) (ps : list string) :
  forall (chunks : list string) (cur : string),
    visible (concat_all (fst (fold_left (paragraph_step maxChunkSize) ps (chunks, cur)))
             +++ snd (fold_left (paragraph_step maxChunkSize) ps (chunks, cur)))
    = visible (concat_all chunks +++ cur) +++ concat_all (map visible ps).
Proof.
  induction ps as [|p ps IH]; intros chunks cur; cbn [fold_left map concat_all fold_right].
  - now rewrite append_empty_r.
  - unfold paragraph_step at 2 4.
    destruct ((len cur + len p >? maxChunkSize) && truthy cur).
    + rewrite IH. cbn [String.append].
      rewrite !visible_append, concat_all_app, !visible_append. cbn [concat_all fold_right].
      rewrite append_empty_r, visible_trim.
      change (visible LFLF) with EmptyString. rewrite append_empty_r.
      now rewrite !append_assoc.
    + rewrite IH. rewrite !visible_append.
      change (visible LFLF) with EmptyString. rewrite append_empty_r.
      now rewrite !append_assoc.
Qed.

Lemma chunk_paragraphs_visible (maxChunkSize : Z) (ps : list string) :
  visible (concat_all (chunk_paragraphs maxChunkSize ps)) = concat_all (map visible ps).
Proof.
  unfold chunk_paragraphs.
  pose proof (paragraph_loop_visible maxChunkSize ps [] EmptyString) as H.
  destruct (fold_left _ _ _) as [chunks cur]. cbn [fst snd] in H.
  cbn [concat_all fold_right String.append visible] in H.
  rewrite <- H. unfold paragraph_flush. rewrite visible_append.
  destruct (truthy (trim cur)) eqn:Ht.
  - rewrite concat_all_app, visible_append. cbn [concat_all fold_right].
    now rewrite append_empty_r, visible_trim.
  - apply truthy_false_iff in Ht.
    rewrite <- (visible_trim cur), Ht. cbn [visible]. now rewrite append_empty_r.
Qed.

(** X1: the paragraph chunkers lose nothing but white space.  For every
    text and every bound, the chunks of [chunkText] and of
    [chunkProjectText], put end to end, hold exactly the characters of the
    text that are not white space, in their order. *)
Theorem paragraph_chunks_keep_visible (text : string) (maxChunkSize : Z) :
  visible (concat_all (chunkText text maxChunkSize)) = visible text /\
  visible (concat_all (chunkProjectText text maxChunkSize)) = visible text.
Proof.
  assert (H : visible (concat_all (chunk_paragraphs maxChunkSize (split_LFLF text)))
              = visible text).
  { rewrite chunk_paragraphs_visible, <- visible_join_LFLF.
    now rewrite join_split_LFLF. }
  now split.
Qed.

End ChunkerContent.

(** ** What the sentence chunker keeps *)

Module SentenceContent.
Import Js Chunker Content JsFacts ChunkerContent.

Lemma plain_append (a b : string) : plain (a +++ b) = plain a +++ plain b.
Proof.
  induction a as [|c a IH]; simpl; [reflexivity|].
  destruct (is_punctuation c); simpl; now rewrite IH.
Qed.

Lemma plain_visible (s : string) : plain (visible s) = plain s.
Proof.
  induction s as [|c s IH]; simpl; [reflexivity|].
  unfold is_punctuation. destruct (is_whitespace c) eqn:E; simpl; [exact IH|].
  unfold is_punctuation. rewrite E. simpl. now rewrite IH.
Qed.

Lemma plain_trim (s : string) : plain (trim s) = plain s.
Proof. now rewrite <- plain_visible, visible_trim, plain_visible. Qed.

Lemma plain_concat_all (parts : list string) :
  plain (concat_all parts) = concat_all (map plain parts).
Proof.
  induction parts as [|p parts IH]; simpl; [reflexivity|].
  now rewrite plain_append, IH.
Qed.

Lemma prefix_all_run (p : ascii -> bool) (s : string) :
  prefix_all p (run_length p s) s = true.
Proof.
  induction s as [|c s IH]; simpl; [reflexivity|].
  destruct (p c) eqn:E; simpl; [now rewrite E | reflexivity].
Qed.

Lemma prefix_all_weaken (p q : ascii -> bool) (n : nat) (s : string) :
  (forall c, p c = true -> q c = true) ->
  prefix_all p n s = true -> prefix_all q n s = true.
Proof.
  intros Hpq. revert s. induction n as [|n IH]; intros [|c s]; simpl; try reflexivity.
  intros H. apply andb_true_iff in H. destruct H as [Hc Hs].
  now rewrite (Hpq c Hc), (IH s Hs).
Qed.

Lemma prefix_all_add (p : ascii -> bool) (n m : nat) (s : string) :
  prefix_all p n s = true -> prefix_all p m (drop n s) = true ->
  prefix_all p (n + m) s = true.
Proof.
  revert s. induction n as [|n IH]; intros s Hn Hm.
  - simpl in *. now destruct s.
  - destruct s as [|c s]; [reflexivity|]. simpl in *.
    apply andb_true_iff in Hn. destruct Hn as [Hc Hs].
    now rewrite Hc, (IH s Hs Hm).
Qed.

(** A separator is made of punctuation only and is not empty. *)
Lemma separator_at_punctuation (s : string) (n : nat) :
  separator_at s = Some n ->
  exists m, n = S m /\ prefix_all is_punctuation n s = true.
Proof.
  unfold separator_at.
  destruct (run_length is_terminator s) as [|t] eqn:Et; [discriminate|].
  destruct (run_length is_whitespace (drop (S t) s)) as [|w] eqn:Ew; [discriminate|].
  intros H. inversion H; subst. exists (t + S w)%nat. split; [reflexivity|].
  change (S (t + S w)) with (S t + S w)%nat.
  apply prefix_all_add.
  - apply (prefix_all_weaken is_terminator).
    + intros c Hc. unfold is_punctuation. now rewrite Hc, orb_true_r.
    + rewrite <- Et. apply prefix_all_run.
  - apply (prefix_all_weaken is_whitespace).
    + intros c Hc. unfold is_punctuation. now rewrite Hc.
    + rewrite <- Ew. apply prefix_all_run.
Qed.

Lemma concat_all_cons_head (c : ascii) (l : list string) :
  concat_all (cons_head c l) = String c (concat_all l).
Proof. destruct l; reflexivity. Qed.

(** The pieces of the split hold the plain characters of the text. *)
Lemma split_sentences_from_plain (s : string) :
  forall skip, prefix_all is_punctuation skip s = true ->
               plain (concat_all (split_sentences_from skip s)) = plain s.
Proof.
  induction s as [|c s IH]; intros skip Hskip; [reflexivity|].
  cbn [split_sentences_from]. destruct skip as [|k].
  - destruct (separator_at (String c s)) as [n|] eqn:Hsep.
    + destruct (separator_at_punctuation _ _ Hsep) as (m & -> & Hm).
      cbn [Nat.pred].
      change (concat_all (EmptyString :: split_sentences_from m s))
        with (concat_all (split_sentences_from m s)).
      simpl in Hm. apply andb_true_iff in Hm. destruct Hm as [Hc Hm].
      rewrite (IH m Hm). simpl. now rewrite Hc.
    + rewrite concat_all_cons_head. simpl. now rewrite (IH O eq_refl).
  - simpl in Hskip. apply andb_true_iff in Hskip. destruct Hskip as [Hc Hk].
    rewrite (IH k Hk). simpl. now rewrite Hc.
Qed.

Lemma sentence_loop_plain (maxLength : Z) (ss : list string) :
  forall (chunks : list string) (cur : string),
    plain (concat_all (fst (fold_left (sentence_step maxLength) ss (chunks, cur)))
           +++ snd (fold_left (sentence_step maxLength) ss (chunks, cur)))
    = plain (concat_all chunks +++ cur) +++ concat_all (map plain ss).
Proof.
  induction ss as [|s ss IH]; intros chunks cur; cbn [fold_left map concat_all fold_right].
  - now rewrite append_empty_r.
  - unfold sentence_step at 2 4.
    destruct (len (cur +++ s) <=? maxLength).
    + rewrite IH, !plain_append.
      change (plain period_space) with EmptyString. rewrite append_empty_r.
      now rewrite !append_assoc.
    + rewrite IH. destruct (truthy cur) eqn:Ht.
      * rewrite !plain_append, concat_all_app, !plain_append.
        cbn [concat_all fold_right]. rewrite append_empty_r, plain_trim.
        change (plain period_space) with EmptyString. rewrite append_empty_r.
        now rewrite !append_assoc.
      * apply truthy_false_iff in Ht. subst cur.
        rewrite !plain_append. cbn [plain].
        change (plain period_space) with EmptyString.
        now rewrite !append_empty_r, !append_assoc.
Qed.

(** X2: the sentence chunker of the regeneration job keeps every character
    that is neither white space nor one of [.], [!], [?].  For every text
    and bound, the chunks put end to end hold exactly those characters of the
    text, in their order; what it changes is punctuation and spacing only. *)
Theorem sentence_chunks_keep_plain (text : string) (maxLength : Z) :
  plain (concat_all (chunkText_sentences text maxLength)) = plain text.
Proof.
  unfold chunkText_sentences.
  destruct (len text <=? maxLength).
  - simpl. now rewrite append_empty_r.
  - pose proof (sentence_loop_plain maxLength (split_sentences text) [] EmptyString) as H.
    destruct (fold_left _ _ _) as [chunks cur]. cbn [fst snd] in H.
    cbn [concat_all fold_right String.append plain] in H.
    rewrite <- plain_concat_all in H.
    unfold split_sentences in H.
    rewrite (split_sentences_from_plain text O eq_refl) in H.
    rewrite <- H. unfold sentence_flush. rewrite plain_append.
    destruct (truthy cur) eqn:Ht.
    + rewrite concat_all_app, plain_append. cbn [concat_all fold_right].
      now rewrite append_empty_r, plain_trim.
    + apply truthy_false_iff in Ht. subst cur. cbn [plain].
      now rewrite append_empty_r.
Qed.

End SentenceContent.

(** ** Bounds of the chunkers *)

Module ChunkerBounds.
Import Js Chunker JsFacts.

(** X3: every chunk returned by the paragraph chunkers [chunkText] and
    [chunkProjectText] is at most [maxChunkSize] long, unless it is one
    paragraph of the text, trimmed, that is itself longer than
    [maxChunkSize]. *)
Theorem paragraph_chunks_bounded (text : string) (maxChunkSize : Z) :
  Forall (chunk_ok maxChunkSize (split_LFLF text)) (chunkText text maxChunkSize) /\
  Forall (chunk_ok maxChunkSize (split_LFLF text)) (chunkProjectText text maxChunkSize).
Proof.
  split; apply ChunkerBound.chunk_paragraphs_ok.
Qed.

(** X4: every chunk returned by the sentence chunker of the regeneration
    functions is at most [maxLength + 1] long (the period it appends is not
    counted by its test), unless it is one sentence of the text, closed by a
    period, that is itself longer than [maxLength]. *)
Theorem sentence_chunks_bounded (text : string) (maxLength : Z) :
  Forall (sentence_chunk_ok maxLength (split_sentences text))
         (chunkText_sentences text maxLength).
Proof. apply ChunkerVariants.chunkText_sentences_bound. Qed.

End ChunkerBounds.

(** ** Calls of the embedding provider *)

Module ProviderCalls.
Import Js Runtime Supabase Embeddings ProjectEmbeddings LibraryRest Observe.
Import JsFacts ClientFacts Samples.

Lemma provider_calls_log (st : State) (evs : list Event) :
  provider_calls (log st evs) = provider_calls st ++ filter is_provider_call evs.
Proof. unfold provider_calls, log; simpl. apply filter_app. Qed.

Lemma provider_calls_apply (op : DbOp) (st : State) :
  provider_calls (apply_op op st) = provider_calls st.
Proof.
  destruct op; try reflexivity.
  unfold provider_calls; simpl. rewrite filter_app. simpl. apply app_nil_r.
Qed.

(** The client sends one request when the key is configured and none when it
    is not; in both cases it returns and changes no table. *)
Lemma generateEmbedding_calls (w : World) (text : string) (st : State) :
  exists result evs,
    generateEmbedding w text st = (Normal result, log st evs) /\
    filter is_provider_call evs =
      (if truthy_opt (VITE_GEMINI_API_KEY w) then [fetch_call text] else []) /\
    Forall (fun e => is_ranking_query e = false) evs.
Proof.
  unfold generateEmbedding, try_catch, do_fetch, bind.
  destruct (truthy_opt (VITE_GEMINI_API_KEY w)) eqn:Hkey; cbn [negb].
  - rewrite emit_log. cbn [ret].
    destruct (fetch w text) as [e | [|] status statusText [e | [type_error | values]]];
      cbn [throw ret read_values negb]; rewrite ?emit_log; cbn [ret];
      rewrite ?log_log;
      (eexists; eexists; split; [reflexivity|]; split;
       [reflexivity | repeat constructor]).
  - rewrite emit_log. cbn [ret].
    eexists; eexists; split; [reflexivity|]. split; [reflexivity | repeat constructor].
Qed.

(** The provider calls of the body shared by the two stores. *)
Lemma guarded_insert_calls (label : string) (w : World) (given : option Vector)
  (content : string) (op : option Vector -> DbOp) (st : State) :
  exists result st',
    guarded label
      (resolved <- resolve_embedding w given content ;;
       match resolved with
       | inr early => ret early
       | inl embedding =>
           error <- write w (op embedding) ;;
           throw_if_error error ;;
           ret succeeded
       end) st = (Normal result, st') /\
    provider_calls st' =
      provider_calls st ++
      match given with
      | Some _ => []
      | None => if truthy_opt (VITE_GEMINI_API_KEY w) then [fetch_call content] else []
      end.
Proof.
  unfold guarded, try_catch, resolve_embedding, bind.
  destruct given as [v|].
  - cbn [ret]. unfold write.
    destruct (db_outcome w (op (Some v))) as [|e|e];
      cbn [throw_if_error ret throw]; rewrite ?emit_log; cbn [ret];
      (eexists; eexists; split; [reflexivity|]);
      rewrite ?provider_calls_apply, ?provider_calls_log; simpl;
      rewrite ?app_nil_r; reflexivity.
  - destruct (generateEmbedding_calls w content st) as (r & evs & Hrun & Hcalls & _).
    rewrite Hrun.
    destruct (truthy_opt (EmbeddingResponse.error r)); cbn [ret].
    + eexists; eexists; split; [reflexivity|].
      now rewrite provider_calls_log, Hcalls.
    + unfold write.
      destruct (db_outcome w (op (EmbeddingResponse.embedding r))) as [|e|e];
        cbn [throw_if_error ret throw]; rewrite ?emit_log; cbn [ret];
        (eexists; eexists; split; [reflexivity|]);
        rewrite ?provider_calls_apply, ?provider_calls_log, ?Hcalls;
        simpl; rewrite ?app_nil_r; reflexivity.
Qed.

(** X5: a store sends at most one request to the embedding provider, for
    the content of the record, and none at all when the caller supplies the
    vector or when no API key is configured.  This holds whatever the
    provider and the database answer. *)
Theorem store_provider_calls (w : World) (st : State) :
  (forall data : CompanyBrainEmbedding.t,
      exists result st',
        storeEmbedding w data st = (Normal result, st') /\
        provider_calls st' =
          provider_calls st ++
          match CompanyBrainEmbedding.embedding data with
          | Some _ => []
          | None => if truthy_opt (VITE_GEMINI_API_KEY w)
                    then [fetch_call (CompanyBrainEmbedding.content data)] else []
          end) /\
  (forall data : ProjectEmbeddingData.t,
      exists result st',
        storeProjectEmbedding w data st = (Normal result, st') /\
        provider_calls st' =
          provider_calls st ++
          match ProjectEmbeddingData.embedding data with
          | Some _ => []
          | None => if truthy_opt (VITE_GEMINI_API_KEY w)
                    then [fetch_call (ProjectEmbeddingData.content data)] else []
          end).
Proof.
  split; intros data.
  - apply (guarded_insert_calls "Error storing embedding:" w
             (CompanyBrainEmbedding.embedding data) (CompanyBrainEmbedding.content data)
             (fun e => InsertCompany (CompanyBrainEmbedding.with_embedding data e))).
  - apply (guarded_insert_calls "Error storing project embedding:" w
             (ProjectEmbeddingData.embedding data) (ProjectEmbeddingData.content data)
             (fun e => InsertProject (ProjectEmbeddingData.with_embedding data e))).
Qed.

End ProviderCalls.

(** ** The searches when the database fails *)

Module SearchFailure.
Import Js Runtime Supabase Embeddings ProjectEmbeddings LibraryRest Observe.
Import JsFacts ClientFacts SearchSpec Samples MoreSamples.

(** The body shared by the three searches, when the ranking call cannot be
    carried out. *)
Lemma search_database_failure {Row : Type} (w : World) (fn label scope_id text : string)
  (ranking : World -> RpcArgs -> State -> list (Match Row))
  (threshold : Q) (limit : Z) (st : State) :
  (forall args, db_outcome w (CallRpc fn args) <> Applied) ->
  exists evs,
    try_catch
      (result <- generateEmbedding w text ;;
       if truthy_opt (EmbeddingResponse.error result) then
         emit (console_error [PString "Error generating query embedding:";
                              printed_opt (EmbeddingResponse.error result)]) ;;
         ret []
       else
         response <- rpc w fn
                       {| query_embedding := EmbeddingResponse.embedding result;
                          scope := scope_id;
                          match_threshold := threshold;
                          match_count := limit |}
                       ranking ;;
         rows_or_empty response)
      (fun error =>
         emit (console_error [PString label; PThrown error]) ;;
         ret []) st
    = (Normal [], log st evs) /\
    exists entry, In (console_error entry) evs.
Proof.
  intros Hdown. unfold try_catch, bind.
  destruct (generateEmbedding_run w text st) as (r & evs0 & Hrun & _ & _).
  rewrite Hrun.
  destruct (truthy_opt (EmbeddingResponse.error r)).
  - rewrite emit_log. cbn [ret]. rewrite log_log.
    eexists. split; [reflexivity|]. eexists. apply in_or_app. right. now left.
  - unfold rpc.
    destruct (db_outcome w _) as [|e|e] eqn:Hdb; [now apply Hdown in Hdb | |];
      unfold rows_or_empty, bind; cbn [snd fst throw_if_error ret throw];
      rewrite apply_rpc_log, emit_log; cbn [ret]; rewrite !log_log;
      (eexists; split; [reflexivity|]); eexists;
      apply in_or_app; right; apply in_or_app; right; now left.
Qed.

(** X6: when the ranking function cannot be called (the rpc reports an
    error or throws), [searchSimilarContent], [searchProjectContent] and
    [searchCompanyProjects] return normally the empty list, write the error
    to the console and leave the tables untouched. *)
Theorem search_database_failure_empty
  (w : World) (st : State) (scope_id query : string) (threshold : Q) (limit : Z) :
  (forall fn args, db_outcome w (CallRpc fn args) <> Applied) ->
  (exists evs entry,
      searchSimilarContent w scope_id query threshold limit st
      = (Normal [], log st evs) /\ In (console_error entry) evs) /\
  (exists evs entry,
      searchProjectContent w scope_id query threshold limit st
      = (Normal [], log st evs) /\ In (console_error entry) evs) /\
  (exists evs entry,
      searchCompanyProjects w scope_id query threshold limit st
      = (Normal [], log st evs) /\ In (console_error entry) evs).
Proof.
  intros Hdown. repeat split.
  - destruct (search_database_failure w "match_company_brain_documents"
                "Error searching similar content:" scope_id query
                match_company_brain_documents threshold limit st
                (Hdown _)) as (evs & Hrun & entry & Hin).
    now exists evs, entry.
  - destruct (search_database_failure w "match_project_documents"
                "Error searching project content:" scope_id query
                match_project_documents threshold limit st
                (Hdown _)) as (evs & Hrun & entry & Hin).
    now exists evs, entry.
  - destruct (search_database_failure w "match_company_projects"
                "Error searching company projects:" scope_id query
                match_company_projects threshold limit st
                (Hdown _)) as (evs & Hrun & entry & Hin).
    now exists evs, entry.
Qed.

Lemma search_database_failure_empty_witness :
  (exists evs entry,
      searchSimilarContent world_rpc_down "alice" "pricing" default_threshold
        default_limit crowded_state
      = (Normal [], log crowded_state evs) /\ In (console_error entry) evs) /\
  (exists evs entry,
      searchProjectContent world_rpc_down "alice" "pricing" default_threshold
        default_limit crowded_state
      = (Normal [], log crowded_state evs) /\ In (console_error entry) evs) /\
  (exists evs entry,
      searchCompanyProjects world_rpc_down "alice" "pricing" default_threshold
        default_limit crowded_state
      = (Normal [], log crowded_state evs) /\ In (console_error entry) evs).
Proof.
  apply (search_database_failure_empty world_rpc_down crowded_state "alice" "pricing"
           default_threshold default_limit).
  intros fn args. simpl. discriminate.
Defined.



End SearchFailure.

(** ** The on-demand function *)

Module OnDemandSpec.
Import Js Runtime Supabase Edge Observe LibraryRest GenerateProjectEmbedding.
Import JsFacts ClientFacts BatchSpec ProviderCalls.

(** The embedding call of the functions logs its request and changes
    nothing else, whether it returns or throws. *)
Lemma edge_generateEmbedding_run (w : World) (text : string) (st : State) :
  exists c, Edge.generateEmbedding w text st = (c, log st [fetch_call text]).
Proof.
  unfold Edge.generateEmbedding, Embeddings.do_fetch, bind.
  rewrite emit_log. cbn [ret].
  destruct (fetch w text) as [e | [|] status statusText [e | [m | v]]];
    cbn [negb throw Embeddings.read_values ret]; eexists; reflexivity.
Qed.

Lemma same_tables_trans (a b c : State) :
  same_tables a b -> same_tables b c -> same_tables a c.
Proof. intros [H1 H2] [H3 H4]. split; congruence. Qed.

(** The two branches answer 200 or leave the tables as they were. *)
Lemma metadata_branch_run (w : World) (inp : Inputs) (request : RequestBody)
  (project : ProjectInfo) (st : State) :
  exists c st',
    metadata_branch w inp request project st = (c, st') /\
    match c with
    | Normal resp => response_status resp = 200
    | Throw _ => same_tables st st'
    end.
Proof.
  unfold metadata_branch, bind.
  destruct (project_metadata inp (project_id request)) as [metadata | e]; cbn [single ret throw].
  2:{ eexists; eexists; split; [reflexivity | apply same_tables_refl]. }
  destruct (edge_generateEmbedding_run w
              (prepareProjectMetadataForEmbedding metadata (project_name project)) st)
    as ([v | e] & Hgen); rewrite Hgen.
  2:{ eexists; eexists; split; [reflexivity | apply same_tables_log]. }
  unfold maybeSingle.
  destruct (if lookup_answered inp then _ else None) as [i|].
  - unfold update. destruct (update_outcome inp) as [|e|e]; rewrite ?emit_log; cbn [ret];
      eexists; eexists; (split; [reflexivity|]); try reflexivity.
    apply same_tables_log.
  - unfold write. destruct (db_outcome w _) as [|e|e]; rewrite ?emit_log; cbn [ret];
      eexists; eexists; (split; [reflexivity|]); try reflexivity.
    apply same_tables_log.
Qed.

Lemma document_branch_run (w : World) (inp : Inputs) (request : RequestBody)
  (project : ProjectInfo) (id : string) (st : State) :
  exists c st',
    document_branch w inp request project id st = (c, st') /\
    match c with
    | Normal resp => response_status resp = 200
    | Throw _ => same_tables st st'
    end.
Proof.
  unfold document_branch, bind.
  destruct (project_documents inp id) as [doc | e]; cbn [single ret throw].
  2:{ eexists; eexists; split; [reflexivity | apply same_tables_refl]. }
  match goal with
  | |- context [Edge.generateEmbedding w ?t st] =>
      destruct (edge_generateEmbedding_run w t st) as ([v | e] & Hgen); rewrite Hgen
  end.
  2:{ eexists; eexists; split; [reflexivity | apply same_tables_log]. }
  unfold maybeSingle.
  destruct (if lookup_answered inp then _ else None) as [i|].
  - unfold update. destruct (update_outcome inp) as [|e|e]; rewrite ?emit_log; cbn [ret];
      eexists; eexists; (split; [reflexivity|]); try reflexivity.
    apply same_tables_log.
  - unfold write. destruct (db_outcome w _) as [|e|e]; rewrite ?emit_log; cbn [ret];
      eexists; eexists; (split; [reflexivity|]); try reflexivity.
    apply same_tables_log.
Qed.

(** X8: the on-demand function always answers, and it changes the
    embedding tables only when it answers 200: on every other path
    (preflight, missing header or key, unreadable body, missing project,
    metadata or document, failed embedding call, rejected write, unknown
    type) both tables are as before. *)
Theorem on_demand_changes_only_on_success
  (w : World) (inp : Inputs) (req : Request) (st : State) :
  exists resp st',
    serve w inp req st = (Normal resp, st') /\
    (response_status resp = 200 \/ same_tables st st').
Proof.
  unfold serve. destruct (is_preflight req).
  { eexists; eexists; split; [reflexivity | right; apply same_tables_refl]. }
  unfold try_catch, bind.
  destruct (truthy_opt (authorization req)); cbn [negb].
  2:{ eexists; eexists; split; [reflexivity | right; apply same_tables_refl]. }
  destruct (truthy_opt (GEMINI_API_KEY w)); cbn [negb ret throw].
  2:{ rewrite emit_log. cbn [ret].
      eexists; eexists; split; [reflexivity | right; apply same_tables_log]. }
  unfold parse. destruct (json inp) as [e | request]; cbn [ret throw].
  { rewrite emit_log. cbn [ret].
    eexists; eexists; split; [reflexivity | right; apply same_tables_log]. }
  destruct (projects inp (project_id request)) as [project | e]; cbn [single ret throw].
  2:{ rewrite emit_log. cbn [ret].
      eexists; eexists; split; [reflexivity | right; apply same_tables_log]. }
  destruct (String.eqb (type request) "metadata").
  - destruct (metadata_branch_run w inp request project st) as ([resp | e] & st' & Hrun & H);
      rewrite Hrun.
    + eexists; eexists; split; [reflexivity | now left].
    + rewrite emit_log. cbn [ret]. eexists; eexists; split; [reflexivity|].
      right. eapply same_tables_trans; [exact H | apply same_tables_log].
  - destruct (document_id request) as [id|].
    + destruct (String.eqb (type request) "document" && truthy id).
      * destruct (document_branch_run w inp request project id st)
          as ([resp | e] & st' & Hrun & H); rewrite Hrun.
        -- eexists; eexists; split; [reflexivity | now left].
        -- rewrite emit_log. cbn [ret]. eexists; eexists; split; [reflexivity|].
           right. eapply same_tables_trans; [exact H | apply same_tables_log].
      * cbn [throw]. rewrite emit_log. cbn [ret].
        eexists; eexists; split; [reflexivity | right; apply same_tables_log].
    + cbn [throw]. rewrite emit_log. cbn [ret].
      eexists; eexists; split; [reflexivity | right; apply same_tables_log].
Qed.

End OnDemandSpec.

(** ** The on-demand function as an upsert *)

Module UpsertSpec.
Import Js Runtime Supabase Edge Observe LibraryRest GenerateProjectEmbedding.
Import JsFacts ClientFacts BatchSpec OnDemandSpec Samples OnDemandSamples.

Lemma positions_ge {A : Type} (p : A -> bool) (rows : list A) :
  forall i j, In j (positions p rows i) -> (i <= j)%nat.
Proof.
  induction rows as [|r rows IH]; intros i j; simpl; [tauto|].
  destruct (p r); simpl.
  - intros [<- | H]; [lia | apply IH in H; lia].
  - intros H. apply IH in H. lia.
Qed.

Lemma positions_nil {A : Type} (p : A -> bool) (rows : list A) :
  forall i, positions p rows i = [] -> filter p rows = [].
Proof.
  induction rows as [|r rows IH]; intros i; simpl; [reflexivity|].
  destruct (p r); [discriminate | apply IH].
Qed.

Lemma positions_length {A : Type} (p : A -> bool) (rows : list A) :
  forall i, length (positions p rows i) = length (filter p rows).
Proof.
  induction rows as [|r rows IH]; intros i; simpl; [reflexivity|].
  destruct (p r); simpl; now rewrite IH.
Qed.

(** Updating the only row that satisfies [p], with an [f] that does not
    change [p], changes that row and no other. *)
Lemma update_single {A : Type} (p : A -> bool) (f : A -> A) (rows : list A) :
  (forall r, p (f r) = p r) ->
  forall i j,
    positions p rows i = [j] ->
    filter p (update_at (j - i) f rows) = map f (filter p rows) /\
    filter (fun r => negb (p r)) (update_at (j - i) f rows)
    = filter (fun r => negb (p r)) rows /\
    length (filter p rows) = 1%nat.
Proof.
  intros Hf. induction rows as [|r rows IH]; intros i j; simpl; [discriminate|].
  destruct (p r) eqn:Hp.
  - intros H. inversion H as [[Hj Hrest]]. subst j.
    rewrite Nat.sub_diag. simpl. rewrite Hf, Hp. simpl.
    rewrite (positions_nil p rows (S i) Hrest). repeat split.
  - intros H.
    assert (Hge : (S i <= j)%nat) by (apply (positions_ge p rows); rewrite H; now left).
    replace (j - i)%nat with (S (j - S i)) by lia. simpl. rewrite Hp. simpl.
    destruct (IH (S i) j H) as (H1 & H2 & H3). now rewrite H1, H2.
Qed.

Lemma selected_updated (conds : list ProjectEmbeddingData.Cond) (content : string)
  (e : option Vector) (bag : Metadata) (r : ProjectEmbeddingData.t) :
  ProjectEmbeddingData.selected conds (updated content e bag r)
  = ProjectEmbeddingData.selected conds r.
Proof.
  unfold ProjectEmbeddingData.selected. induction conds as [|c conds IH]; simpl;
    [reflexivity|].
  rewrite IH. now destruct c.
Qed.

(** X9: the metadata branch of the on-demand function is an upsert.  When
    the project has at most one metadata embedding and the request is
    answered 200 by a database that carries out its writes, the project has
    exactly one metadata embedding afterwards, it holds the text prepared
    from the current metadata, and the records of every other project or
    type are as before. *)
Theorem on_demand_keeps_one_metadata_record
  (w : World) (inp : Inputs) (req : Request) (request : RequestBody)
  (project : ProjectInfo) (metadata : ProjectMetadataForm.t)
  (st st' : State) (resp : Response) :
  admitted w req = true ->
  json inp = BodyParsed request ->
  type request = "metadata" ->
  projects inp (project_id request) = Row project ->
  project_metadata inp (project_id request) = Row metadata ->
  lookup_answered inp = true ->
  update_outcome inp = Applied ->
  (forall row, db_outcome w (InsertProject row) = Applied) ->
  (length (metadata_records (project_id request) st) <= 1)%nat ->
  serve w inp req st = (Normal resp, st') ->
  response_status resp = 200 ->
  (exists r,
      metadata_records (project_id request) st' = [r] /\
      ProjectEmbeddingData.content r
      = prepareProjectMetadataForEmbedding metadata (project_name project)) /\
  filter (fun r =>
            negb (ProjectEmbeddingData.selected
                    [ProjectEmbeddingData.eq_project_id (project_id request);
                     ProjectEmbeddingData.eq_content_type Supabase.project_metadata] r))
         (project_embeddings st')
  = filter (fun r =>
              negb (ProjectEmbeddingData.selected
                      [ProjectEmbeddingData.eq_project_id (project_id request);
                       ProjectEmbeddingData.eq_content_type Supabase.project_metadata] r))
           (project_embeddings st).
Proof.
  intros Hadm Hjson Htype Hproj Hmeta Hlook Hupd Hins Hone Hrun Hstatus.
  destruct (admitted_checks w req Hadm) as (Hpre & Hauth & Hkey).
  unfold serve in Hrun. rewrite Hpre, Hauth, Hkey in Hrun. cbn [negb] in Hrun.
  unfold try_catch, bind, parse in Hrun. rewrite Hjson in Hrun. cbn [ret] in Hrun.
  rewrite Hproj, Htype in Hrun. cbn [single ret] in Hrun.
  change (String.eqb "metadata" "metadata") with true in Hrun. cbn iota in Hrun.
  unfold metadata_branch, bind in Hrun. rewrite Hmeta in Hrun. cbn [single ret] in Hrun.
  destruct (edge_generateEmbedding_run w
              (prepareProjectMetadataForEmbedding metadata (project_name project)) st)
    as ([v | e] & Hgen); rewrite Hgen in Hrun.
  2:{ rewrite emit_log in Hrun. cbn [ret] in Hrun. inversion Hrun; subst.
      simpl in Hstatus. discriminate. }
  unfold maybeSingle in Hrun. rewrite Hlook in Hrun.
  cbn [project_embeddings log] in Hrun.
  unfold metadata_records in *.
  set (conds := [ProjectEmbeddingData.eq_project_id (project_id request);
                 ProjectEmbeddingData.eq_content_type Supabase.project_metadata]) in *.
  set (p := ProjectEmbeddingData.selected conds) in *.
  destruct (positions p (project_embeddings st) O) as [|j [|k rest]] eqn:Hpos.
  - (* no record yet: insert *)
    unfold write in Hrun. rewrite Hins in Hrun. rewrite emit_log in Hrun.
    cbn [ret] in Hrun. inversion Hrun; subst. simpl.
    rewrite !filter_app, (positions_nil p _ O Hpos). simpl.
    assert (Hnew : p {| ProjectEmbeddingData.project_id := project_id request;
                        ProjectEmbeddingData.company_id := company_id request;
                        ProjectEmbeddingData.content_type := Supabase.project_metadata;
                        ProjectEmbeddingData.content_id := Some (project_id request);
                        ProjectEmbeddingData.content :=
                          prepareProjectMetadataForEmbedding metadata (project_name project);
                        ProjectEmbeddingData.metadata :=
                          Some [("source", JString "project_metadata_form");
                                ("project_name", JString (project_name project));
                                ("status", JString (status project))];
                        ProjectEmbeddingData.embedding := v |} = true).
    { unfold p, conds. simpl. now rewrite String.eqb_refl. }
    rewrite Hnew. simpl. split; [eexists; split; reflexivity | apply app_nil_r].
  - (* one record: update in place *)
    unfold update in Hrun. rewrite Hupd in Hrun. rewrite emit_log in Hrun.
    cbn [ret] in Hrun. inversion Hrun; subst. simpl.
    destruct (update_single p
                (updated (prepareProjectMetadataForEmbedding metadata (project_name project))
                         v [("source", JString "project_metadata_form");
                            ("project_name", JString (project_name project));
                            ("status", JString (status project))])
                (project_embeddings st)
                (fun r => selected_updated conds _ _ _ r) O j Hpos) as (H1 & H2 & H3).
    rewrite Nat.sub_0_r in H1, H2. rewrite H1, H2.
    destruct (filter p (project_embeddings st)) as [|r [|r' l]]; simpl in H3;
      try discriminate.
    split; [|reflexivity]. eexists. split; reflexivity.
  - (* several records: excluded by the hypothesis *)
    rewrite <- (positions_length p _ O), Hpos in Hone. simpl in Hone. lia.
Qed.

Lemma on_demand_keeps_one_metadata_record_witness :
  (exists r,
      metadata_records "p2"
        (snd (serve world_ok metadata_request cron_request crowded_state)) = [r] /\
      ProjectEmbeddingData.content r
      = prepareProjectMetadataForEmbedding blank_form "Beta") /\
  filter (fun r =>
            negb (ProjectEmbeddingData.selected
                    [ProjectEmbeddingData.eq_project_id "p2";
                     ProjectEmbeddingData.eq_content_type Supabase.project_metadata] r))
         (project_embeddings
            (snd (serve world_ok metadata_request cron_request crowded_state)))
  = filter (fun r =>
              negb (ProjectEmbeddingData.selected
                      [ProjectEmbeddingData.eq_project_id "p2";
                       ProjectEmbeddingData.eq_content_type Supabase.project_metadata] r))
           (project_embeddings crowded_state).
Proof.
  apply (on_demand_keeps_one_metadata_record world_ok metadata_request cron_request
           {| type := "metadata"; project_id := "p2";
              company_id := "bolt"; document_id := None |}
           {| project_name := "Beta"; status := "active" |} blank_form
           crowded_state
           (snd (serve world_ok metadata_request cron_request crowded_state))
           {| response_status := 200;
              body := SuccessBody "Metadata embedding generated" "Beta" |});
    reflexivity.
Defined.

End UpsertSpec.

(** ** The texts that are embedded *)

Module PrepareSpec.
Import Js Runtime Supabase Edge LibraryRest Lines JsFacts OnDemandSamples.

Lemma truthy_append_l (a b : string) : truthy a = true -> truthy (a +++ b) = true.
Proof. destruct a; simpl; congruence. Qed.

Lemma push_field_as_line (label : string) (value : option string) (parts : list string) :
  truthy label = true ->
  push_field label value parts = parts ++ filter truthy [line label value].
Proof.
  intros Hl. unfold push_field, line. destruct value as [v|]; simpl.
  - destruct (truthy v); simpl; [|now rewrite app_nil_r].
    now rewrite (truthy_append_l label v Hl).
  - now rewrite app_nil_r.
Qed.

Lemma push_list_as_line (label : string) (values : option (list string))
  (parts : list string) :
  truthy label = true ->
  push_list label values parts = parts ++ filter truthy [list_line label values].
Proof.
  intros Hl. unfold push_list, list_line. destruct values as [[|v rest]|]; simpl;
    try now rewrite app_nil_r.
  now rewrite (truthy_append_l label _ Hl).
Qed.

Lemma filter_one_app {A : Type} (p : A -> bool) (a : A) (l : list A) :
  filter p (a :: l) = filter p [a] ++ filter p l.
Proof. simpl. now destruct (p a). Qed.

(** The array of the library is the list of its twelve candidate lines with
    the empty ones left out. *)
Lemma project_parts_as_lines (metadata : ProjectMetadataForm.t) (projectName : string) :
  project_parts metadata projectName =
  filter truthy
    [line "Project: " (Some projectName);
     line "Domain: " (ProjectMetadataForm.domain metadata);
     line "Industry: " (ProjectMetadataForm.industry metadata);
     line "Type: " (ProjectMetadataForm.project_type metadata);
     line "Target Audience: " (ProjectMetadataForm.target_audience metadata);
     list_line "Tech Stack: " (ProjectMetadataForm.tech_stack metadata);
     list_line "Goals: " (ProjectMetadataForm.key_goals metadata);
     line "Requirements: " (ProjectMetadataForm.requirements metadata);
     line "Team Size: " (ProjectMetadataForm.team_size metadata);
     line "Budget: " (ProjectMetadataForm.budget_range metadata);
     line "Priority: " (ProjectMetadataForm.priority_level metadata);
     line "Additional Context: " (ProjectMetadataForm.additional_context metadata)].
Proof.
  unfold project_parts.
  rewrite !push_field_as_line, !push_list_as_line by reflexivity.
  repeat rewrite (filter_one_app truthy _ (_ :: _)).
  cbn [app]. now rewrite <- !app_assoc.
Qed.

Lemma company_parts_as_lines (companyBrain : CompanyBrainForm.t) :
  company_parts companyBrain =
  filter truthy
    [line "Company: " (CompanyBrainForm.company_name companyBrain);
     line "Tagline: " (CompanyBrainForm.company_tagline companyBrain);
     line "Description: " (CompanyBrainForm.company_description companyBrain);
     line "Industry: " (CompanyBrainForm.industry companyBrain);
     line "Mission: " (CompanyBrainForm.mission_statement companyBrain);
     line "Vision: " (CompanyBrainForm.vision_statement companyBrain);
     list_line "Values: " (CompanyBrainForm.core_values companyBrain);
     list_line "USPs: " (CompanyBrainForm.unique_selling_points companyBrain);
     line "Target Audience: " (CompanyBrainForm.target_audience companyBrain);
     list_line "Features: " (CompanyBrainForm.key_features companyBrain);
     line "Pricing: " (CompanyBrainForm.pricing_model companyBrain)].
Proof.
  unfold company_parts.
  rewrite !push_field_as_line, !push_list_as_line by reflexivity.
  repeat rewrite (filter_one_app truthy _ (_ :: _)).
  cbn [app]. now rewrite <- !app_assoc.
Qed.

Lemma weight_nonneg (l : string) : 0 <= weight l.
Proof. unfold weight. pose proof (len_nonneg l). destruct (truthy l); lia. Qed.

Lemma total_weight_nonneg (lines : list string) : 0 <= total_weight lines.
Proof.
  induction lines as [|l lines IH]; simpl; [lia|].
  pose proof (weight_nonneg l). lia.
Qed.

Lemma total_weight_zero (lines : list string) :
  total_weight lines = 0 -> filter truthy lines = [].
Proof.
  induction lines as [|l lines IH]; simpl; [reflexivity|].
  pose proof (weight_nonneg l). pose proof (total_weight_nonneg lines).
  unfold weight in *. pose proof (len_nonneg l).
  destruct (truthy l); [lia | intros; apply IH; lia].
Qed.

Lemma total_weight_none (lines : list string) :
  filter truthy lines = [] -> total_weight lines = 0.
Proof.
  induction lines as [|l lines IH]; simpl; [reflexivity|].
  unfold weight. destruct (truthy l); [discriminate | intros H; rewrite (IH H); lia].
Qed.

(** The length of the joined text: the lines that are not empty, and one
    separator between each two of them. *)
Lemma len_join_lines (lines : list string) :
  len (join_lines lines) = Z.max 0 (total_weight lines - 1).
Proof.
  unfold join_lines. induction lines as [|l lines IH]; [reflexivity|].
  cbn [filter total_weight fold_right]. fold (total_weight lines).
  pose proof (total_weight_nonneg lines) as Hnn. pose proof (len_nonneg l) as Hl.
  unfold weight. destruct (truthy l) eqn:Ht; [|rewrite IH; lia].
  destruct (filter truthy lines) as [|f rest] eqn:Hf.
  - cbn [join]. rewrite (total_weight_none lines Hf). lia.
  - rewrite join_cons by congruence. rewrite !len_append, IH.
    change (len (String LF EmptyString)) with 1.
    assert (total_weight lines <> 0).
    { intros H0. apply total_weight_zero in H0. congruence. }
    lia.
Qed.

Lemma truthy_line (label : string) (value : option string) :
  truthy label = true -> truthy (line label value) = filled value.
Proof.
  intros Hl. unfold line, filled. destruct value as [v|]; simpl; [|reflexivity].
  destruct (truthy v) eqn:Hv; [now apply truthy_append_l | reflexivity].
Qed.

Lemma truthy_list_line (label : string) (values : option (list string)) :
  truthy label = true -> truthy (list_line label values) = filled_list values.
Proof.
  intros Hl. unfold list_line, filled_list. destruct values as [[|v rest]|]; simpl;
    try reflexivity.
  now apply truthy_append_l.
Qed.

Lemma join_empty_iff (sep : string) (parts : list string) :
  Forall (fun p => truthy p = true) parts ->
  (join sep parts = EmptyString <-> parts = []).
Proof.
  intros Hall. split; [|intros ->; reflexivity].
  destruct parts as [|p rest]; [reflexivity|].
  inversion Hall as [|? ? Hp _]; subst.
  destruct p as [|c p]; [discriminate|].
  destruct rest; simpl; discriminate.
Qed.

Lemma filter_truthy_all (lines : list string) :
  Forall (fun p => truthy p = true) (filter truthy lines).
Proof.
  apply Forall_forall. intros x Hx. now apply filter_In in Hx.
Qed.

Lemma length_filter_truthy (lines : list string) :
  length (filter truthy lines) = count_true (map truthy lines).
Proof.
  unfold count_true. induction lines as [|l lines IH]; simpl; [reflexivity|].
  destruct (truthy l); simpl; now rewrite IH.
Qed.

(** X10: the embedding text of the library is empty exactly when nothing is
    filled in.  [prepareProjectMetadataForEmbedding] returns the empty
    string if and only if the project name and all eleven fields are unfilled,
    [prepareCompanyInfoForEmbedding] if and only if all eleven fields of the
    company form are; otherwise the joined array has one entry for each
    filled field. *)
Theorem prepared_text_empty_iff_unfilled :
  (forall (metadata : ProjectMetadataForm.t) (projectName : string),
      length (project_parts metadata projectName)
      = count_true (project_filled metadata projectName) /\
      (LibraryRest.prepareProjectMetadataForEmbedding metadata projectName = EmptyString
       <-> count_true (project_filled metadata projectName) = 0%nat)) /\
  (forall companyBrain : CompanyBrainForm.t,
      length (company_parts companyBrain) = count_true (company_filled companyBrain) /\
      (LibraryRest.prepareCompanyInfoForEmbedding companyBrain = EmptyString
       <-> count_true (company_filled companyBrain) = 0%nat)).
Proof.
  split.
  - intros metadata projectName.
    assert (Hlen : length (project_parts metadata projectName)
                   = count_true (project_filled metadata projectName)).
    { rewrite project_parts_as_lines, length_filter_truthy. cbn [map].
      rewrite !truthy_line, !truthy_list_line by reflexivity. reflexivity. }
    split; [exact Hlen|].
    unfold LibraryRest.prepareProjectMetadataForEmbedding.
    rewrite <- Hlen. rewrite join_empty_iff.
    + split; [intros ->; reflexivity | intros H; now destruct (project_parts _ _)].
    + rewrite project_parts_as_lines. apply filter_truthy_all.
  - intros companyBrain.
    assert (Hlen : length (company_parts companyBrain)
                   = count_true (company_filled companyBrain)).
    { rewrite company_parts_as_lines, length_filter_truthy. cbn [map].
      rewrite !truthy_line, !truthy_list_line by reflexivity. reflexivity. }
    split; [exact Hlen|].
    unfold LibraryRest.prepareCompanyInfoForEmbedding.
    rewrite <- Hlen. rewrite join_empty_iff.
    + split; [intros ->; reflexivity | intros H; now destruct (company_parts _)].
    + rewrite company_parts_as_lines. apply filter_truthy_all.
Qed.

Lemma library_text_as_lines (metadata : ProjectMetadataForm.t) (projectName : string) :
  LibraryRest.prepareProjectMetadataForEmbedding metadata projectName =
  join_lines
    [line "Project: " (Some projectName);
     line "Domain: " (ProjectMetadataForm.domain metadata);
     line "Industry: " (ProjectMetadataForm.industry metadata);
     line "Type: " (ProjectMetadataForm.project_type metadata);
     line "Target Audience: " (ProjectMetadataForm.target_audience metadata);
     list_line "Tech Stack: " (ProjectMetadataForm.tech_stack metadata);
     list_line "Goals: " (ProjectMetadataForm.key_goals metadata);
     line "Requirements: " (ProjectMetadataForm.requirements metadata);
     line "Team Size: " (ProjectMetadataForm.team_size metadata);
     line "Budget: " (ProjectMetadataForm.budget_range metadata);
     line "Priority: " (ProjectMetadataForm.priority_level metadata);
     line "Additional Context: " (ProjectMetadataForm.additional_context metadata)].
Proof.
  unfold LibraryRest.prepareProjectMetadataForEmbedding, join_lines.
  now rewrite project_parts_as_lines.
Qed.

Lemma line_unfilled (label : string) (value : option string) :
  filled value = false -> line label value = EmptyString.
Proof.
  unfold filled, line. destruct value as [v|]; simpl; [|reflexivity].
  now intros ->.
Qed.

Lemma list_line_unfilled (label : string) (values : option (list string)) :
  filled_list values = false -> list_line label values = EmptyString.
Proof. unfold filled_list, list_line. now destruct values as [[|v rest]|]. Qed.

Lemma line_named (label name : string) :
  truthy name = true -> line label (Some name) = label +++ name.
Proof. unfold line. now intros ->. Qed.

(** X11: the interactive save and the on-demand function embed the same
    text for the same metadata when the project has a name, [key_goals] is
    unfilled and the budget line does not have to move: [budget_range] is
    unfilled, or [tech_stack], [requirements] and [team_size] are. *)
Theorem library_and_on_demand_text_agree
  (metadata : ProjectMetadataForm.t) (projectName : string) :
  truthy projectName = true ->
  filled_list (ProjectMetadataForm.key_goals metadata) = false ->
  filled (ProjectMetadataForm.budget_range metadata) = false \/
  (filled_list (ProjectMetadataForm.tech_stack metadata) = false /\
   filled (ProjectMetadataForm.requirements metadata) = false /\
   filled (ProjectMetadataForm.team_size metadata) = false) ->
  LibraryRest.prepareProjectMetadataForEmbedding metadata projectName
  = GenerateProjectEmbedding.prepareProjectMetadataForEmbedding metadata projectName.
Proof.
  intros Hname Hgoals Hmove.
  rewrite library_text_as_lines.
  unfold GenerateProjectEmbedding.prepareProjectMetadataForEmbedding, join_lines.
  rewrite (line_named _ _ Hname).
  rewrite !(list_line_unfilled _ (ProjectMetadataForm.key_goals metadata) Hgoals).
  destruct Hmove as [Hb | (Ht & Hr & Hs)].
  - rewrite !(line_unfilled _ (ProjectMetadataForm.budget_range metadata) Hb).
    repeat rewrite (filter_one_app truthy _ (_ :: _)). cbn [filter truthy app].
    reflexivity.
  - rewrite !(list_line_unfilled _ (ProjectMetadataForm.tech_stack metadata) Ht),
            !(line_unfilled _ (ProjectMetadataForm.requirements metadata) Hr),
            !(line_unfilled _ (ProjectMetadataForm.team_size metadata) Hs).
    repeat rewrite (filter_one_app truthy _ (_ :: _)). cbn [filter truthy app].
    reflexivity.
Qed.

Lemma library_and_on_demand_text_agree_witness :
  LibraryRest.prepareProjectMetadataForEmbedding blank_form "Beta"
  = GenerateProjectEmbedding.prepareProjectMetadataForEmbedding blank_form "Beta".
Proof.
  apply (library_and_on_demand_text_agree blank_form "Beta");
    [reflexivity | reflexivity | left; reflexivity].
Defined.

Lemma weight_key_goals (values : option (list string)) :
  weight (list_line "Key Goals: " values)
  = weight (list_line "Goals: " values) + (if filled_list values then 4 else 0).
Proof.
  unfold list_line, filled_list. destruct values as [[|v rest]|]; try reflexivity.
  unfold weight. rewrite !truthy_append_l by reflexivity.
  rewrite !len_append.
  change (len "Key Goals: ") with 11. change (len "Goals: ") with 7. lia.
Qed.

(** X12: for a named project the text embedded by the on-demand function is
    as long as the text embedded by the library when [key_goals] is unfilled,
    and four characters longer when it is filled (the label is [Key Goals]
    there and [Goals] in the library): with [key_goals] filled the two paths
    never embed the same text. *)
Theorem on_demand_text_length
  (metadata : ProjectMetadataForm.t) (projectName : string) :
  truthy projectName = true ->
  len (GenerateProjectEmbedding.prepareProjectMetadataForEmbedding metadata projectName)
  = len (LibraryRest.prepareProjectMetadataForEmbedding metadata projectName)
    + (if filled_list (ProjectMetadataForm.key_goals metadata) then 4 else 0).
Proof.
  intros Hname. rewrite library_text_as_lines.
  unfold GenerateProjectEmbedding.prepareProjectMetadataForEmbedding.
  rewrite !len_join_lines. cbn [total_weight fold_right].
  rewrite (line_named _ _ Hname), weight_key_goals.
  assert (Hp : 1 <= weight ("Project: " +++ projectName)).
  { unfold weight. rewrite truthy_append_l by reflexivity.
    pose proof (len_nonneg ("Project: " +++ projectName)). lia. }
  repeat match goal with
         | |- context [weight ?l] =>
             lazymatch goal with
             | _ : 0 <= weight l |- _ => fail
             | _ => pose proof (weight_nonneg l)
             end
         end.
  destruct (filled_list (ProjectMetadataForm.key_goals metadata)); lia.
Qed.

Lemma on_demand_text_length_witness :
  len (GenerateProjectEmbedding.prepareProjectMetadataForEmbedding goals_form "Beta")
  = len (LibraryRest.prepareProjectMetadataForEmbedding goals_form "Beta") + 4.
Proof.
  apply (on_demand_text_length goals_form "Beta"). reflexivity.
Defined.

End PrepareSpec.

(** ** Store and delete together *)

Module StoreDeleteSpec.
Import Js Runtime Supabase Embeddings ProjectEmbeddings Observe StoreThenDelete.
Import JsFacts ClientFacts StoreFacts StoreSpec Samples.

Lemma filter_filter_absurd {A : Type} (p q : A -> bool) (rows : list A) :
  (forall r, p r = true -> q r = false) ->
  filter p (filter q rows) = [].
Proof.
  intros H. induction rows as [|r rows IH]; simpl; [reflexivity|].
  destruct (q r) eqn:Hq; simpl; [|exact IH].
  destruct (p r) eqn:Hp; [|exact IH].
  rewrite (H r Hp) in Hq. discriminate.
Qed.

Lemma filter_filter_same {A : Type} (p : A -> bool) (rows : list A) :
  filter p (filter p rows) = filter p rows.
Proof.
  induction rows as [|r rows IH]; simpl; [reflexivity|].
  destruct (p r) eqn:Hp; simpl; rewrite ?Hp, IH; reflexivity.
Qed.

(** X13: storing a record and then deleting its project with success leaves
    no record of that project, whatever the store did in between, and leaves
    the records of the other projects exactly as they were before the two
    operations. *)
Theorem store_then_delete_clears_project
  (w1 w2 : World) (data : ProjectEmbeddingData.t) (st st' : State)
  (stored deleted : StoreResult) :
  store_then_delete w1 w2 data st = (Normal (stored, deleted), st') ->
  success deleted = true ->
  of_project (ProjectEmbeddingData.project_id data) st' = [] /\
  of_other_projects (ProjectEmbeddingData.project_id data) st'
  = of_other_projects (ProjectEmbeddingData.project_id data) st.
Proof.
  intros Hrun Hdel. unfold store_then_delete, bind in Hrun.
  destruct (guarded_insert_run "Error storing project embedding:" w1
              (ProjectEmbeddingData.embedding data)
              (ProjectEmbeddingData.content data)
              (fun e => InsertProject (ProjectEmbeddingData.with_embedding data e)) st)
    as (r1 & st1 & evs & Hsto & _ & Hrep1 & _).
  unfold storeProjectEmbedding in Hrun. rewrite Hsto in Hrun.
  destruct (guarded_write_run "Error deleting project embeddings:" w2
              (DeleteProject [ProjectEmbeddingData.eq_project_id
                                (ProjectEmbeddingData.project_id data)]) st1)
    as (r2 & st2 & Hdelrun & Hrep2).
  unfold deleteProjectEmbeddings in Hrun. rewrite Hdelrun in Hrun.
  cbn [ret] in Hrun. inversion Hrun; subst.
  destruct (reports_success _ _ _ Hrep2 Hdel) as [-> _].
  unfold of_project, of_other_projects. simpl.
  set (p := ProjectEmbeddingData.project_id data).
  assert (Hst1 : filter (fun r => negb (String.eqb (ProjectEmbeddingData.project_id r) p))
                        (project_embeddings st1)
                 = filter (fun r => negb (String.eqb (ProjectEmbeddingData.project_id r) p))
                          (project_embeddings st)).
  { destruct Hrep1 as [[_ (e & -> & _)] | (m & _ & ->)]; [|reflexivity].
    simpl. rewrite filter_app. simpl. fold p. rewrite String.eqb_refl. simpl.
    apply app_nil_r. }
  assert (Hext : forall rows,
             filter (fun r => negb (ProjectEmbeddingData.selected
                                      [ProjectEmbeddingData.eq_project_id p] r)) rows
             = filter (fun r => negb (String.eqb (ProjectEmbeddingData.project_id r) p)) rows).
  { intros rows. apply filter_ext. intros r. simpl. now rewrite andb_true_r. }
  rewrite Hext. split.
  - apply filter_filter_absurd. intros r Hr. now rewrite Hr.
  - now rewrite filter_filter_same.
Qed.

Lemma store_then_delete_clears_project_witness :
  of_project "p1" (snd (store_then_delete world_ok world_ok
                          (project_row "p1" "acme" "Project: New" None) crowded_state))
  = [] /\
  of_other_projects "p1"
    (snd (store_then_delete world_ok world_ok
            (project_row "p1" "acme" "Project: New" None) crowded_state))
  = of_other_projects "p1" crowded_state.
Proof.
  apply (store_then_delete_clears_project world_ok world_ok
           (project_row "p1" "acme" "Project: New" None) crowded_state
           (snd (store_then_delete world_ok world_ok
                   (project_row "p1" "acme" "Project: New" None) crowded_state))
           succeeded succeeded);
    reflexivity.
Defined.

End StoreDeleteSpec.

(** ** What a sweep of the project job leaves and reports *)

Module SweepSpec.
Import Js Runtime Supabase Edge Observe RegenerateProjectEmbeddings SweepCounts.
Import JsFacts ClientFacts BatchSpec OnDemandSpec Samples.

Lemma write_applied (w : World) (op : DbOp) (st : State) :
  db_outcome w op = Applied -> write w op st = (Normal None, apply_op op st).
Proof. intros H. unfold write. now rewrite H. Qed.

Lemma filter_filter_keep {A : Type} (p q : A -> bool) (rows : list A) :
  (forall r, p r = true -> q r = true) ->
  filter p (filter q rows) = filter p rows.
Proof.
  intros H. induction rows as [|r rows IH]; simpl; [reflexivity|].
  destruct (q r) eqn:Hq; simpl.
  - now rewrite IH.
  - destruct (p r) eqn:Hp; [|exact IH].
    rewrite (H r Hp) in Hq. discriminate.
Qed.

Lemma is_metadata_of_fields (q : string) (r : ProjectEmbeddingData.t) :
  is_metadata_of q r = true ->
  ProjectEmbeddingData.project_id r = q /\
  ProjectEmbeddingData.content_type r = Supabase.project_metadata.
Proof.
  unfold is_metadata_of. simpl. intros H.
  apply andb_true_iff in H. destruct H as [H1 H].
  apply andb_true_iff in H. destruct H as [H2 _].
  apply String.eqb_eq in H1. apply StoreSpec.ContentType_eqb_eq in H2. now split.
Qed.

Section Sweep.
Variable w : World.
Variable src : Sources.
Hypothesis all_applied : forall op, db_outcome w op = Applied.

(** One document changes no metadata embedding. *)
Lemma regenerate_document_metadata (project : Project.t) (counts c : Counts)
  (doc : ProjectDocument.t) (st st' : State) (q : string) :
  regenerate_document w project counts doc st = (Normal c, st') ->
  filter (is_metadata_of q) (project_embeddings st')
  = filter (is_metadata_of q) (project_embeddings st).
Proof.
  unfold regenerate_document, bind. rewrite write_applied by apply all_applied.
  match goal with
  | |- context [Edge.generateEmbedding w ?t ?s] =>
      destruct (edge_generateEmbedding_run w t s) as ([v | e] & Hgen); rewrite Hgen
  end; [|discriminate].
  rewrite write_applied by apply all_applied. rewrite emit_log. cbn [ret].
  intros H. inversion H; subst. simpl.
  rewrite filter_app. simpl.
  replace (is_metadata_of q _) with false.
  - rewrite app_nil_r. apply filter_filter_keep.
    intros r Hr. apply is_metadata_of_fields in Hr. destruct Hr as [_ Ht].
    simpl. rewrite Ht. simpl. now rewrite andb_false_r.
  - unfold is_metadata_of. simpl. now rewrite andb_false_r.
Qed.

Lemma regenerate_documents_loop (project : Project.t) (docs : list ProjectDocument.t)
  (q : string) :
  forall (counts c : Counts) (st st' : State),
    for_of docs (regenerate_document w project) counts st = (Normal c, st') ->
    filter (is_metadata_of q) (project_embeddings st')
    = filter (is_metadata_of q) (project_embeddings st).
Proof.
  induction docs as [|doc docs IH]; intros counts c st st'; simpl.
  - intros H. now inversion H.
  - unfold bind.
    destruct (regenerate_document w project counts doc st) as [[c1 | e] st1] eqn:Hdoc;
      [|discriminate].
    intros H. rewrite (IH _ _ _ _ H).
    exact (regenerate_document_metadata project counts c1 doc st st1 q Hdoc).
Qed.

(** One project: its own metadata embedding is replaced by exactly one, the
    metadata embeddings of the other projects stay. *)
Lemma regenerate_project_metadata (p : Project.t) (counts c : Counts) (st st' : State) :
  regenerate_project w src counts p st = (Normal c, st') ->
  (forall q, q <> Project.id p ->
             filter (is_metadata_of q) (project_embeddings st')
             = filter (is_metadata_of q) (project_embeddings st)) /\
  (forall metadata,
      readable_metadata src p = Some metadata ->
      exists r,
        filter (is_metadata_of (Project.id p)) (project_embeddings st') = [r] /\
        ProjectEmbeddingData.content r
        = prepareProjectMetadataForEmbedding metadata (Project.project_name p)).
Proof.
  unfold regenerate_project, bind. rewrite emit_log.
  set (st0 := log st _).
  destruct (regenerate_metadata w src counts p st0) as [[c1 | e] st1] eqn:Hmeta;
    [|discriminate].
  intros Hdocs.
  assert (Hd : forall q, filter (is_metadata_of q) (project_embeddings st')
                         = filter (is_metadata_of q) (project_embeddings st1)).
  { intros q. unfold regenerate_documents in Hdocs.
    destruct (error (project_documents src (Project.id p)));
      [inversion Hdocs; reflexivity|].
    destruct (data (project_documents src (Project.id p))) as [docs|];
      [|inversion Hdocs; reflexivity].
    exact (regenerate_documents_loop p docs q _ _ _ _ Hdocs). }
  unfold regenerate_metadata, readable_metadata in *.
  destruct (error (project_metadata src (Project.id p))) as [e|].
  { inversion Hmeta; subst. split; [intros q _; now rewrite Hd | discriminate]. }
  destruct (data (project_metadata src (Project.id p))) as [m|].
  2:{ inversion Hmeta; subst. split; [intros q _; now rewrite Hd | discriminate]. }
  unfold bind in Hmeta. rewrite write_applied in Hmeta by apply all_applied.
  match type of Hmeta with
  | context [Edge.generateEmbedding w ?t ?s] =>
      destruct (edge_generateEmbedding_run w t s) as ([v | e] & Hgen);
      rewrite Hgen in Hmeta
  end; [|discriminate].
  rewrite write_applied in Hmeta by apply all_applied.
  rewrite emit_log in Hmeta. cbn [ret] in Hmeta. inversion Hmeta; subst.
  split.
  - intros q Hq. rewrite Hd. simpl. rewrite filter_app. simpl.
    replace (is_metadata_of q _) with false.
    + rewrite app_nil_r. apply filter_filter_keep.
      intros r Hr. apply is_metadata_of_fields in Hr. destruct Hr as [Hp _].
      simpl. assert (Hne : String.eqb (ProjectEmbeddingData.project_id r) (Project.id p)
                           = false) by (apply String.eqb_neq; congruence).
      now rewrite Hne.
    + unfold is_metadata_of. simpl.
      assert (Hne : String.eqb (Project.id p) q = false)
        by (apply String.eqb_neq; congruence).
      now rewrite Hne.
  - intros metadata Hm. inversion Hm; subst. rewrite Hd. simpl. rewrite filter_app.
    rewrite (StoreDeleteSpec.filter_filter_absurd (is_metadata_of (Project.id p))).
    + simpl. unfold is_metadata_of at 1. simpl. rewrite String.eqb_refl. simpl.
      eexists. split; reflexivity.
    + intros r Hr. unfold is_metadata_of in Hr. simpl in Hr |- *. now rewrite Hr.
Qed.

Lemma sweep_metadata (ps : list Project.t) :
  forall (counts c : Counts) (st st' : State),
    for_of ps (regenerate_project w src) counts st = (Normal c, st') ->
    NoDup (map Project.id ps) ->
    (forall q, ~ In q (map Project.id ps) ->
               filter (is_metadata_of q) (project_embeddings st')
               = filter (is_metadata_of q) (project_embeddings st)) /\
    (forall p metadata,
        In p ps -> readable_metadata src p = Some metadata ->
        exists r,
          filter (is_metadata_of (Project.id p)) (project_embeddings st') = [r] /\
          ProjectEmbeddingData.content r
          = prepareProjectMetadataForEmbedding metadata (Project.project_name p)).
Proof.
  induction ps as [|p ps IH]; intros counts c st st' Hrun Hnd.
  - simpl in Hrun. inversion Hrun; subst. split; [reflexivity | intros ? ? []].
  - simpl in Hrun. unfold bind in Hrun.
    destruct (regenerate_project w src counts p st) as [[c1 | e] st1] eqn:Hp;
      [|discriminate].
    inversion Hnd as [|? ? Hnotin Hnd']; subst.
    destruct (regenerate_project_metadata p counts c1 st st1 Hp) as [Hother Hown].
    destruct (IH c1 c st1 st' Hrun Hnd') as [IHother IHown].
    split.
    + intros q Hq. simpl in Hq.
      rewrite IHother by tauto. apply Hother. intros ->. tauto.
    + intros p' metadata [<- | Hin] Hm.
      * rewrite (IHother _ Hnotin). now apply Hown.
      * now apply IHown.
Qed.

End Sweep.

(** A 200 answer comes from a sweep that went through every project. *)
Lemma project_serve_success (w : World) (src : Sources) (req : Request)
  (st st' : State) (resp : Response) :
  serve w src req st = (Normal resp, st') ->
  status resp = 200 ->
  exists counts,
    for_of (list_or_empty (data (projects src))) (regenerate_project w src) (0, 0)
           (started st) = (Normal counts, st') /\
    resp = success_response
             (Z.of_nat (length (list_or_empty (data (projects src))))) counts.
Proof.
  unfold serve, started. intros Hrun H200.
  destruct (is_preflight req).
  { inversion Hrun; subst. discriminate. }
  unfold try_catch, bind, throw_if_error, throw, ret, emit in *.
  destruct (truthy_opt (authorization req)); cbv beta iota delta [negb] in Hrun.
  2:{ inversion Hrun; subst. discriminate. }
  destruct (truthy_opt (GEMINI_API_KEY w)); cbv beta iota delta [negb] in Hrun.
  2:{ inversion Hrun; subst. discriminate. }
  destruct (error (projects src)) as [e|]; cbv beta iota in Hrun.
  { inversion Hrun; subst. discriminate. }
  destruct (for_of _ _ _ _) as [[counts | e] st1] eqn:Hloop; cbv beta iota in Hrun.
  - inversion Hrun; subst. now exists counts.
  - inversion Hrun; subst. discriminate.
Qed.

(** *** The counts *)

Section Counting.
Variable w : World.
Variable src : Sources.

Lemma regenerate_document_counts (project : Project.t) (counts c : Counts)
  (doc : ProjectDocument.t) (st st' : State) :
  regenerate_document w project counts doc st = (Normal c, st') ->
  c = (fst counts, snd counts + 1).
Proof.
  unfold regenerate_document, bind, write.
  destruct (db_outcome w (DeleteProject _)); try discriminate;
    (match goal with
     | |- context [Edge.generateEmbedding w ?t ?s] =>
         destruct (edge_generateEmbedding_run w t s) as ([v | e] & Hgen); rewrite Hgen
     end; [|discriminate]);
    (destruct (db_outcome w (InsertProject _)); try discriminate);
    rewrite emit_log; cbn [ret]; intros H; now inversion H.
Qed.

Lemma regenerate_documents_counts (project : Project.t)
  (docs : list ProjectDocument.t) :
  forall (counts c : Counts) (st st' : State),
    for_of docs (regenerate_document w project) counts st = (Normal c, st') ->
    c = (fst counts, snd counts + Z.of_nat (length docs)).
Proof.
  induction docs as [|doc docs IH]; intros counts c st st'.
  - simpl. intros H. inversion H; subst. destruct c; simpl. f_equal. lia.
  - cbn [for_of]. unfold bind.
    destruct (regenerate_document w project counts doc st) as [[c1 | e] st1] eqn:Hdoc;
      [|discriminate].
    intros H. apply IH in H. apply regenerate_document_counts in Hdoc. subst.
    cbn [fst snd length]. f_equal. lia.
Qed.

Lemma regenerate_project_counts (p : Project.t) (counts c : Counts) (st st' : State) :
  regenerate_project w src counts p st = (Normal c, st') ->
  c = (fst counts + match readable_metadata src p with Some _ => 1 | None => 0 end,
       snd counts + Z.of_nat (length (readable_documents src p))).
Proof.
  unfold regenerate_project, bind. rewrite emit_log.
  set (st0 := log st _).
  destruct (regenerate_metadata w src counts p st0) as [[c1 | e] st1] eqn:Hmeta;
    [|discriminate].
  intros Hdocs.
  assert (Hc1 : c1 = (fst counts
                      + match readable_metadata src p with Some _ => 1 | None => 0 end,
                      snd counts)).
  { unfold regenerate_metadata, readable_metadata in *.
    destruct (error (project_metadata src (Project.id p))).
    { inversion Hmeta; subst. destruct c1; simpl; f_equal; lia. }
    destruct (data (project_metadata src (Project.id p))).
    2:{ inversion Hmeta; subst. destruct c1; simpl; f_equal; lia. }
    revert Hmeta. unfold bind, write.
    destruct (db_outcome w (DeleteProject _)); try discriminate;
      (match goal with
       | |- context [Edge.generateEmbedding w ?t ?s] =>
           destruct (edge_generateEmbedding_run w t s) as ([v | e] & Hgen); rewrite Hgen
       end; [|discriminate]);
      (destruct (db_outcome w (InsertProject _)); try discriminate);
      rewrite emit_log; cbn [ret]; intros H; now inversion H. }
  unfold regenerate_documents, readable_documents in *.
  destruct (error (project_documents src (Project.id p))).
  { inversion Hdocs; subst. cbn [fst snd length]. f_equal. simpl. lia. }
  destruct (data (project_documents src (Project.id p))) as [docs|].
  2:{ inversion Hdocs; subst. cbn [fst snd length]. f_equal. simpl. lia. }
  apply regenerate_documents_counts in Hdocs. subst. reflexivity.
Qed.

Lemma sweep_counts (ps : list Project.t) :
  forall (counts c : Counts) (st st' : State),
    for_of ps (regenerate_project w src) counts st = (Normal c, st') ->
    c = expected_counts src ps counts.
Proof.
  induction ps as [|p ps IH]; intros counts c st st'.
  - simpl. intros H. now inversion H.
  - cbn [for_of expected_counts]. unfold bind.
    destruct (regenerate_project w src counts p st) as [[c1 | e] st1] eqn:Hp;
      [|discriminate].
    intros H. apply IH in H. apply regenerate_project_counts in Hp. now subst.
Qed.

End Counting.

(** *** Writes whose error is reported *)

Section Reporting.
Variable w : World.
Variable src : Sources.
Hypothesis all_reported : forall op, exists e, db_outcome w op = Reported e.
Hypothesis provider_answers :
  forall text, exists status statusText values,
    fetch w text
    = FetchResponds true status statusText (JsonResolves (Values values)).

Lemma write_reported (op : DbOp) (st : State) :
  exists e, write w op st = (Normal (Some e), st).
Proof.
  destruct (all_reported op) as [e He]. exists e. unfold write. now rewrite He.
Qed.

Lemma generateEmbedding_answers (text : string) (st : State) :
  exists v, Edge.generateEmbedding w text st = (Normal v, log st [fetch_call text]).
Proof.
  destruct (provider_answers text) as (status & statusText & values & H).
  exists values. unfold Edge.generateEmbedding, Embeddings.do_fetch, bind.
  rewrite emit_log. cbn [ret]. now rewrite H.
Qed.

Lemma regenerate_document_reported (project : Project.t) (counts : Counts)
  (doc : ProjectDocument.t) (st : State) :
  exists evs,
    regenerate_document w project counts doc st
    = (Normal (fst counts, snd counts + 1), log st evs).
Proof.
  unfold regenerate_document, bind.
  match goal with
  | |- context [write w ?op st] =>
      destruct (write_reported op st) as [e1 H1]; rewrite H1
  end.
  match goal with
  | |- context [Edge.generateEmbedding w ?t st] =>
      destruct (generateEmbedding_answers t st) as [v Hv]; rewrite Hv
  end.
  match goal with
  | |- context [write w ?op ?s] =>
      destruct (write_reported op s) as [e2 H2]; rewrite H2
  end.
  rewrite emit_log. cbn [ret]. rewrite log_log. eexists. reflexivity.
Qed.

Lemma regenerate_documents_reported (project : Project.t)
  (docs : list ProjectDocument.t) :
  forall (counts : Counts) (st : State),
  exists evs,
    for_of docs (regenerate_document w project) counts st
    = (Normal (fst counts, snd counts + Z.of_nat (length docs)), log st evs).
Proof.
  induction docs as [|doc docs IH]; intros counts st.
  - exists []. simpl. rewrite log_nil. destruct counts; simpl.
    now rewrite Z.add_0_r.
  - cbn [for_of]. unfold bind.
    destruct (regenerate_document_reported project counts doc st) as [evs1 H1].
    rewrite H1.
    destruct (IH (fst counts, snd counts + 1) (log st evs1)) as [evs2 H2].
    rewrite H2, log_log. cbn [fst snd length]. exists (evs1 ++ evs2).
    replace (snd counts + 1 + Z.of_nat (length docs))
      with (snd counts + Z.of_nat (S (length docs))) by lia.
    reflexivity.
Qed.

Lemma regenerate_project_reported (p : Project.t) (counts : Counts) (st : State) :
  exists evs,
    regenerate_project w src counts p st
    = (Normal (fst counts
               + match readable_metadata src p with Some _ => 1 | None => 0 end,
               snd counts + Z.of_nat (length (readable_documents src p))),
       log st evs).
Proof.
  unfold regenerate_project, bind. rewrite emit_log.
  set (st0 := log st _).
  assert (Hmeta : exists evs,
             regenerate_metadata w src counts p st0
             = (Normal (fst counts
                        + match readable_metadata src p with
                          | Some _ => 1 | None => 0 end,
                        snd counts), log st0 evs)).
  { unfold regenerate_metadata, readable_metadata.
    destruct (error (project_metadata src (Project.id p))).
    { exists []. rewrite log_nil. destruct counts; cbn [ret fst snd].
      now rewrite Z.add_0_r. }
    destruct (data (project_metadata src (Project.id p))).
    2:{ exists []. rewrite log_nil. destruct counts; cbn [ret fst snd].
        now rewrite Z.add_0_r. }
    unfold bind.
    match goal with
    | |- context [write w ?op st0] =>
        destruct (write_reported op st0) as [e1 H1]; rewrite H1
    end.
    match goal with
    | |- context [Edge.generateEmbedding w ?t st0] =>
        destruct (generateEmbedding_answers t st0) as [v Hv]; rewrite Hv
    end.
    match goal with
    | |- context [write w ?op ?s] =>
        destruct (write_reported op s) as [e2 H2]; rewrite H2
    end.
    rewrite emit_log. cbn [ret]. rewrite log_log. eexists. reflexivity. }
  destruct Hmeta as [evs1 H1]. rewrite H1.
  unfold regenerate_documents, readable_documents.
  destruct (error (project_documents src (Project.id p))).
  { subst st0. rewrite log_log. eexists. cbn [ret fst snd length].
    change (Z.of_nat 0) with 0. rewrite Z.add_0_r. reflexivity. }
  destruct (data (project_documents src (Project.id p))) as [docs|].
  2:{ subst st0. rewrite log_log. eexists. cbn [ret fst snd length].
      change (Z.of_nat 0) with 0. rewrite Z.add_0_r. reflexivity. }
  match goal with
  | |- context [for_of docs _ ?c ?s] =>
      destruct (regenerate_documents_reported p docs c s) as [evs2 H2]; rewrite H2
  end.
  subst st0. rewrite !log_log. eexists. reflexivity.
Qed.

Lemma sweep_reported (ps : list Project.t) :
  forall (counts : Counts) (st : State),
  exists evs,
    for_of ps (regenerate_project w src) counts st
    = (Normal (expected_counts src ps counts), log st evs).
Proof.
  induction ps as [|p ps IH]; intros counts st.
  - exists []. simpl. now rewrite log_nil.
  - cbn [for_of expected_counts]. unfold bind.
    destruct (regenerate_project_reported p counts st) as [evs1 H1]. rewrite H1.
    match goal with
    | |- context [for_of ps _ ?c ?s] => destruct (IH c s) as [evs2 H2]; rewrite H2
    end.
    rewrite log_log. eexists. reflexivity.
Qed.

End Reporting.

(** X14.  After a sweep of the project job that answers 200, in a database
    that applies every write and over projects with distinct ids, every
    project whose metadata could be read has exactly one metadata embedding,
    and it holds the text prepared from that metadata. *)
Theorem sweep_leaves_one_metadata_embedding (w : World) (src : Sources)
  (req : Request) (st st' : State) (resp : Response) :
  (forall op, db_outcome w op = Applied) ->
  NoDup (map Project.id (list_or_empty (data (projects src)))) ->
  serve w src req st = (Normal resp, st') ->
  status resp = 200 ->
  forall p metadata,
    In p (list_or_empty (data (projects src))) ->
    readable_metadata src p = Some metadata ->
    exists r,
      filter (is_metadata_of (Project.id p)) (project_embeddings st') = [r] /\
      ProjectEmbeddingData.content r
      = prepareProjectMetadataForEmbedding metadata (Project.project_name p).
Proof.
  intros Happ Hnd Hrun H200 p metadata Hin Hm.
  destruct (project_serve_success w src req st st' resp Hrun H200) as (c & Hloop & _).
  destruct (sweep_metadata w src Happ _ _ _ _ _ Hloop Hnd) as [_ Hown].
  now apply Hown.
Qed.

Lemma sweep_leaves_one_metadata_embedding_witness :
  exists r,
    filter (is_metadata_of "p1")
           (project_embeddings
              (snd (serve world_ok project_sources cron_request crowded_state)))
    = [r] /\
    ProjectEmbeddingData.content r = "Project: Alpha".
Proof.
  apply (sweep_leaves_one_metadata_embedding world_ok project_sources cron_request
           crowded_state
           (snd (serve world_ok project_sources cron_request crowded_state))
           (success_response 2 (2, 0))
           (fun _ => eq_refl)
           ltac:(repeat constructor; simpl; intuition discriminate)
           eq_refl eq_refl
           project_alpha (bare_metadata "p1" "acme")
           (or_introl eq_refl) eq_refl).
Defined.

(** X15.  The counts of a 200 answer of the project job are fixed by what
    the source tables return: one per project with readable metadata and
    one per readable document, whatever the database answered to the
    deletes and inserts. *)
Theorem sweep_counts_attempts (w : World) (src : Sources) (req : Request)
  (st st' : State) (resp : Response) :
  serve w src req st = (Normal resp, st') ->
  status resp = 200 ->
  resp = success_response
           (Z.of_nat (length (list_or_empty (data (projects src)))))
           (expected_counts src (list_or_empty (data (projects src))) (0, 0)).
Proof.
  intros Hrun H200.
  destruct (project_serve_success w src req st st' resp Hrun H200) as (c & Hloop & ->).
  now rewrite (sweep_counts w src _ _ _ _ _ Hloop).
Qed.

Lemma sweep_counts_attempts_witness :
  success_response 2 (2, 0)
  = success_response
      (Z.of_nat (length (list_or_empty (data (projects project_sources)))))
      (expected_counts project_sources
         (list_or_empty (data (projects project_sources))) (0, 0)).
Proof.
  apply (sweep_counts_attempts ReportingSamples.world_db_reports project_sources
           cron_request crowded_state
           (snd (serve ReportingSamples.world_db_reports project_sources
                   cron_request crowded_state))
           (success_response 2 (2, 0)) eq_refl eq_refl).
Defined.

(** X16.  When the provider answers and the database reports an error for
    every write, the project job still answers 200 with the full counts,
    and leaves both embedding tables as they were: the errors of the
    deletes and inserts are not looked at. *)
Theorem sweep_ignores_reported_errors (w : World) (src : Sources) (req : Request)
  (st : State) :
  admitted w req = true ->
  error (projects src) = None ->
  (forall op, exists e, db_outcome w op = Reported e) ->
  (forall text, exists status statusText values,
      fetch w text
      = FetchResponds true status statusText (JsonResolves (Values values))) ->
  exists st',
    serve w src req st
    = (Normal (success_response
                 (Z.of_nat (length (list_or_empty (data (projects src)))))
                 (expected_counts src (list_or_empty (data (projects src))) (0, 0))),
       st') /\
    same_tables st st'.
Proof.
  intros Hadm Herr Hrep Hans.
  destruct (sweep_reported w src Hrep Hans (list_or_empty (data (projects src)))
              (0, 0) (started st)) as [evs Hloop].
  eexists. split.
  - exact (project_serve_completes w src req st _ _ Hadm Herr Hloop).
  - unfold started. rewrite log_log. split; reflexivity.
Qed.

Lemma sweep_ignores_reported_errors_witness :
  exists st',
    serve ReportingSamples.world_db_reports project_sources cron_request crowded_state
    = (Normal (success_response 2 (2, 0)), st') /\
    same_tables crowded_state st'.
Proof.
  apply (sweep_ignores_reported_errors ReportingSamples.world_db_reports
           project_sources cron_request crowded_state eq_refl eq_refl).
  - intros op. eexists. reflexivity.
  - intros text. do 3 eexists. reflexivity.
Defined.

End SweepSpec.

(** ** Saving the metadata form of a project *)

Module PageSpec.
Import Js Runtime Supabase Embeddings ProjectEmbeddings LibraryRest Observe.
Import ProjectBrainPage.
Import JsFacts ClientFacts StoreFacts StoreSpec Samples PageSamples.

Lemma quiet_app (a b : list Event) : quiet a -> quiet b -> quiet (a ++ b).
Proof. unfold quiet. intros Ha Hb. apply Forall_app. now split. Qed.

Lemma filter_quiet (evs : list Event) :
  quiet evs -> filter is_embedding_warning evs = [].
Proof.
  induction 1 as [|e evs He _ IH]; simpl; [reflexivity|]. now rewrite He.
Qed.

Ltac each_event :=
  unfold quiet;
  repeat first [apply Forall_nil | apply Forall_cons];
  first [reflexivity | left; reflexivity | right; reflexivity].

Lemma generateEmbedding_quiet (w : World) (text : string) (st : State) :
  exists result evs,
    generateEmbedding w text st = (Normal result, log st evs) /\ quiet evs /\
    Forall (fun e => is_provider_call e = false \/ e = fetch_call text) evs.
Proof.
  unfold generateEmbedding, try_catch, do_fetch, bind.
  destruct (truthy_opt (VITE_GEMINI_API_KEY w)); cbn [negb].
  - rewrite emit_log. cbn [ret].
    destruct (fetch w text) as [e | [|] status statusText [e | [type_error | values]]];
      cbn [throw ret read_values negb]; rewrite ?emit_log; cbn [ret];
      rewrite ?log_log;
      (eexists; eexists; split; [reflexivity|]; split);
      each_event.
  - rewrite emit_log. cbn [ret].
    eexists; eexists; split; [reflexivity|]. split; each_event.
Qed.

(** A delete returns; it adds no warning of the page and, applied or not,
    it calls no provider. *)
Lemma delete_by_type_run (w : World) (p : string) (c : ContentType) (st : State) :
  exists result evs,
    deleteProjectEmbeddingsByType w p c st
    = (Normal result,
       match db_outcome w (DeleteProject
                             [ProjectEmbeddingData.eq_project_id p;
                              ProjectEmbeddingData.eq_content_type c]) with
       | Applied =>
           apply_op (DeleteProject
                       [ProjectEmbeddingData.eq_project_id p;
                        ProjectEmbeddingData.eq_content_type c]) st
       | _ => log st evs
       end) /\
    quiet evs /\ Forall (fun e => is_provider_call e = false) evs.
Proof.
  unfold deleteProjectEmbeddingsByType, guarded, try_catch, bind, write.
  destruct (db_outcome w _) as [|e|e]; cbn [throw_if_error ret throw];
    rewrite ?emit_log; cbn [ret].
  - exists succeeded, []. repeat split; constructor.
  - eexists; eexists. split; [reflexivity|]. split; repeat constructor.
  - eexists; eexists. split; [reflexivity|]. split; repeat constructor.
Qed.

(** A store of a record without vector returns; it either adds events only,
    or adds events and then the row with the vector of the provider. *)
Lemma store_run (w : World) (data : ProjectEmbeddingData.t) (st : State) :
  ProjectEmbeddingData.embedding data = None ->
  exists result evs,
    quiet evs /\
    Forall (fun e => is_provider_call e = false
                     \/ e = fetch_call (ProjectEmbeddingData.content data)) evs /\
    (storeProjectEmbedding w data st = (Normal result, log st evs) \/
     exists v evs0,
       storeProjectEmbedding w data st
       = (Normal result,
          apply_op (InsertProject (ProjectEmbeddingData.with_embedding data v))
                   (log st evs0)) /\
       events (log st evs) = events (log st evs0)).
Proof.
  intros Hnone.
  unfold storeProjectEmbedding, guarded, try_catch, resolve_embedding, bind.
  rewrite Hnone.
  destruct (generateEmbedding_quiet w (ProjectEmbeddingData.content data) st)
    as (r & evs & Hgen & Hq & Hp).
  rewrite Hgen.
  destruct (truthy_opt (EmbeddingResponse.error r)); cbn [ret].
  - exists (failed (EmbeddingResponse.error r)), evs. repeat split; auto.
  - unfold write.
    destruct (db_outcome w _) as [|e|e]; cbn [throw_if_error ret throw];
      rewrite ?emit_log; cbn [ret]; rewrite ?log_log.
    + exists succeeded, evs. split; [assumption|]. split; [assumption|].
      right. exists (EmbeddingResponse.embedding r), evs. now split.
    + eexists; eexists. split; [|split; [|left; reflexivity]].
      * apply quiet_app; [assumption | repeat constructor].
      * apply Forall_app. split; [assumption | repeat constructor].
    + eexists; eexists. split; [|split; [|left; reflexivity]].
      * apply quiet_app; [assumption | repeat constructor].
      * apply Forall_app. split; [assumption | repeat constructor].
Qed.

(** What a call of the handler amounts to. *)
Lemma handleSaveMetadata_run (w : World) (props : Props) (u : User) (p : Project)
  (pg : Page) :
  user props = Some u ->
  project props = Some p ->
  handleSaveMetadata w props pg =
  (Normal tt,
   match upsert_outcome props with
   | Applied =>
       {| isSaving := false; isEditing := false; isLoading := true;
          toasts := toasts pg ++ [saved_toast];
          backend := after_embedding w props u p (backend pg) |}
   | Reported e | Rejected e =>
       {| isSaving := false; isEditing := isEditing pg; isLoading := isLoading pg;
          toasts := toasts pg ++ [save_failed_toast];
          backend := log (backend pg)
                       [console_error [PString "Error saving metadata:";
                                       PThrown e]] |}
   end).
Proof.
  intros Hu Hp.
  destruct (deleteProjectEmbeddingsByType w (projectId props)
              Supabase.project_metadata (backend pg)) as [c1 st1] eqn:Hd.
  assert (Hc1 : exists r1, c1 = Normal r1).
  { destruct (delete_by_type_run w (projectId props) Supabase.project_metadata
                (backend pg)) as (r1 & evs1 & H1 & _).
    rewrite Hd in H1. inversion H1. now exists r1. }
  destruct Hc1 as [r1 ->].
  destruct (storeProjectEmbedding w (metadata_embedding props u p) st1)
    as [c2 st2] eqn:Hs.
  assert (Hc2 : exists r2, c2 = Normal r2).
  { destruct (store_run w (metadata_embedding props u p) st1 eq_refl)
      as (r2 & evs2 & _ & _ & [Hsto | (v & evs0 & Hsto & _)]);
      rewrite Hs in Hsto; inversion Hsto; now exists r2. }
  destruct Hc2 as [r2 ->].
  unfold handleSaveMetadata, after_embedding. rewrite Hu, Hp, Hd. cbn [snd].
  rewrite Hs. cbn [snd].
  unfold try_finally, try_catch, bind, upsert_metadata, loadProjectData_started, lift,
    setIsSaving, setIsEditing, setIsLoading, toast, throw_if_error, emit, throw, ret.
  rewrite Hu.
  destruct (upsert_outcome props) as [|e|e]; cbn [backend with_backend].
  - rewrite Hd. cbn [backend with_backend]. rewrite Hs. reflexivity.
  - reflexivity.
  - reflexivity.
Qed.

Lemma after_embedding_events (w : World) (props : Props) (u : User) (p : Project)
  (st : State) :
  exists evs,
    events (after_embedding w props u p st) = events st ++ evs /\ quiet evs /\
    Forall (fun e => is_provider_call e = false
                     \/ e = fetch_call (prepareProjectMetadataForEmbedding
                                          (metadata props) (project_name p))) evs.
Proof.
  unfold after_embedding.
  destruct (delete_by_type_run w (projectId props) Supabase.project_metadata st)
    as (r1 & evs1 & H1 & Hq1 & Hp1).
  rewrite H1. cbn [snd].
  set (st1 := match db_outcome w _ with Applied => _ | _ => _ end).
  assert (Hst1 : exists evs, events st1 = events st ++ evs /\ quiet evs /\
                             Forall (fun e => is_provider_call e = false) evs).
  { subst st1. destruct (db_outcome w _).
    - exists []. simpl. rewrite app_nil_r. repeat split; constructor.
    - now exists evs1.
    - now exists evs1. }
  destruct Hst1 as (evsA & HA & HqA & HpA).
  destruct (store_run w (metadata_embedding props u p) st1 eq_refl)
    as (r2 & evs2 & Hq2 & Hp2 & [Hsto | (v & evs0 & Hsto & Hev)]);
    rewrite Hsto; cbn [snd].
  - exists (evsA ++ evs2). simpl. rewrite HA, app_assoc.
    split; [reflexivity|]. split; [now apply quiet_app|].
    apply Forall_app. split; [|exact Hp2].
    eapply Forall_impl; [|exact HpA]. intros e He. now left.
  - exists (evsA ++ evs2). simpl in Hev |- *. rewrite <- Hev, HA, app_assoc.
    split; [reflexivity|]. split; [now apply quiet_app|].
    apply Forall_app. split; [|exact Hp2].
    eapply Forall_impl; [|exact HpA]. intros e He. now left.
Qed.

(** When the delete is applied, the two calls leave the embeddings that are
    not metadata embeddings of the project as they were. *)
Lemma selected_metadata_embedding (props : Props) (u : User) (p : Project)
  (v : option Vector) :
  ProjectEmbeddingData.selected
    [ProjectEmbeddingData.eq_project_id (projectId props);
     ProjectEmbeddingData.eq_content_type Supabase.project_metadata]
    (ProjectEmbeddingData.with_embedding (metadata_embedding props u p) v) = true.
Proof. simpl. now rewrite String.eqb_refl. Qed.

(** X17.  A save by a signed-in user on a loaded project always returns and
    ends with [isSaving] false.  It shows exactly one toast: the success
    toast when the upsert of the form was applied, the error toast
    otherwise.  The warning of the inner [catch] is never logged: whatever
    happens to the embedding stays invisible to the user. *)
Theorem save_toast_follows_upsert (w : World) (props : Props) (u : User)
  (p : Project) (pg : Page) :
  user props = Some u ->
  project props = Some p ->
  exists pg',
    handleSaveMetadata w props pg = (Normal tt, pg') /\
    isSaving pg' = false /\
    toasts pg' = toasts pg ++ [match upsert_outcome props with
                               | Applied => saved_toast
                               | _ => save_failed_toast
                               end] /\
    filter is_embedding_warning (events (backend pg'))
    = filter is_embedding_warning (events (backend pg)).
Proof.
  intros Hu Hp. rewrite (handleSaveMetadata_run w props u p pg Hu Hp).
  eexists. split; [reflexivity|].
  destruct (upsert_outcome props) as [|e|e]; cbn [isSaving toasts backend].
  - split; [reflexivity|]. split; [reflexivity|].
    destruct (after_embedding_events w props u p (backend pg)) as (evs & -> & Hq & _).
    rewrite filter_app, (filter_quiet evs Hq). apply app_nil_r.
  - repeat split. simpl. rewrite filter_app. simpl. apply app_nil_r.
  - repeat split. simpl. rewrite filter_app. simpl. apply app_nil_r.
Qed.

Lemma save_toast_follows_upsert_witness :
  exists pg',
    handleSaveMetadata world_http_500 (props_of Applied) (page_of crowded_state)
    = (Normal tt, pg') /\
    isSaving pg' = false /\
    toasts pg' = [saved_toast] /\
    filter is_embedding_warning (events (backend pg')) = [].
Proof.
  apply (save_toast_follows_upsert world_http_500 (props_of Applied)
           {| id := "acme" |} {| project_name := "Alpha" |} (page_of crowded_state)
           eq_refl eq_refl).
Defined.

(** X18.  A save whose upsert is not applied leaves both embedding tables
    as they were, calls no provider and leaves the form in edit mode as it
    was. *)
Theorem save_failure_touches_no_embedding (w : World) (props : Props) (pg : Page) :
  upsert_outcome props <> Applied ->
  exists pg',
    handleSaveMetadata w props pg = (Normal tt, pg') /\
    same_tables (backend pg) (backend pg') /\
    provider_calls (backend pg') = provider_calls (backend pg) /\
    isEditing pg' = isEditing pg.
Proof.
  intros Hup.
  destruct (user props) as [u|] eqn:Hu.
  2:{ exists pg. unfold handleSaveMetadata. rewrite Hu.
      repeat split; reflexivity. }
  destruct (project props) as [p|] eqn:Hp.
  2:{ exists pg. unfold handleSaveMetadata. rewrite Hu, Hp.
      repeat split; reflexivity. }
  rewrite (handleSaveMetadata_run w props u p pg Hu Hp).
  eexists. split; [reflexivity|].
  destruct (upsert_outcome props) as [|e|e]; [congruence| |];
    cbn [backend isEditing]; (split; [apply same_tables_log|]);
    (split; [|reflexivity]);
    unfold provider_calls; simpl; rewrite filter_app; simpl; apply app_nil_r.
Qed.

Lemma save_failure_touches_no_embedding_witness :
  exists pg',
    handleSaveMetadata world_ok (props_of (Reported ThrownOther))
      (page_of crowded_state) = (Normal tt, pg') /\
    same_tables crowded_state (backend pg') /\
    provider_calls (backend pg') = [] /\
    isEditing pg' = true.
Proof.
  apply (save_failure_touches_no_embedding world_ok (props_of (Reported ThrownOther))
           (page_of crowded_state)).
  discriminate.
Defined.

(** The two calls when the delete is applied and the client reports its
    failure. *)
Lemma after_embedding_client_failure (w : World) (props : Props) (u : User)
  (p : Project) (st : State) :
  db_outcome w (DeleteProject
                  [ProjectEmbeddingData.eq_project_id (projectId props);
                   ProjectEmbeddingData.eq_content_type Supabase.project_metadata])
  = Applied ->
  ReportedFailure w (prepareProjectMetadataForEmbedding (metadata props)
                     (project_name p)) ->
  project_embeddings (after_embedding w props u p st)
  = filter (fun r => negb (ProjectEmbeddingData.selected
                             [ProjectEmbeddingData.eq_project_id (projectId props);
                              ProjectEmbeddingData.eq_content_type
                                Supabase.project_metadata] r))
           (project_embeddings st).
Proof.
  intros Hdel Hfail. unfold after_embedding.
  destruct (delete_by_type_run w (projectId props) Supabase.project_metadata st)
    as (r1 & evs1 & H1 & _).
  rewrite H1, Hdel. cbn [snd].
  destruct (guarded_insert_run "Error storing project embedding:" w None
              (prepareProjectMetadataForEmbedding (metadata props) (project_name p))
              (fun e => InsertProject
                          (ProjectEmbeddingData.with_embedding
                             (metadata_embedding props u p) e))
              (apply_op (DeleteProject
                           [ProjectEmbeddingData.eq_project_id (projectId props);
                            ProjectEmbeddingData.eq_content_type
                              Supabase.project_metadata]) st))
    as (r2 & st2 & evs & Hsto & _ & _ & Hcf).
  destruct (Hcf eq_refl Hfail) as (m & _ & _ & ->).
  unfold storeProjectEmbedding. cbn [ProjectEmbeddingData.embedding
    ProjectEmbeddingData.content metadata_embedding].
  cbn [ProjectEmbeddingData.embedding ProjectEmbeddingData.content
       metadata_embedding] in Hsto.
  rewrite Hsto. reflexivity.
Qed.

(** The two calls when the database applies both writes and the provider
    answers with [v]. *)
Lemma after_embedding_applied (w : World) (props : Props) (u : User) (p : Project)
  (st : State) (status : nat) (statusText : string) (v : option Vector) :
  db_outcome w (DeleteProject
                  [ProjectEmbeddingData.eq_project_id (projectId props);
                   ProjectEmbeddingData.eq_content_type Supabase.project_metadata])
  = Applied ->
  db_outcome w (InsertProject
                  (ProjectEmbeddingData.with_embedding
                     (metadata_embedding props u p) v)) = Applied ->
  truthy_opt (VITE_GEMINI_API_KEY w) = true ->
  fetch w (prepareProjectMetadataForEmbedding (metadata props) (project_name p))
  = FetchResponds true status statusText (JsonResolves (Values v)) ->
  project_embeddings (after_embedding w props u p st)
  = filter (fun r => negb (ProjectEmbeddingData.selected
                             [ProjectEmbeddingData.eq_project_id (projectId props);
                              ProjectEmbeddingData.eq_content_type
                                Supabase.project_metadata] r))
           (project_embeddings st)
    ++ [ProjectEmbeddingData.with_embedding (metadata_embedding props u p) v].
Proof.
  intros Hdel Hins Hkey Hfetch. unfold after_embedding.
  destruct (delete_by_type_run w (projectId props) Supabase.project_metadata st)
    as (r1 & evs1 & H1 & _).
  rewrite H1, Hdel. cbn [snd].
  unfold storeProjectEmbedding, guarded, resolve_embedding.
  cbn [ProjectEmbeddingData.embedding ProjectEmbeddingData.content metadata_embedding].
  unfold generateEmbedding, try_catch, do_fetch, bind.
  rewrite Hkey. cbn [negb]. rewrite emit_log. cbn [ret]. rewrite Hfetch.
  cbn [negb read_values ret EmbeddingResponse.error EmbeddingResponse.embedding
       truthy_opt].
  unfold write.
  change (ProjectEmbeddingData.with_embedding _ v)
    with (ProjectEmbeddingData.with_embedding (metadata_embedding props u p) v).
  rewrite Hins. cbn [throw_if_error ret snd]. reflexivity.
Qed.

(** X19.  When the upsert and both embedding writes are applied and the
    provider answers with a vector, the save leaves exactly one metadata
    embedding for the project: the text prepared from the form, owned by
    the signed-in user, with the vector of the provider.  All other
    embeddings are as before. *)
Theorem save_replaces_metadata_embedding (w : World) (props : Props) (u : User)
  (p : Project) (pg pg' : Page) (status : nat) (statusText : string)
  (v : option Vector) :
  user props = Some u ->
  project props = Some p ->
  upsert_outcome props = Applied ->
  db_outcome w (DeleteProject
                  [ProjectEmbeddingData.eq_project_id (projectId props);
                   ProjectEmbeddingData.eq_content_type Supabase.project_metadata])
  = Applied ->
  db_outcome w (InsertProject
                  (ProjectEmbeddingData.with_embedding
                     (metadata_embedding props u p) v)) = Applied ->
  truthy_opt (VITE_GEMINI_API_KEY w) = true ->
  fetch w (prepareProjectMetadataForEmbedding (metadata props) (project_name p))
  = FetchResponds true status statusText (JsonResolves (Values v)) ->
  handleSaveMetadata w props pg = (Normal tt, pg') ->
  metadata_embeddings (projectId props) (backend pg')
  = [ProjectEmbeddingData.with_embedding (metadata_embedding props u p) v] /\
  other_embeddings (projectId props) (backend pg')
  = other_embeddings (projectId props) (backend pg).
Proof.
  intros Hu Hp Hup Hdel Hins Hkey Hfetch Hrun.
  rewrite (handleSaveMetadata_run w props u p pg Hu Hp), Hup in Hrun.
  inversion Hrun; subst pg'. cbn [backend].
  unfold metadata_embeddings, other_embeddings.
  rewrite (after_embedding_applied w props u p (backend pg) status statusText v
             Hdel Hins Hkey Hfetch).
  rewrite !filter_app. split.
  - rewrite StoreDeleteSpec.filter_filter_absurd
      by (intros r Hr; now rewrite Hr).
    cbn [filter app]. now rewrite selected_metadata_embedding.
  - rewrite StoreDeleteSpec.filter_filter_same.
    cbn [filter]. rewrite selected_metadata_embedding. cbn [negb]. apply app_nil_r.
Qed.

Lemma save_replaces_metadata_embedding_witness :
  metadata_embeddings "p1"
    (backend (snd (handleSaveMetadata world_ok (props_of Applied)
                     (page_of crowded_state))))
  = [ProjectEmbeddingData.with_embedding
       (metadata_embedding (props_of Applied) {| id := "acme" |}
          {| project_name := "Alpha" |}) (Some [1%Q; 0%Q])] /\
  other_embeddings "p1"
    (backend (snd (handleSaveMetadata world_ok (props_of Applied)
                     (page_of crowded_state))))
  = other_embeddings "p1" crowded_state.
Proof.
  apply (save_replaces_metadata_embedding world_ok (props_of Applied)
           {| id := "acme" |} {| project_name := "Alpha" |} (page_of crowded_state)
           (snd (handleSaveMetadata world_ok (props_of Applied)
                   (page_of crowded_state)))
           200 "OK" (Some [1%Q; 0%Q]));
    reflexivity.
Defined.

(** The two calls when the delete and the insert are applied and the
    client fails without reporting it. *)
Lemma after_embedding_silent_failure (w : World) (props : Props) (u : User)
  (p : Project) (st : State) (v : option Vector) :
  db_outcome w (DeleteProject
                  [ProjectEmbeddingData.eq_project_id (projectId props);
                   ProjectEmbeddingData.eq_content_type Supabase.project_metadata])
  = Applied ->
  db_outcome w (InsertProject
                  (ProjectEmbeddingData.with_embedding
                     (metadata_embedding props u p) v)) = Applied ->
  SilentFailure w (prepareProjectMetadataForEmbedding (metadata props)
                     (project_name p)) v ->
  project_embeddings (after_embedding w props u p st)
  = filter (fun r => negb (ProjectEmbeddingData.selected
                             [ProjectEmbeddingData.eq_project_id (projectId props);
                              ProjectEmbeddingData.eq_content_type
                                Supabase.project_metadata] r))
           (project_embeddings st)
    ++ [ProjectEmbeddingData.with_embedding (metadata_embedding props u p) v].
Proof.
  intros Hdel Hins Hsilent. unfold after_embedding.
  destruct (delete_by_type_run w (projectId props) Supabase.project_metadata st)
    as (r1 & evs1 & H1 & _).
  rewrite H1, Hdel. cbn [snd].
  destruct (guarded_insert_silent "Error storing project embedding:" w
              (prepareProjectMetadataForEmbedding (metadata props) (project_name p))
              (fun e => InsertProject
                          (ProjectEmbeddingData.with_embedding
                             (metadata_embedding props u p) e))
              (apply_op (DeleteProject
                           [ProjectEmbeddingData.eq_project_id (projectId props);
                            ProjectEmbeddingData.eq_content_type
                              Supabase.project_metadata]) st)
              v Hsilent Hins) as (evs & Hsto).
  unfold storeProjectEmbedding.
  cbn [ProjectEmbeddingData.embedding ProjectEmbeddingData.content metadata_embedding].
  cbn [ProjectEmbeddingData.embedding ProjectEmbeddingData.content
       metadata_embedding] in Hsto.
  rewrite Hsto. reflexivity.
Qed.

(** X20.  When the upsert and the delete are applied, the success toast is
    shown whatever becomes of the embedding.  If the client reports its
    failure (no API key, a non-success status, or a rejected request, an
    unparsable body or a body without [embedding] whose error carries a
    message), the save leaves the project without any metadata embedding.
    If the failure is not reported (the [embedding] of the body holds no
    [values], or the error has an empty message) and the insert is applied,
    the save leaves one metadata embedding whose vector is [undefined] or
    empty.  All other embeddings are as before in both cases. *)
Theorem save_with_failing_client (w : World) (props : Props)
  (u : User) (p : Project) (pg pg' : Page) :
  user props = Some u ->
  project props = Some p ->
  upsert_outcome props = Applied ->
  db_outcome w (DeleteProject
                  [ProjectEmbeddingData.eq_project_id (projectId props);
                   ProjectEmbeddingData.eq_content_type Supabase.project_metadata])
  = Applied ->
  handleSaveMetadata w props pg = (Normal tt, pg') ->
  toasts pg' = toasts pg ++ [saved_toast] /\
  (ReportedFailure w (prepareProjectMetadataForEmbedding (metadata props)
                        (project_name p)) ->
   metadata_embeddings (projectId props) (backend pg') = [] /\
   other_embeddings (projectId props) (backend pg')
   = other_embeddings (projectId props) (backend pg)) /\
  (forall v,
      SilentFailure w (prepareProjectMetadataForEmbedding (metadata props)
                         (project_name p)) v ->
      db_outcome w (InsertProject
                      (ProjectEmbeddingData.with_embedding
                         (metadata_embedding props u p) v)) = Applied ->
      metadata_embeddings (projectId props) (backend pg')
      = [ProjectEmbeddingData.with_embedding (metadata_embedding props u p) v] /\
      other_embeddings (projectId props) (backend pg')
      = other_embeddings (projectId props) (backend pg)).
Proof.
  intros Hu Hp Hup Hdel Hrun.
  rewrite (handleSaveMetadata_run w props u p pg Hu Hp), Hup in Hrun.
  inversion Hrun; subst pg'. cbn [backend toasts].
  split; [reflexivity|]. split.
  - intros Hfail. unfold metadata_embeddings, other_embeddings.
    rewrite (after_embedding_client_failure w props u p (backend pg) Hdel Hfail).
    split.
    + apply StoreDeleteSpec.filter_filter_absurd. intros r Hr. now rewrite Hr.
    + apply StoreDeleteSpec.filter_filter_same.
  - intros v Hsilent Hins. unfold metadata_embeddings, other_embeddings.
    rewrite (after_embedding_silent_failure w props u p (backend pg) v
               Hdel Hins Hsilent).
    rewrite !filter_app. split.
    + rewrite StoreDeleteSpec.filter_filter_absurd
        by (intros r Hr; now rewrite Hr).
      cbn [filter app]. now rewrite selected_metadata_embedding.
    + rewrite StoreDeleteSpec.filter_filter_same.
      cbn [filter]. rewrite selected_metadata_embedding. cbn [negb]. apply app_nil_r.
Qed.

Lemma save_with_failing_client_witness :
  (toasts (snd (handleSaveMetadata world_http_500 (props_of Applied)
                  (page_of crowded_state))) = [saved_toast] /\
   metadata_embeddings "p1"
     (backend (snd (handleSaveMetadata world_http_500 (props_of Applied)
                      (page_of crowded_state)))) = [] /\
   other_embeddings "p1"
     (backend (snd (handleSaveMetadata world_http_500 (props_of Applied)
                      (page_of crowded_state))))
   = other_embeddings "p1" crowded_state) /\
  (toasts (snd (handleSaveMetadata MoreSamples.world_no_values (props_of Applied)
                  (page_of crowded_state))) = [saved_toast] /\
   metadata_embeddings "p1"
     (backend (snd (handleSaveMetadata MoreSamples.world_no_values (props_of Applied)
                      (page_of crowded_state))))
   = [metadata_embedding (props_of Applied) {| id := "acme" |}
        {| project_name := "Alpha" |}]).
Proof.
  split.
  - destruct (save_with_failing_client world_http_500 (props_of Applied)
                {| id := "acme" |} {| project_name := "Alpha" |} (page_of crowded_state)
                (snd (handleSaveMetadata world_http_500 (props_of Applied)
                        (page_of crowded_state)))
                eq_refl eq_refl eq_refl eq_refl eq_refl) as (Htoast & Hloud & _).
    split; [exact Htoast|]. apply Hloud.
    eapply http_status; reflexivity.
  - destruct (save_with_failing_client MoreSamples.world_no_values (props_of Applied)
                {| id := "acme" |} {| project_name := "Alpha" |} (page_of crowded_state)
                (snd (handleSaveMetadata MoreSamples.world_no_values (props_of Applied)
                        (page_of crowded_state)))
                eq_refl eq_refl eq_refl eq_refl eq_refl) as (Htoast & _ & Hsilent).
    split; [exact Htoast|].
    apply (proj1 (Hsilent None
                    (values_missing MoreSamples.world_no_values _ 200 "OK"
                       eq_refl eq_refl)
                    eq_refl)).
Defined.

End PageSpec.

(** ** Requests that the functions turn away *)

Module GateSpec.
Import Js Runtime Supabase Edge Observe LibraryRest Refusals.
Import JsFacts ClientFacts Samples.

Lemma untouched_refl (st : State) : untouched st st.
Proof. split; [apply same_tables_refl | reflexivity]. Qed.

Lemma untouched_error (st : State) (args : list Printed) :
  untouched st (log st [console_error args]).
Proof.
  split; [apply same_tables_log|].
  unfold provider_calls. simpl. rewrite filter_app. simpl. apply app_nil_r.
Qed.

Lemma not_admitted (w : World) (req : Request) :
  admitted w req = false ->
  is_preflight req = true \/
  (is_preflight req = false /\ truthy_opt (authorization req) = false) \/
  (is_preflight req = false /\ truthy_opt (authorization req) = true /\
   truthy_opt (GEMINI_API_KEY w) = false).
Proof.
  unfold admitted.
  destruct (is_preflight req), (truthy_opt (authorization req)),
    (truthy_opt (GEMINI_API_KEY w)); simpl; intros H; try discriminate; tauto.
Qed.

(** X21.  A request that is a preflight, or carries no [Authorization]
    header, or arrives while [GEMINI_API_KEY] is not set, is answered by
    each of the three functions with 204, 401 and 500 respectively; none of
    them then changes an embedding table or calls the provider. *)
Theorem refused_requests_touch_nothing (w : World) (req : Request) (st : State)
  (projects : RegenerateProjectEmbeddings.Sources)
  (companies : RegenerateEmbeddings.Sources)
  (inputs : GenerateProjectEmbedding.Inputs) :
  admitted w req = false ->
  (exists resp st',
      RegenerateProjectEmbeddings.serve w projects req st = (Normal resp, st') /\
      RegenerateProjectEmbeddings.status resp = refusal req /\ untouched st st') /\
  (exists resp st',
      RegenerateEmbeddings.serve w companies req st = (Normal resp, st') /\
      RegenerateEmbeddings.status resp = refusal req /\ untouched st st') /\
  (exists resp st',
      GenerateProjectEmbedding.serve w inputs req st = (Normal resp, st') /\
      GenerateProjectEmbedding.response_status resp = refusal req /\
      untouched st st').
Proof.
  intros H. unfold refusal.
  unfold RegenerateProjectEmbeddings.serve, RegenerateEmbeddings.serve,
    GenerateProjectEmbedding.serve.
  destruct (not_admitted w req H) as [Hp | [[Hp Ha] | (Hp & Ha & Hk)]].
  - rewrite Hp. repeat split; eexists; eexists;
      (split; [reflexivity|]); (split; [reflexivity | apply untouched_refl]).
  - rewrite Hp, Ha. unfold try_catch. cbn [negb ret].
    repeat split; eexists; eexists;
      (split; [reflexivity|]); (split; [reflexivity | apply untouched_refl]).
  - rewrite Hp, Ha, Hk. unfold try_catch, bind. cbn [negb throw].
    rewrite !emit_log. cbn [ret].
    repeat split; eexists; eexists;
      (split; [reflexivity|]); (split; [reflexivity | apply untouched_error]).
Qed.

Lemma refused_requests_touch_nothing_witness :
  (exists resp st',
      RegenerateProjectEmbeddings.serve world_ok project_sources
        {| method := "POST"; authorization := None |} crowded_state
      = (Normal resp, st') /\
      RegenerateProjectEmbeddings.status resp = 401 /\
      untouched crowded_state st') /\
  (exists resp st',
      RegenerateEmbeddings.serve world_ok company_sources
        {| method := "POST"; authorization := None |} crowded_state
      = (Normal resp, st') /\
      RegenerateEmbeddings.status resp = 401 /\ untouched crowded_state st') /\
  (exists resp st',
      GenerateProjectEmbedding.serve world_ok OnDemandSamples.metadata_request
        {| method := "POST"; authorization := None |} crowded_state
      = (Normal resp, st') /\
      GenerateProjectEmbedding.response_status resp = 401 /\
      untouched crowded_state st').
Proof.
  apply (refused_requests_touch_nothing world_ok
           {| method := "POST"; authorization := None |} crowded_state
           project_sources company_sources OnDemandSamples.metadata_request).
  reflexivity.
Defined.

End GateSpec.

(** ** The two embedding clients *)

Module ClientAgreement.
Import Js Runtime Supabase Embeddings Observe LibraryRest.
Import JsFacts ClientFacts Samples.

(** X22.  With an API key in the browser environment, the client of the
    library sends the same single request as the client of the functions.
    Where the latter returns a vector, the former returns it with no
    error and ends in the same state; where the latter throws, the former
    returns an empty vector with an error message and logs the failure. *)
Theorem library_client_follows_function_client (w : World) (text : string)
  (st : State) :
  truthy_opt (VITE_GEMINI_API_KEY w) = true ->
  match Edge.generateEmbedding w text st with
  | (Normal v, st1) =>
      Embeddings.generateEmbedding w text st
      = (Normal {| EmbeddingResponse.embedding := v;
                   EmbeddingResponse.error := None |}, st1)
  | (Throw e, st1) =>
      st1 = log st [fetch_call text] /\
      exists thrown,
        Embeddings.generateEmbedding w text st
        = (Normal {| EmbeddingResponse.embedding := Some [];
                     EmbeddingResponse.error := Some (message_of thrown) |},
           log st1 [console_error [PString "Error generating embedding:";
                                   PThrown thrown]]) /\
        (thrown = e \/
         exists status statusText body,
           fetch w text = FetchResponds false status statusText body /\
           e = ThrownError ("Gemini API error: " +++ statusText) /\
           thrown = ThrownError ("Gemini API error: " +++ string_of_nat status))
  end.
Proof.
  intros Hkey.
  unfold Edge.generateEmbedding, Embeddings.generateEmbedding, try_catch, do_fetch, bind.
  rewrite Hkey. cbn [negb]. rewrite emit_log. cbn [ret].
  destruct (fetch w text) as [e | [|] status statusText [e | [type_error | values]]]
    eqn:Hfetch;
    cbn [throw ret read_values negb]; rewrite ?emit_log; cbn [ret];
    try reflexivity;
    (split; [reflexivity|]); eexists; (split; [reflexivity|]);
    try (left; reflexivity);
    right; do 3 eexists; repeat split; reflexivity.
Qed.

Lemma library_client_follows_function_client_witness :
  fst (Edge.generateEmbedding world_ok "Project: Alpha" empty_state)
  = Normal (Some [1%Q; 0%Q]) /\
  Embeddings.generateEmbedding world_ok "Project: Alpha" empty_state
  = (Normal {| EmbeddingResponse.embedding := Some [1%Q; 0%Q];
               EmbeddingResponse.error := None |},
     snd (Edge.generateEmbedding world_ok "Project: Alpha" empty_state)).
Proof.
  split; [reflexivity|].
  apply (library_client_follows_function_client world_ok "Project: Alpha"
           empty_state).
  reflexivity.
Defined.

End ClientAgreement.

(** ** What [match-documents] sends to the database *)

Module MatchDocumentsSpec.
Import Js Runtime Supabase MatchDocuments.

Lemma is_valid_table_In (table : JsValue) :
  is_valid_table table = true ->
  exists name, table = JsString name /\ In name validTables.
Proof.
  destruct table as [| |b|n|negative|name|items|fields]; try discriminate.
  unfold is_valid_table. intros H. apply existsb_exists in H.
  destruct H as (t & Hin & Heq). apply String.eqb_eq in Heq. subst t.
  now exists name.
Qed.

Lemma no_query_array (v : JsValue) :
  no_query v = false -> exists x xs, v = JsArray (x :: xs).
Proof.
  destruct v as [| |b|n|negative|name|[|x xs]|fields]; try discriminate.
  intros _. now exists x, xs.
Qed.

Lemma emit_trace (e : Event) (tr : Trace) : emit e tr = (Normal tt, tr ++ [e]).
Proof. reflexivity. Qed.

(** The part after the validation returns or throws, with exactly one
    call. *)
Lemma database_call_run (db : RpcArgs -> RpcAnswer) (args : RpcArgs) (tr : Trace) :
  (exists resp evs,
      search db args tr = (Normal resp, tr ++ evs) /\ sent evs = [args] /\
      (status resp = 200 \/ status resp = 500)) \/
  (exists e, search db args tr = (Throw e, tr ++ [rpc_sent args])).
Proof.
  unfold search, rpc, bind. rewrite emit_trace.
  destruct (db args) as [e | data [error|]]; cbn [throw ret snd fst].
  - right. now exists e.
  - left. rewrite emit_trace.
    destruct (includes "function" (message error)
              && includes "does not exist" (message error));
      cbn [ret]; rewrite <- app_assoc; eexists; eexists;
      (split; [reflexivity|]); (split; [reflexivity|]); now right.
  - left. rewrite emit_trace. cbn [ret]. rewrite <- app_assoc.
    eexists; eexists. split; [reflexivity|]. split; [reflexivity|]. now left.
Qed.

Lemma answered_400 (tr : Trace) (message : string) (evs : list Event) :
  sent evs = [] -> answered tr (Normal (bad_request message), tr ++ evs).
Proof.
  intros H. exists (bad_request message), evs.
  split; [reflexivity|]. split; [now right; left|]. split; [now left | now intros _].
Qed.

Lemma answered_500 (tr : Trace) (e : JsThrown) (evs : list Event) :
  sent evs = [] ->
  answered tr
    (Normal {| status := 500; body := Unexpected (message_or_internal e) |},
     (tr ++ evs) ++ [unexpected e]).
Proof.
  intros H. eexists; exists (evs ++ [unexpected e]).
  split; [now rewrite app_assoc|]. split; [now right; right|].
  split; [|discriminate]. left. unfold sent in *. rewrite flat_map_app, H. reflexivity.
Qed.

(** X23.  The function always answers, with status 200, 400 or 500.  It
    calls the database at most once, and only with one of the two table
    names, a non-empty array as query and a count that is truthy and, if
    it is a number, at least 1; a request answered with 400 reaches the
    database not at all.  The body is untyped and nothing more is checked
    of the count: the value [true] passes the test and reaches the
    database. *)
Theorem match_documents_sends_only_checked :
  (forall (c : Conversions) (env : Env) (json : JsonBody)
          (db : RpcArgs -> RpcAnswer) (method : string) (tr : Trace),
      exists resp evs,
        serve c env json db method tr = (Normal resp, tr ++ evs) /\
        (status resp = 200 \/ status resp = 400 \/ status resp = 500) /\
        (sent evs = [] \/ exists args, sent evs = [args] /\ checked_args args) /\
        (status resp = 400 -> sent evs = [])) /\
  (forall (c : Conversions) (db : RpcArgs -> RpcAnswer) (tr : Trace)
          (name : string) (x : JsValue) (xs : list JsValue),
      In name validTables ->
      exists completion evs,
        serve c {| SUPABASE_URL := Some "url"; SUPABASE_SERVICE_ROLE_KEY := Some "key" |}
              (BodyParsed (count_true_request name x xs)) db "POST" tr
        = (completion, tr ++ evs) /\
        sent evs = [{| p_table := JsString name;
                       p_query_embedding := JsArray (x :: xs);
                       p_match_count := JsBool true;
                       p_filter := JsObject [] |}]).
Proof.
  split.
  - intros c env json db method tr.
    change (answered tr (serve c env json db method tr)).
    unfold serve.
    destruct (String.eqb method "OPTIONS").
    { exists {| status := 200; body := OkText |}, []. cbn [ret]. rewrite app_nil_r.
      split; [reflexivity|]. split; [now left|]. split; [now left | reflexivity]. }
    unfold try_catch, bind.
    destruct (negb (truthy_opt (SUPABASE_URL env))
              || negb (truthy_opt (SUPABASE_SERVICE_ROLE_KEY env)));
      cbn [throw ret].
    { rewrite emit_trace. cbn [ret]. rewrite <- (app_nil_r tr) at 2.
      now apply answered_500. }
    destruct json as [e | request]; cbn [throw ret].
    { rewrite emit_trace. cbn [ret]. rewrite <- (app_nil_r tr) at 2.
      now apply answered_500. }
    destruct (text_of c (table request)) as [e | table_text]; cbn [converted throw ret].
    { rewrite emit_trace. cbn [ret]. rewrite <- (app_nil_r tr) at 2.
      now apply answered_500. }
    destruct (text_of c (match_count request)) as [e | count_text];
      cbn [converted throw ret].
    { rewrite emit_trace. cbn [ret]. rewrite <- (app_nil_r tr) at 2.
      now apply answered_500. }
    rewrite emit_trace.
    set (line := received table_text count_text (filter request)).
    destruct (truthy_value (table request)); cbn [negb ret];
      [|now apply answered_400].
    destruct (no_query (query_embedding request)) eqn:Hquery; cbn [ret];
      [now apply answered_400|].
    unfold bad_count, bind.
    destruct (truthy_value (match_count request)) eqn:Htruthy; cbn [negb ret];
      [|now apply answered_400].
    destruct (number_of c (match_count request)) as [e | number] eqn:Hnumber;
      cbn [converted throw ret].
    { rewrite emit_trace. cbn [ret]. now apply answered_500. }
    destruct (below_one number) eqn:Hbelow; [now apply answered_400|].
    destruct (is_valid_table (table request)) eqn:Htable; cbn [negb ret];
      [|now apply answered_400].
    assert (Hchecked : checked_args
                         {| p_table := table request;
                            p_query_embedding := query_embedding request;
                            p_match_count := match_count request;
                            p_filter := if truthy_value (filter request)
                                        then filter request
                                        else JsObject [] |}).
    { split; [exact (is_valid_table_In _ Htable)|].
      split; [exact (no_query_array _ Hquery)|].
      split; [exact Htruthy|].
      cbn [p_match_count]. intros n Hn. rewrite Hn in Hnumber.
      cbn [number_of] in Hnumber. inversion Hnumber; subst number.
      cbn [below_one] in Hbelow. apply negb_false_iff in Hbelow.
      now apply Qle_bool_iff. }
    match goal with
    | |- context [search db ?a ?t] =>
        destruct (database_call_run db a t)
          as [(resp & evs & Hrun & Hsent & Hst) | (e & Hrun)];
        rewrite Hrun
    end.
    + exists resp, (line :: evs).
      rewrite <- app_assoc. split; [reflexivity|].
      split; [destruct Hst; tauto|].
      split; [right; eexists; split; [exact Hsent | exact Hchecked]|].
      destruct Hst as [Hst | Hst]; rewrite Hst; discriminate.
    + rewrite emit_trace. cbn [ret]. rewrite <- !app_assoc.
      eexists; eexists. split; [reflexivity|].
      split; [now right; right|].
      split; [|discriminate].
      right. eexists. split; [reflexivity | exact Hchecked].
  - intros c db tr name x xs Hname.
    assert (Hvalid : is_valid_table (JsString name) = true /\ truthy name = true).
    { destruct Hname as [<- | [<- | []]]; split; reflexivity. }
    destruct Hvalid as [Hvalid Htruthy].
    unfold serve, try_catch, bind, bad_count, bind.
    cbn [String.eqb Ascii.eqb Bool.eqb truthy_opt SUPABASE_URL SUPABASE_SERVICE_ROLE_KEY
         negb orb ret count_true_request table match_count query_embedding filter
         text_of converted truthy_value no_query number_of below_one].
    change (truthy "url") with true. change (truthy "key") with true.
    cbn [negb orb ret]. rewrite !emit_trace, Htruthy, Hvalid.
    cbn [negb ret converted below_one].
    change (Qle_bool 1 1) with true. cbn [negb].
    match goal with
    | |- context [search db ?a ?t] =>
        destruct (database_call_run db a t)
          as [(resp & evs & Hrun & Hsent & _) | (e & Hrun)];
        rewrite Hrun
    end.
    + eexists; exists (received name "true" JsUndefined :: evs).
      rewrite <- app_assoc. split; [reflexivity | exact Hsent].
    + rewrite emit_trace. cbn [ret]. rewrite <- !app_assoc.
      eexists; eexists. split; [reflexivity|]. reflexivity.
Qed.

End MatchDocumentsSpec.

(** ** Each function keeps to its own table *)

Module FrameSpec.
Import Js Runtime Supabase Edge Frame.
Import JsFacts ClientFacts OnDemandSpec.

Section Preserved.
Context {X : Type}.
Variable f : State -> X.
Hypothesis f_log : forall st evs, f (log st evs) = f st.

Lemma preserves_ret {A : Type} (a : A) : preserves f (ret a).
Proof. intros st. reflexivity. Qed.

Lemma preserves_throw {A : Type} (e : JsThrown) : preserves f (@throw State A e).
Proof. intros st. reflexivity. Qed.

Lemma preserves_emit (e : Event) : preserves f (emit e).
Proof. intros st. rewrite emit_log. apply f_log. Qed.

Lemma preserves_bind {A B : Type} (m : M State A) (k : A -> M State B) :
  preserves f m -> (forall a, preserves f (k a)) -> preserves f (bind m k).
Proof.
  intros Hm Hk st. unfold bind. specialize (Hm st).
  destruct (m st) as [[a | e] st1]; cbn [snd] in *.
  - now rewrite Hk.
  - exact Hm.
Qed.

Lemma preserves_try_catch {A : Type} (m : M State A) (h : JsThrown -> M State A) :
  preserves f m -> (forall e, preserves f (h e)) -> preserves f (try_catch m h).
Proof.
  intros Hm Hh st. unfold try_catch. specialize (Hm st).
  destruct (m st) as [[a | e] st1]; cbn [snd] in *.
  - exact Hm.
  - now rewrite Hh.
Qed.

Lemma preserves_for_of {A B : Type} (xs : list A) (body : B -> A -> M State B) :
  (forall b a, preserves f (body b a)) -> forall acc, preserves f (for_of xs body acc).
Proof.
  intros Hbody. induction xs as [|x xs IH]; intros acc; cbn [for_of].
  - apply preserves_ret.
  - apply preserves_bind; [apply Hbody | exact IH].
Qed.

Lemma preserves_write (w : World) (op : DbOp) :
  (forall st, f (apply_op op st) = f st) -> preserves f (write w op).
Proof.
  intros Hop st. unfold write. destruct (db_outcome w op); cbn [snd]; auto.
Qed.

Lemma preserves_throw_if_error (error : option JsThrown) :
  preserves f (throw_if_error error).
Proof. intros st. now destruct error. Qed.

Lemma preserves_generateEmbedding (w : World) (text : string) :
  preserves f (Edge.generateEmbedding w text).
Proof.
  intros st. destruct (edge_generateEmbedding_run w text st) as [c H].
  rewrite H. apply f_log.
Qed.

End Preserved.

Ltac frame Hlog :=
  repeat first
    [ apply preserves_ret
    | apply preserves_throw
    | apply (preserves_emit _ Hlog)
    | apply preserves_throw_if_error
    | apply (preserves_generateEmbedding _ Hlog)
    | apply preserves_write; intros ?; reflexivity
    | apply preserves_bind; [|intros ?]
    | apply preserves_try_catch; [|intros ?]
    | apply preserves_for_of; intros ? ?
    | match goal with
      | |- preserves _ (if ?b then _ else _) => destruct b
      | |- preserves _ (match ?x with _ => _ end) => destruct x
      end ].

Lemma company_table_log (st : State) (evs : list Event) :
  company_brain_embeddings (log st evs) = company_brain_embeddings st.
Proof. reflexivity. Qed.

Lemma project_table_log (st : State) (evs : list Event) :
  project_embeddings (log st evs) = project_embeddings st.
Proof. reflexivity. Qed.

Lemma project_job_frame (w : World) (src : RegenerateProjectEmbeddings.Sources)
  (req : Request) :
  preserves company_brain_embeddings (RegenerateProjectEmbeddings.serve w src req).
Proof.
  unfold RegenerateProjectEmbeddings.serve,
    RegenerateProjectEmbeddings.regenerate_project,
    RegenerateProjectEmbeddings.regenerate_metadata,
    RegenerateProjectEmbeddings.regenerate_documents,
    RegenerateProjectEmbeddings.regenerate_document.
  frame company_table_log.
Qed.

Lemma company_job_frame (w : World) (src : RegenerateEmbeddings.Sources)
  (req : Request) :
  preserves project_embeddings (RegenerateEmbeddings.serve w src req).
Proof.
  unfold RegenerateEmbeddings.serve, RegenerateEmbeddings.sweep,
    RegenerateEmbeddings.regenerate_brain, RegenerateEmbeddings.regenerate_context,
    RegenerateEmbeddings.regenerate_chunk, RegenerateEmbeddings.regenerate_document.
  frame project_table_log.
Qed.

Lemma maybeSingle_frame (inp : GenerateProjectEmbedding.Inputs)
  (conds : list ProjectEmbeddingData.Cond) :
  preserves company_brain_embeddings (GenerateProjectEmbedding.maybeSingle inp conds).
Proof. intros st. reflexivity. Qed.

Lemma update_frame (inp : GenerateProjectEmbedding.Inputs) (i : nat)
  (g : ProjectEmbeddingData.t -> ProjectEmbeddingData.t) :
  preserves company_brain_embeddings (GenerateProjectEmbedding.update inp i g).
Proof.
  intros st. unfold GenerateProjectEmbedding.update.
  now destruct (GenerateProjectEmbedding.update_outcome inp).
Qed.

Lemma on_demand_frame (w : World) (inp : GenerateProjectEmbedding.Inputs)
  (req : Request) :
  preserves company_brain_embeddings (GenerateProjectEmbedding.serve w inp req).
Proof.
  unfold GenerateProjectEmbedding.serve, GenerateProjectEmbedding.metadata_branch,
    GenerateProjectEmbedding.document_branch, GenerateProjectEmbedding.parse,
    GenerateProjectEmbedding.single.
  repeat first
    [ apply maybeSingle_frame
    | apply update_frame
    | progress (frame company_table_log) ].
Qed.

(** X24.  Each function keeps to its own table, however it ends and
    whatever the provider and the database answer: the project job and the
    on-demand function never change the table of the company scope, and the
    company job never changes the table of the project scope. *)
Theorem functions_keep_to_their_table (w : World) (req : Request) (st : State)
  (projects : RegenerateProjectEmbeddings.Sources)
  (companies : RegenerateEmbeddings.Sources)
  (inputs : GenerateProjectEmbedding.Inputs) :
  company_brain_embeddings (snd (RegenerateProjectEmbeddings.serve w projects req st))
  = company_brain_embeddings st /\
  project_embeddings (snd (RegenerateEmbeddings.serve w companies req st))
  = project_embeddings st /\
  company_brain_embeddings (snd (GenerateProjectEmbedding.serve w inputs req st))
  = company_brain_embeddings st.
Proof.
  split; [apply project_job_frame | split];
    [apply company_job_frame | apply on_demand_frame].
Qed.

End FrameSpec.
